(** * Test Quality Scoring Engine: rule catalog, file reviewer and aggregator

    A shallow embedding of [src/core/quality-rules.ts] and
    [src/core/quality-reviewer.ts], followed by the properties of the
    engine that the specification states.

    Modelling conventions.
    - A JavaScript string is a Rocq [string]; every character is one code
      unit in the range 0..255.
    - Counters ([length], [violations], [testCount], ...) are [nat];
      weights and scores are [Z].
    - The numbers of [calculateScore] that are not integers (the severity
      multipliers 0.6 and 0.3, [actualDeduction], the normalised deduction
      and the quotients) are doubles: a double is the rational it denotes,
      and every operation rounds its exact result to the nearest number
      with 53 significant bits, a tie going to the even one ([Double]).
      The exponent range is not bounded, so overflow to [Infinity] and
      subnormal numbers are left out.  Sums and products of integers are
      exact.  [Math.round] is [floor (x + 1/2)].
    - The means of the aggregator are quotients of an integer sum by a
      count; the quotient is exact.  For scores from 0 to 100 its rounding
      by [Math.round] is that of the double quotient as long as there are
      fewer than 2^45 files: the quotient is a half-integer, which is a
      double, or it is further than 2^-46 from every half-integer, while
      the double quotient is within 2^-47 of it.
    - A [detect] function may throw: it returns a [Result]. *)

From Stdlib Require Import String Ascii List Bool Arith ZArith QArith Qround Qpower Lia.
From Stdlib Require Import DecimalString Sorted Permutation Lqa.
Import ListNotations.

Set Implicit Arguments.
Close Scope Q_scope.
Open Scope nat_scope.

(* ================================================================== *)
(** ** Double-precision numbers *)
(* ================================================================== *)

Module Double.

(** [2^k] *)
Definition pow2 (k : Z) : Q := Qpower 2 k.

(** [floor (log2 x)] for a positive rational. *)
Definition ilog2 (x : Q) : Z :=
  let k := (Z.log2 (Qnum x) - Z.log2 (Zpos (Qden x)))%Z in
  if Qle_bool (pow2 k) x then k else (k - 1)%Z.

(** The nearest integer, a tie going to the even one. *)
Definition rne (y : Q) : Z :=
  let f := Qfloor y in
  match Qcompare (y - inject_Z f) (1 # 2) with
  | Lt => f
  | Gt => (f + 1)%Z
  | Eq => if Z.even f then f else (f + 1)%Z
  end.

(** The nearest number with 53 significant bits, for a positive rational. *)
Definition nearest (x : Q) : Q :=
  let q := (ilog2 x - 52)%Z in
  (inject_Z (rne (x / pow2 q)) * pow2 q)%Q.

(** The double nearest to a rational. *)
Definition double (x : Q) : Q :=
  match Qcompare x 0 with
  | Eq => 0%Q
  | Gt => nearest x
  | Lt => (- nearest (- x))%Q
  end.

(** The operations [+], [-], [*] and [/] on doubles. *)
Definition add (x y : Q) : Q := double (x + y).
Definition sub (x y : Q) : Q := double (x - y).
Definition mul (x y : Q) : Q := double (x * y).
Definition div (x y : Q) : Q := double (x / y).

End Double.

(* ================================================================== *)
(** ** JavaScript string primitives *)
(* ================================================================== *)

Module Js.

Local Open Scope string_scope.

Definition chars (s : string) : list ascii := list_ascii_of_string s.
Definition str (l : list ascii) : string := string_of_list_ascii l.

(** The double quote character, used inside messages. *)
Definition dq : string := String "034"%char EmptyString.

Definition nat_to_string (n : nat) : string :=
  NilEmpty.string_of_uint (Nat.to_uint n).

Definition Z_to_string (z : Z) : string :=
  NilEmpty.string_of_int (Z.to_int z).

(** [s.substring(a, b)] for [a <= b]. *)
Definition substring (a b : nat) (s : string) : string :=
  String.substring a (b - a) s.

Fixpoint starts_with_l (p l : list ascii) : bool :=
  match p, l with
  | [], _ => true
  | _ :: _, [] => false
  | a :: p', b :: l' => Ascii.eqb a b && starts_with_l p' l'
  end.

(** [s.startsWith(p)] *)
Definition startsWith (p s : string) : bool := starts_with_l (chars p) (chars s).

Fixpoint includes_l (p l : list ascii) : bool :=
  starts_with_l p l ||
  match l with
  | [] => false
  | _ :: l' => includes_l p l'
  end.

(** [s.includes(p)] *)
Definition includes (p s : string) : bool := includes_l (chars p) (chars s).

(** [s.endsWith(p)] *)
Definition endsWith (p s : string) : bool :=
  starts_with_l (rev (chars p)) (rev (chars s)).

(** [s.split(sep)] for a non-empty string separator: [cur] holds the
    characters of the current piece in reverse. *)
Fixpoint split_l (fuel : nat) (sep cur l : list ascii) : list string :=
  match fuel with
  | O => [str (rev cur ++ l)]
  | S fuel' =>
      match l with
      | [] => [str (rev cur)]
      | a :: l' =>
          if starts_with_l sep l
          then str (rev cur) :: split_l fuel' sep [] (skipn (List.length sep) l)
          else split_l fuel' sep (a :: cur) l'
      end
  end.

Definition split (sep s : string) : list string :=
  split_l (S (String.length s)) (chars sep) [] (chars s).

(** [s.replace(p, r)] with a string pattern: the first occurrence only. *)
Fixpoint replace_l (p r l : list ascii) : list ascii :=
  if starts_with_l p l then r ++ skipn (List.length p) l
  else match l with
       | [] => []
       | a :: l' => a :: replace_l p r l'
       end.

Definition replace (p r s : string) : string :=
  str (replace_l (chars p) (chars r) (chars s)).

(** White space and line terminators among the code units 0..255. *)
Definition is_space (c : ascii) : bool :=
  let n := nat_of_ascii c in
  (((9 <=? n) && (n <=? 13)) || (n =? 32) || (n =? 160))%nat.

Definition is_line_terminator (c : ascii) : bool :=
  let n := nat_of_ascii c in ((n =? 10) || (n =? 13))%nat.

Fixpoint drop_space (l : list ascii) : list ascii :=
  match l with
  | [] => []
  | a :: l' => if is_space a then drop_space l' else l
  end.

(** [s.trim()] *)
Definition trim (s : string) : string :=
  str (rev (drop_space (rev (drop_space (chars s))))).

Definition is_empty (s : string) : bool :=
  match s with EmptyString => true | _ => false end.

Definition concat_with (sep : string) (l : list string) : string :=
  String.concat sep l.

End Js.

(* ================================================================== *)
(** ** Regular expressions with the semantics of JavaScript's [RegExp] *)
(* ================================================================== *)

Module Regex.

(** Members of a character class [[...]]. *)
Inductive citem : Type :=
| CChar (c : ascii)       (* a literal character *)
| CSpace                  (* \s *)
| CNotSpace               (* \S *)
| CDigit                  (* \d *)
| CWord.                  (* \w *)

(** Pattern syntax.  [Group n r] is the [n]-th capturing group; a
    non-capturing group [(?:r)] is [r] itself. *)
Inductive regex : Type :=
| Eps
| Chr (c : ascii)
| AnyChar                               (* .  (no line terminator) *)
| Class (negated : bool) (items : list citem)
| Seq (r1 r2 : regex)
| Alt (r1 r2 : regex)
| Star (greedy : bool) (r : regex)      (* r*  and  r*? *)
| Group (n : nat) (r : regex)
| LookAhead (negated : bool) (r : regex)   (* (?=r)  (?!r) *)
| LookBehind (negated : bool) (r : regex)  (* (?<=r) (?<!r) *)
| Bol                                   (* ^ *)
| Eol.                                  (* $ *)

(** Flags [i] and [m]; the flag [g] is the choice of [matchAll],
    [match_g] or [execAll] over [test] and [exec] below. *)
Record flags : Type := { ignoreCase : bool; multiline : bool }.

Definition no_flags : flags := {| ignoreCase := false; multiline := false |}.
Definition flag_i : flags := {| ignoreCase := true; multiline := false |}.
Definition flag_m : flags := {| ignoreCase := false; multiline := true |}.

Record pattern : Type := { re : regex; fl : flags }.

(** *** Derived syntax *)

Fixpoint lit_l (l : list ascii) : regex :=
  match l with
  | [] => Eps
  | [c] => Chr c
  | c :: l' => Seq (Chr c) (lit_l l')
  end.

Definition Lit (s : string) : regex := lit_l (Js.chars s).

Fixpoint Cat (l : list regex) : regex :=
  match l with
  | [] => Eps
  | [r] => r
  | r :: l' => Seq r (Cat l')
  end.

Fixpoint Alts (l : list regex) : regex :=
  match l with
  | [] => Class false []
  | [r] => r
  | r :: l' => Alt r (Alts l')
  end.

Definition star (r : regex) : regex := Star true r.
Definition lazy_star (r : regex) : regex := Star false r.
Definition plus (r : regex) : regex := Seq r (Star true r).
Definition opt (r : regex) : regex := Alt r Eps.

Fixpoint at_least (n : nat) (r : regex) : regex :=
  match n with
  | O => Star true r
  | S n' => Seq r (at_least n' r)
  end.

Definition ws : regex := Class false [CSpace].          (* \s *)
Definition digit : regex := Class false [CDigit].       (* \d *)
Definition word : regex := Class false [CWord].         (* \w *)
Definition any : regex := Class false [CSpace; CNotSpace].  (* [\s\S] *)
Definition one_of (s : string) : regex := Class false (map CChar (Js.chars s)).
Definition none_of (s : string) : regex := Class true (map CChar (Js.chars s)).

(** The three quote characters: single, double and backtick. *)
Definition quotes3 : string := ("'" ++ Js.dq ++ "`")%string.
(** The two quote characters: single and double. *)
Definition quotes2 : string := ("'" ++ Js.dq)%string.

(** *** Characters *)

Definition is_digit (c : ascii) : bool :=
  let n := nat_of_ascii c in (48 <=? n) && (n <=? 57).

Definition is_upper (c : ascii) : bool :=
  let n := nat_of_ascii c in (65 <=? n) && (n <=? 90).

Definition is_lower (c : ascii) : bool :=
  let n := nat_of_ascii c in (97 <=? n) && (n <=? 122).

Definition is_word (c : ascii) : bool :=
  is_digit c || is_upper c || is_lower c || (nat_of_ascii c =? 95).

(** [Canonicalize] of a code unit 0..255 under the flag [i]: upper case. *)
Definition canon (c : ascii) : ascii :=
  let n := nat_of_ascii c in
  if is_lower c then ascii_of_nat (n - 32)
  else if (224 <=? n) && (n <=? 254) && negb (n =? 247) then ascii_of_nat (n - 32)
  else c.

Definition chr_eq (f : flags) (c a : ascii) : bool :=
  if ignoreCase f then Ascii.eqb (canon c) (canon a) else Ascii.eqb c a.

Definition in_item (f : flags) (a : ascii) (i : citem) : bool :=
  match i with
  | CChar c => chr_eq f c a
  | CSpace => Js.is_space a
  | CNotSpace => negb (Js.is_space a)
  | CDigit => is_digit a
  | CWord => is_word a
  end.

Definition in_class (f : flags) (items : list citem) (a : ascii) : bool :=
  existsb (in_item f a) items.

(** *** The backtracking matcher *)

(** A matcher state: the index of the next character, the characters from
    there on, and the captures made so far (group, start, end), the most
    recent first. *)
Record mstate : Type := {
  pos : nat;
  rest : list ascii;
  caps : list (nat * (nat * nat))
}.

Definition orElse {A} (x : option A) (y : unit -> option A) : option A :=
  match x with
  | Some v => Some v
  | None => y tt
  end.

Section Matcher.

Variable f : flags.
Variable input : list ascii.

Definition state_at (j : nat) (cs : list (nat * (nat * nat))) : mstate :=
  {| pos := j; rest := skipn j input; caps := cs |}.

Definition step (st : mstate) (tl : list ascii) : mstate :=
  {| pos := S (pos st); rest := tl; caps := caps st |}.

Definition at_bol (st : mstate) : bool :=
  match pos st with
  | O => true
  | S p => multiline f &&
           match nth_error input p with
           | Some c => Js.is_line_terminator c
           | None => false
           end
  end.

Definition at_eol (st : mstate) : bool :=
  match rest st with
  | [] => true
  | c :: _ => multiline f && Js.is_line_terminator c
  end.

Definition succeeds (x : option mstate) : bool :=
  match x with Some _ => true | None => false end.

(** [rmatch r st k]: match [r] at [st], then continue with [k]; the
    alternatives are tried in the order of the ECMAScript matcher (the left
    branch of [|] first, one more iteration of a greedy [*] first, one fewer
    of a lazy one first).  An iteration of [*] that consumes nothing is
    rejected, so [S (length (rest st))] iterations are never exhausted.
    A lookbehind holds when some substring ending at the current position
    matches. *)
Fixpoint rmatch (r : regex) (st : mstate) (k : mstate -> option mstate)
  {struct r} : option mstate :=
  match r with
  | Eps => k st
  | Chr c =>
      match rest st with
      | a :: tl => if chr_eq f c a then k (step st tl) else None
      | [] => None
      end
  | AnyChar =>
      match rest st with
      | a :: tl => if Js.is_line_terminator a then None else k (step st tl)
      | [] => None
      end
  | Class negated items =>
      match rest st with
      | a :: tl => if xorb negated (in_class f items a) then k (step st tl) else None
      | [] => None
      end
  | Seq r1 r2 => rmatch r1 st (fun st1 => rmatch r2 st1 k)
  | Alt r1 r2 => orElse (rmatch r1 st k) (fun _ => rmatch r2 st k)
  | Star greedy r1 =>
      (fix loop (fuel : nat) (st0 : mstate) {struct fuel} : option mstate :=
         match fuel with
         | O => k st0
         | S fuel' =>
             if greedy
             then orElse (rmatch r1 st0 (fun st1 =>
                            if pos st0 <? pos st1 then loop fuel' st1 else None))
                         (fun _ => k st0)
             else orElse (k st0)
                         (fun _ => rmatch r1 st0 (fun st1 =>
                            if pos st0 <? pos st1 then loop fuel' st1 else None))
         end) (S (List.length (rest st))) st
  | Group n r1 =>
      rmatch r1 st (fun st1 =>
        k {| pos := pos st1; rest := rest st1;
             caps := (n, (pos st, pos st1)) :: caps st1 |})
  | LookAhead negated r1 =>
      if xorb negated (succeeds (rmatch r1 st (fun st1 => Some st1)))
      then k st else None
  | LookBehind negated r1 =>
      if xorb negated
           (existsb (fun j =>
              succeeds (rmatch r1 (state_at j (caps st)) (fun st1 =>
                          if pos st1 =? pos st then Some st1 else None)))
              (seq 0 (S (pos st))))
      then k st else None
  | Bol => if at_bol st then k st else None
  | Eol => if at_eol st then k st else None
  end.

(** A successful match: [index] is [match.index], [stop] the index after
    the last matched character, [groups] the captures. *)
Record rmatch_result : Type := {
  index : nat;
  stop : nat;
  groups : list (nat * (nat * nat))
}.

(** Leftmost match at or after position [p], where [l = skipn p input]. *)
Fixpoint search (r : regex) (p : nat) (l : list ascii) : option rmatch_result :=
  match rmatch r {| pos := p; rest := l; caps := [] |} (fun st => Some st) with
  | Some st => Some {| index := p; stop := pos st; groups := caps st |}
  | None =>
      match l with
      | [] => None
      | _ :: l' => search r (S p) l'
      end
  end.

End Matcher.

Definition exec_from (p : pattern) (s : string) (lastIndex : nat)
  : option rmatch_result :=
  let input := Js.chars s in
  if List.length input <? lastIndex then None
  else search (fl p) input (re p) lastIndex (skipn lastIndex input).

(** [p.exec(s)] and [p.test(s)] for a pattern without the flag [g]. *)
Definition exec (p : pattern) (s : string) : option rmatch_result :=
  exec_from p s 0.

Definition test (p : pattern) (s : string) : bool :=
  match exec p s with Some _ => true | None => false end.

(** [match[0]] *)
Definition matched (s : string) (m : rmatch_result) : string :=
  Js.substring (index m) (stop m) s.

Fixpoint lookup_cap (n : nat) (cs : list (nat * (nat * nat))) : option (nat * nat) :=
  match cs with
  | [] => None
  | (i, se) :: cs' => if i =? n then Some se else lookup_cap n cs'
  end.

(** [match[n]] where it is used as a string: a group that took no part
    in the match reads [undefined]. *)
Definition group (s : string) (m : rmatch_result) (n : nat) : string :=
  match lookup_cap n (groups m) with
  | Some (a, b) => Js.substring a b s
  | None => "undefined"%string
  end.

(** The loop [while ((match = p.exec(s)) !== null)] over a pattern with
    the flag [g]: each search resumes at the end of the previous match.
    The loop of the source does not terminate on an empty match; every
    pattern it is used with consumes at least one character, so the
    [S (length s)] rounds are never exhausted. *)
Fixpoint execLoop (fuel : nat) (p : pattern) (s : string) (lastIndex : nat)
  : list rmatch_result :=
  match fuel with
  | O => []
  | S fuel' =>
      match exec_from p s lastIndex with
      | None => []
      | Some m => m :: execLoop fuel' p s (stop m)
      end
  end.

Definition execAll (p : pattern) (s : string) : list rmatch_result :=
  execLoop (S (String.length s)) p s 0.

(** [s.matchAll(p)] and the matches of [s.match(p)] for a pattern with the
    flag [g]: after an empty match the search resumes one character on. *)
Fixpoint matchLoop (fuel : nat) (p : pattern) (s : string) (lastIndex : nat)
  : list rmatch_result :=
  match fuel with
  | O => []
  | S fuel' =>
      match exec_from p s lastIndex with
      | None => []
      | Some m =>
          m :: matchLoop fuel' p s (if stop m =? index m then S (stop m) else stop m)
      end
  end.

Definition matchAll (p : pattern) (s : string) : list rmatch_result :=
  matchLoop (S (String.length s)) p s 0.

(** [(s.match(p) || []).length] *)
Definition count (p : pattern) (s : string) : nat :=
  List.length (matchAll p s).

(** [s.split(p)] for a pattern without capturing groups. *)
Fixpoint splitLoop (fuel : nat) (p : pattern) (s : string) (input : list ascii)
  (from q : nat) : list string :=
  match fuel with
  | O => [Js.substring from (List.length input) s]
  | S fuel' =>
      if List.length input <=? q then [Js.substring from (List.length input) s]
      else
        match rmatch (fl p) input (re p)
                {| pos := q; rest := skipn q input; caps := [] |}
                (fun st => Some st) with
        | None => splitLoop fuel' p s input from (S q)
        | Some st =>
            let e := Nat.min (pos st) (List.length input) in
            if e =? from then splitLoop fuel' p s input from (S q)
            else Js.substring from q s :: splitLoop fuel' p s input e e
        end
  end.

Definition split (p : pattern) (s : string) : list string :=
  let input := Js.chars s in
  match input with
  | [] => if test p s then [] else [s]
  | _ => splitLoop (2 * List.length input + 2) p s input 0 0
  end.

End Regex.

(* ================================================================== *)
(** ** The rule catalog ([quality-rules.ts]) *)
(* ================================================================== *)

(** The outcome of a call that may throw. *)
Inductive Result (A : Type) : Type :=
| Ok (v : A)
| Throw (e : string).

Arguments Ok {A} v.
Arguments Throw {A} e.

Module Rules.

Import Regex.
Local Open Scope string_scope.

Inductive Severity : Type := error | warning | info.

Inductive RuleCategory : Type :=
| flaky
| theater
| over_mocking
| assertions
| isolation
| maintainability
| structure.

Record RuleViolation : Type := {
  ruleId : string;
  message : string;
  line : option nat;
  column : option nat;
  snippet : option string;
  suggestion : option string
}.

Record QualityRule : Type := {
  id : string;
  name : string;
  description : string;
  category : RuleCategory;
  severity : Severity;
  weight : Z;   (* Impact on score (0-10) *)
  detect : string -> string -> Result (list RuleViolation)
}.

(** *** Helper functions *)

Definition nl : string := String "010"%char EmptyString.

Definition P (r : regex) : pattern := {| re := r; fl := no_flags |}.
Definition Pi (r : regex) : pattern := {| re := r; fl := flag_i |}.
Definition Pm (r : regex) : pattern := {| re := r; fl := flag_m |}.

Definition findLineNumber (content : string) (index : nat) : nat :=
  List.length (Js.split nl (Js.substring 0 index content)).

Definition getLineContent (content : string) (lineNumber : nat) : string :=
  let lines := Js.split nl content in
  match lineNumber with
  | O => ""
  | S n =>
      match nth_error lines n with
      | Some l => Js.trim l
      | None => ""
      end
  end.

Record LineMatch : Type := {
  lm_match : rmatch_result;
  lm_line : nat;
  lm_snippet : string
}.

Definition matchAllWithLineNumbers (content : string) (p : pattern)
  : list LineMatch :=
  map (fun m =>
         let line := findLineNumber content (index m) in
         {| lm_match := m; lm_line := line;
            lm_snippet := getLineContent content line |})
      (execAll p content).

(** Alternation [(?:it|test)]. *)
Definition it_or_test : regex := Alt (Lit "it") (Lit "test").

(** *** Flaky test detection rules *)

Definition timingPatterns : list pattern := [
  P (Cat [Lit "setTimeout"; star ws; Chr "("; plus (none_of ","); Chr ",";
          star ws; plus digit; Chr ")"]);
  P (Cat [Lit "setInterval"; star ws; Chr "("; plus (none_of ","); Chr ",";
          star ws; plus digit; Chr ")"]);
  P (Cat [Lit "new"; plus ws; Lit "Promise"; star ws; Chr "("; star ws;
          Alt (Lit "resolve") (Lit "r"); star ws; Lit "=>"; star ws;
          Lit "setTimeout"]);
  P (Cat [Lit "await"; plus ws; Lit "new"; plus ws; Lit "Promise"; star ws;
          Chr "("; star ws; Chr "r"; star ws; Lit "=>"; star ws;
          Lit "setTimeout"; star ws; Chr "("; star ws; Chr "r"; star ws;
          Chr ","])
].

Definition detect_timing_dependency (content filename : string)
  : list RuleViolation :=
  flat_map (fun pattern =>
    map (fun lm =>
      {| ruleId := "flaky/timing-dependency";
         message := "Avoid hardcoded delays in tests. Use fake timers or waitFor utilities.";
         line := Some (lm_line lm);
         column := None;
         snippet := Some (lm_snippet lm);
         suggestion := Some "Use vi.useFakeTimers() or jest.useFakeTimers(), or use waitFor/waitForExpect patterns." |})
      (matchAllWithLineNumbers content pattern))
    timingPatterns.

Definition randomPatterns : list pattern := [
  P (Cat [Lit "Math.random"; star ws; Lit "()"]);
  P (Cat [Lit "crypto.randomUUID"; star ws; Lit "()"]);
  P (Cat [Lit "uuid"; star ws; Lit "()"]);
  P (Cat [Lit "faker."; plus word]);
  P (Cat [Lit "Date.now"; star ws; Lit "()"]);
  P (Cat [Lit "new"; plus ws; Lit "Date"; star ws; Chr "("; star ws; Chr ")"])
].

Definition detect_random_data (content filename : string)
  : list RuleViolation :=
  flat_map (fun pattern =>
    flat_map (fun lm =>
      (* Check if there's a seed nearby *)
      let hasSeed := Js.includes "faker.seed" content
                     || Js.includes "Math.seedrandom" content in
      if negb hasSeed then
        [{| ruleId := "flaky/random-data";
            message := "Random/dynamic value " ++ Js.dq
                       ++ matched content (lm_match lm) ++ Js.dq
                       ++ " can cause flaky tests.";
            line := Some (lm_line lm);
            column := None;
            snippet := Some (lm_snippet lm);
            suggestion := Some "Use seeded random generators or fixed test data. For dates, mock Date.now()." |}]
      else [])
      (matchAllWithLineNumbers content pattern))
    randomPatterns.

(** The two lookbehinds [(?<!await\s+)(?<!return\s+)]. *)
Definition not_awaited : regex :=
  Seq (LookBehind true (Seq (Lit "await") (plus ws)))
      (LookBehind true (Seq (Lit "return") (plus ws))).

Definition unawaitedPatterns : list pattern := [
  P (Cat [not_awaited; Lit "fetch"; star ws; Chr "("]);
  P (Cat [not_awaited; Lit "axios."; plus word; star ws; Chr "("]);
  (* .then() immediately followed by expect *)
  P (Cat [Lit ".then"; star ws; Chr "("; star (none_of ")"); Chr ")"; star ws;
          opt (Chr ";"); star ws; Lit nl; star ws; Lit "expect"])
].

Definition fireAndForgetPattern : pattern :=
  P (Cat [it_or_test; star ws; Chr "("; plus (none_of ","); Chr ","; star ws;
          opt (Seq (Lit "async") (star ws)); Chr "("; star ws; Chr ")"; star ws;
          Lit "=>"; star ws; Chr "{"; star (none_of "}");
          LookBehind true (Seq (Lit "await") (plus ws));
          plus word; Chr "("; star (none_of ")"); Chr ")"; star ws; Chr ";";
          star ws; Chr "}"; star ws; Chr ")"]).

Definition detect_async_without_await (content filename : string)
  : list RuleViolation :=
  let violations :=
    flat_map (fun pattern =>
      map (fun lm =>
        {| ruleId := "flaky/async-without-await";
           message := "Async operation may not be properly awaited.";
           line := Some (lm_line lm);
           column := None;
           snippet := Some (lm_snippet lm);
           suggestion := Some "Ensure all async operations are awaited before assertions." |})
        (matchAllWithLineNumbers content pattern))
      unawaitedPatterns in
  (* Check for fire-and-forget patterns: computed, never used *)
  let fireAndForget := matchAllWithLineNumbers content fireAndForgetPattern in
  violations.

Definition globalMutationsPattern : pattern :=
  P (Cat [Alt Bol (Lit nl); star ws; Alt (Lit "let") (Lit "var"); plus ws;
          plus word; star ws; Chr "="; plus (none_of ";"); Chr ";";
          LookAhead false
            (Seq (star any)
                 (Alts [Lit "beforeEach"; Lit "beforeAll"; Lit "it";
                        Lit "test"; Lit "describe"]))]).

Definition detect_shared_state (content filename : string)
  : list RuleViolation :=
  flat_map (fun lm =>
    if negb (Js.includes "const" (lm_snippet lm))
       && negb (Js.includes "//" (lm_snippet lm))
    then
      [{| ruleId := "flaky/shared-state";
          message := "Mutable variable declared outside test scope may cause test interference.";
          line := Some (lm_line lm);
          column := None;
          snippet := Some (lm_snippet lm);
          suggestion := Some "Move variable declaration inside beforeEach or individual tests, or use const." |}]
    else [])
    (matchAllWithLineNumbers content globalMutationsPattern).

Definition networkCallsPattern : pattern :=
  P (Cat [Alts [Lit "fetch"; Lit "axios"; Lit "http"; Lit "https"]; star ws;
          one_of ".("]).

Definition detect_network_dependency (content filename : string)
  : list RuleViolation :=
  (* Skip if it's explicitly an integration/e2e test *)
  if Js.includes ".e2e." filename || Js.includes ".integration." filename
  then []
  else
    let hasMocking :=
      Js.includes "mock" content
      || Js.includes "Mock" content
      || Js.includes "nock" content
      || Js.includes "msw" content
      || Js.includes "fetchMock" content in
    let networkCalls := matchAllWithLineNumbers content networkCallsPattern in
    if negb hasMocking && (0 <? List.length networkCalls)%nat then
      map (fun lm =>
        {| ruleId := "flaky/network-dependency";
           message := "Real network call detected without mocking.";
           line := Some (lm_line lm);
           column := None;
           snippet := Some (lm_snippet lm);
           suggestion := Some "Use MSW, nock, or mock the HTTP client for reliable tests." |})
        networkCalls
    else [].

Definition flakyTestRules : list QualityRule := [
  {| id := "flaky/timing-dependency";
     name := "Timing Dependency";
     description := "Tests that depend on specific timing are flaky";
     category := flaky; severity := error; weight := 8;
     detect := fun content filename => Ok (detect_timing_dependency content filename) |};
  {| id := "flaky/random-data";
     name := "Random Data Without Seed";
     description := "Tests using random data without seeds are non-deterministic";
     category := flaky; severity := warning; weight := 6;
     detect := fun content filename => Ok (detect_random_data content filename) |};
  {| id := "flaky/async-without-await";
     name := "Async Without Await";
     description := "Async operations without proper awaiting cause race conditions";
     category := flaky; severity := error; weight := 9;
     detect := fun content filename => Ok (detect_async_without_await content filename) |};
  {| id := "flaky/shared-state";
     name := "Shared Mutable State";
     description := "Tests sharing mutable state can interfere with each other";
     category := flaky; severity := error; weight := 8;
     detect := fun content filename => Ok (detect_shared_state content filename) |};
  {| id := "flaky/network-dependency";
     name := "Network Dependency";
     description := "Tests making real network calls are unreliable";
     category := flaky; severity := error; weight := 9;
     detect := fun content filename => Ok (detect_network_dependency content filename) |}
].

(** *** Testing theater rules (tests that don't test) *)

(** The test-block pattern shared by several rules: group 1 is the test
    name, group 2 the body up to the first closing brace at depth one. *)
Definition testBlockPattern : pattern :=
  P (Cat [it_or_test; star ws; Chr "("; star ws; one_of quotes3;
          Group 1 (plus (none_of quotes3)); one_of quotes3; star ws; Chr ",";
          star ws; opt (Seq (Lit "async") (star ws));
          Chr "("; star (none_of ")"); Chr ")"; star ws; Lit "=>"; star ws;
          Chr "{";
          Group 2 (Seq (star (none_of "}"))
                       (star (Cat [Chr "{"; star (none_of "}"); Chr "}";
                                   star (none_of "}")])));
          Chr "}"]).

Definition expect_call : regex := Cat [Lit "expect"; star ws; Chr "("].

Definition detect_no_assertions (content filename : string)
  : list RuleViolation :=
  (* Find all test blocks *)
  flat_map (fun lm =>
    let testBody := group content (lm_match lm) 2 in
    let testName := group content (lm_match lm) 1 in
    (* Check for any assertion *)
    let hasAssertion :=
      test (P expect_call) testBody
      || test (P (Seq (Lit "assert") (one_of ".("))) testBody
      || test (P (Seq (Lit "should") (one_of ".("))) testBody
      || test (P (Lit ".to.")) testBody
      || test (P (Lit ".toBe")) testBody
      || test (P (Lit "toThrow")) testBody
      || test (P (Lit "rejects")) testBody
      || test (P (Lit "resolves")) testBody in
    if negb hasAssertion then
      [{| ruleId := "theater/no-assertions";
          message := "Test " ++ Js.dq ++ testName ++ Js.dq ++ " has no assertions.";
          line := Some (lm_line lm);
          column := None;
          snippet := Some ("test(" ++ Js.dq ++ testName ++ Js.dq ++ ", ...)");
          suggestion := Some "Add expect() calls to verify behavior, or mark as .todo() if incomplete." |}]
    else [])
    (matchAllWithLineNumbers content testBlockPattern).

Definition alwaysTruePatterns : list pattern := [
  P (Cat [Lit "expect"; star ws; Chr "("; star ws; Lit "true"; star ws; Chr ")";
          star ws; Lit ".toBe"; star ws; Chr "("; star ws; Lit "true"; star ws;
          Chr ")"]);
  P (Cat [Lit "expect"; star ws; Chr "("; star ws; Chr "1"; star ws; Chr ")";
          star ws; Lit ".toBe"; star ws; Chr "("; star ws; Chr "1"; star ws;
          Chr ")"]);
  P (Cat [Lit "expect"; star ws; Chr "("; star ws; one_of quotes3;
          star (none_of quotes3); one_of quotes3; star ws; Chr ")"; star ws;
          Lit ".toBe"; star ws; Chr "("; star ws; one_of quotes3;
          star (none_of quotes3); one_of quotes3; star ws; Chr ")"]);
  P (Cat [Lit "expect"; star ws; Chr "("; star ws; plus digit; star ws; Chr "+";
          star ws; plus digit; star ws; Chr ")"; star ws; Lit ".toBe"; star ws;
          Chr "("; star ws; plus digit; star ws; Chr ")"]);
  P (Cat [Lit "assert.ok"; star ws; Chr "("; star ws; Lit "true"; star ws;
          Chr ")"]);
  P (Cat [Lit "expect"; star ws; Chr "("; star ws; one_of quotes2; plus word;
          one_of quotes2; star ws; Chr ")"; star ws; Lit ".toContain"; star ws;
          Chr "("; star ws; one_of quotes2; star word; one_of quotes2; star ws;
          Chr ")"])
].

Definition detect_always_true (content filename : string)
  : list RuleViolation :=
  flat_map (fun pattern =>
    map (fun lm =>
      {| ruleId := "theater/always-true";
         message := "This assertion always passes and tests nothing meaningful.";
         line := Some (lm_line lm);
         column := None;
         snippet := Some (lm_snippet lm);
         suggestion := Some "Assert on actual function outputs, not hardcoded values." |})
      (matchAllWithLineNumbers content pattern))
    alwaysTruePatterns.

Definition emptyTestPattern : pattern :=
  P (Cat [it_or_test; star ws; Chr "("; star ws; one_of quotes3;
          Group 1 (plus (none_of quotes3)); one_of quotes3; star ws; Chr ",";
          star ws; opt (Seq (Lit "async") (star ws));
          Chr "("; star ws; Chr ")"; star ws; Lit "=>"; star ws;
          Chr "{"; star ws; Chr "}"; star ws; Chr ")"]).

Definition detect_empty_test (content filename : string)
  : list RuleViolation :=
  map (fun lm =>
    let name1 := group content (lm_match lm) 1 in
    {| ruleId := "theater/empty-test";
       message := "Test " ++ Js.dq ++ name1 ++ Js.dq ++ " is empty.";
       line := Some (lm_line lm);
       column := None;
       snippet := Some ("test(" ++ Js.dq ++ name1 ++ Js.dq ++ ", () => {})");
       suggestion := Some "Implement the test or mark as .todo() if planned for later." |})
    (matchAllWithLineNumbers content emptyTestPattern).

Definition detect_console_only (content filename : string)
  : list RuleViolation :=
  (* Find tests that only have console statements *)
  flat_map (fun lm =>
    let testBody := group content (lm_match lm) 2 in
    let testName := group content (lm_match lm) 1 in
    let hasConsole :=
      test (P (Cat [Lit "console."; plus word; star ws; Chr "("])) testBody in
    let hasAssertion :=
      test (P (Alts [expect_call; Seq (Lit "assert") (one_of ".(");
                     Seq (Lit "should") (one_of ".(")])) testBody in
    if hasConsole && negb hasAssertion then
      [{| ruleId := "theater/console-only";
          message := "Test " ++ Js.dq ++ testName ++ Js.dq
                     ++ " only logs to console without assertions.";
          line := Some (lm_line lm);
          column := None;
          snippet := Some ("test(" ++ Js.dq ++ testName ++ Js.dq ++ ", ...)");
          suggestion := Some "Replace console.log with proper assertions." |}]
    else [])
    (matchAllWithLineNumbers content testBlockPattern).

Definition suspiciousPatterns : list pattern := [
  P (Cat [Lit "expect"; star ws; Chr "("; star ws; Lit "undefined"; star ws;
          Chr ")"; star ws; Chr ".";
          LookAhead true (Alt (Lit "toBeUndefined") (Lit "toBeDefined"))]);
  P (Cat [Lit "expect"; star ws; Chr "("; star ws; Lit "null"; star ws;
          Chr ")"; star ws; Chr ".";
          LookAhead true (Alt (Lit "toBeNull") (Lit "toBe(null"))]);
  (* Empty expect() *)
  P (Cat [Lit "expect"; star ws; Chr "("; star ws; Chr ")"; star ws; Chr "."])
].

Definition detect_expect_nothing (content filename : string)
  : list RuleViolation :=
  flat_map (fun pattern =>
    map (fun lm =>
      {| ruleId := "theater/expect-nothing";
         message := "Assertion on undefined/null may not test actual behavior.";
         line := Some (lm_line lm);
         column := None;
         snippet := Some (lm_snippet lm);
         suggestion := Some "Verify you are testing the right variable and behavior." |})
      (matchAllWithLineNumbers content pattern))
    suspiciousPatterns.

Definition theaterRules : list QualityRule := [
  {| id := "theater/no-assertions";
     name := "No Assertions";
     description := "Tests without assertions prove nothing";
     category := theater; severity := error; weight := 10;
     detect := fun content filename => Ok (detect_no_assertions content filename) |};
  {| id := "theater/always-true";
     name := "Always-True Assertion";
     description := "Assertions that always pass are meaningless";
     category := theater; severity := error; weight := 9;
     detect := fun content filename => Ok (detect_always_true content filename) |};
  {| id := "theater/empty-test";
     name := "Empty Test";
     description := "Empty tests provide no coverage";
     category := theater; severity := error; weight := 10;
     detect := fun content filename => Ok (detect_empty_test content filename) |};
  {| id := "theater/console-only";
     name := "Console-Only Test";
     description := "Tests that only console.log without asserting";
     category := theater; severity := warning; weight := 7;
     detect := fun content filename => Ok (detect_console_only content filename) |};
  {| id := "theater/expect-nothing";
     name := "Expect on Undefined";
     description := "Expecting on undefined/null without meaningful comparison";
     category := theater; severity := warning; weight := 6;
     detect := fun content filename => Ok (detect_expect_nothing content filename) |}
].

(** *** Over-mocking rules *)

Definition jest_or_vi : regex := Alt (Lit "jest") (Lit "vi").

(** The five counters of [mockCounts], in the order of the object's keys. *)
Definition mockCounts (content : string) : list nat := [
  count (P (Cat [Lit "jest.mock"; star ws; Chr "("])) content;
  count (P (Cat [Lit "vi.mock"; star ws; Chr "("])) content;
  count (P (Cat [jest_or_vi; Lit ".spyOn"; star ws; Chr "("])) content;
  count (P (Cat [jest_or_vi; Lit ".fn"; star ws; Chr "("])) content;
  count (P (Cat [Lit ".mockImplementation"; star ws; Chr "("])) content
].

Definition totalMocks (content : string) : nat :=
  fold_left (fun a b => a + b)%nat (mockCounts content) 0%nat.

(** Count actual test assertions: [expect(] occurrences. *)
Definition expectCount (content : string) : nat :=
  count (P expect_call) content.

Definition excessive_mocking_violation (content : string) : RuleViolation :=
  {| ruleId := "mock/excessive-mocking";
     message := "File has " ++ Js.nat_to_string (totalMocks content)
                ++ " mocks but only " ++ Js.nat_to_string (expectCount content)
                ++ " assertions. Possible over-mocking.";
     line := Some 1%nat;
     column := None;
     snippet := None;
     suggestion := Some "Consider testing with fewer mocks. Each mock reduces test confidence." |}.

Definition detect_excessive_mocking (content filename : string)
  : list RuleViolation :=
  let assertionCount := expectCount content in
  (* If mocks >> assertions, likely over-mocking *)
  if (5 <? totalMocks content)%nat && (assertionCount * 2 <? totalMocks content)%nat
  then [excessive_mocking_violation content]
  else [].

Definition importPattern : pattern :=
  P (Cat [Lit "import"; plus ws; star AnyChar; plus ws; Lit "from"; plus ws;
          one_of quotes2; Group 1 (plus (none_of quotes2)); one_of quotes2]).

Definition mockCallPattern : pattern :=
  P (Cat [jest_or_vi; Lit ".mock"; star ws; Chr "("; star ws; one_of quotes2;
          Group 1 (plus (none_of quotes2)); one_of quotes2]).

Definition detect_mocking_what_you_test (content filename : string)
  : list RuleViolation :=
  (* Extract what file is being tested from imports *)
  let importMatches := matchAll importPattern content in
  let relativeImports :=
    filter (fun i => Js.startsWith "./" i || Js.startsWith "../" i)
           (map (fun m => group content m 1) importMatches) in
  (* Check if any mocked module matches an imported module *)
  let mockMatches := matchAll mockCallPattern content in
  flat_map (fun mockMatch =>
    let mockedPath := group content mockMatch 1 in
    if existsb (fun imp =>
         String.eqb imp mockedPath
         || Js.endsWith mockedPath imp
         || Js.endsWith (Js.replace "./" "" imp) mockedPath)
         relativeImports
    then
      [{| ruleId := "mock/mocking-what-you-test";
          message := "Mocking " ++ Js.dq ++ mockedPath ++ Js.dq
                     ++ " which appears to be the module under test.";
          line := Some (findLineNumber content (index mockMatch));
          column := None;
          snippet := Some (matched content mockMatch);
          suggestion := Some "Mock dependencies, not the code you are testing." |}]
    else [])
    mockMatches.

Definition detect_mock_return_ignores_input (content filename : string)
  : list RuleViolation :=
  (* Detect mocks that return fixed values *)
  let fixedReturnPatterns :=
    matchAllWithLineNumbers content
      (P (Cat [Lit ".mockReturnValue"; star ws; Chr "("; plus (none_of ")");
               Chr ")"])) in
  let mockImplementations :=
    matchAllWithLineNumbers content
      (P (Cat [Lit ".mockImplementation"; star ws; Chr "("; star ws; Chr "(";
               star ws; Chr ")"; star ws; Lit "=>"])) in
  (* Multiple fixed returns might indicate testing implementation not behavior *)
  if (3 <? List.length fixedReturnPatterns)%nat then
    [{| ruleId := "mock/mock-return-ignores-input";
        message := "Multiple fixed mock return values may indicate over-specification.";
        line := Some (match fixedReturnPatterns with
                      | lm :: _ => match lm_line lm with O => 1 | l => l end
                      | [] => 1
                      end)%nat;
        column := None;
        snippet := None;
        suggestion := Some "Consider if the test is too coupled to implementation details." |}]
  else [].

Definition overMockingRules : list QualityRule := [
  {| id := "mock/excessive-mocking";
     name := "Excessive Mocking";
     description := "Over-mocking defeats the purpose of testing";
     category := over_mocking; severity := warning; weight := 7;
     detect := fun content filename => Ok (detect_excessive_mocking content filename) |};
  {| id := "mock/mocking-what-you-test";
     name := "Mocking What You Test";
     description := "Mocking the module under test defeats the purpose";
     category := over_mocking; severity := error; weight := 9;
     detect := fun content filename => Ok (detect_mocking_what_you_test content filename) |};
  {| id := "mock/mock-return-ignores-input";
     name := "Mock Ignores Input";
     description := "Mocks that always return the same value regardless of input";
     category := over_mocking; severity := info; weight := 3;
     detect := fun content filename => Ok (detect_mock_return_ignores_input content filename) |}
].

(** *** Missing assertions rules *)

Definition weakPatterns : list (pattern * string) := [
  (P (Cat [Lit "expect"; star ws; Chr "("; plus (none_of ")"); Chr ")"; star ws;
           Lit ".toBeTruthy"; star ws; Lit "()"]),
   "toBeTruthy() is weak - be specific about expected value");
  (P (Cat [Lit "expect"; star ws; Chr "("; plus (none_of ")"); Chr ")"; star ws;
           Lit ".toBeFalsy"; star ws; Lit "()"]),
   "toBeFalsy() is weak - be specific (null, undefined, false, 0?)");
  (P (Cat [Lit "expect"; star ws; Chr "("; plus (none_of ")"); Chr ")"; star ws;
           Lit ".toBeDefined"; star ws; Lit "()"]),
   "toBeDefined() only checks existence - verify the actual value");
  (P (Cat [Lit "expect"; star ws; Lit "(typeof"; plus ws; plus word; Chr ")";
           star ws; Lit ".toBe"; star ws; Chr "("]),
   "Checking type alone is weak - verify behavior")
].

Definition detect_weak_assertion (content filename : string)
  : list RuleViolation :=
  flat_map (fun pi : pattern * string =>
    let (pattern, issue) := pi in
    map (fun lm =>
      {| ruleId := "assertion/weak-assertion";
         message := issue;
         line := Some (lm_line lm);
         column := None;
         snippet := Some (lm_snippet lm);
         suggestion := Some "Use specific assertions like toBe(), toEqual(), or toMatchObject()." |})
      (matchAllWithLineNumbers content pattern))
    weakPatterns.

Definition detect_no_error_assertion (content filename : string)
  : list RuleViolation :=
  (* Check if test file has async tests but no error assertions *)
  let hasAsyncTests :=
    test (P (Cat [it_or_test; star ws; Chr "("; plus (none_of ","); Chr ",";
                  star ws; Lit "async"])) content in
  let hasErrorAssertions :=
    test (P (Lit ".rejects.")) content
    || test (P (Lit "toThrow")) content
    || test (P (Cat [Lit ".catch"; star ws; Chr "("])) content
    || test (P (Cat [Lit "try"; star ws; Chr "{"; star (none_of "}"); Chr "}";
                     star ws; Lit "catch"])) content in
  if hasAsyncTests && negb hasErrorAssertions then
    [{| ruleId := "assertion/no-error-assertion";
        message := "Async tests should include error handling verification.";
        line := Some 1%nat;
        column := None;
        snippet := None;
        suggestion := Some "Add tests for error cases using .rejects.toThrow() or try/catch." |}]
  else [].

Definition test_call : regex := Cat [it_or_test; star ws; Chr "("].

Definition detect_single_assertion_syndrome (content filename : string)
  : list RuleViolation :=
  let testCount := count (P test_call) content in
  let assertionCount := count (P expect_call) content in
  if (3 <=? testCount)%nat && (assertionCount <? testCount)%nat then
    [{| ruleId := "assertion/single-assertion-syndrome";
        message := Js.nat_to_string testCount ++ " tests with only "
                   ++ Js.nat_to_string assertionCount
                   ++ " assertions. Some tests may be incomplete.";
        line := Some 1%nat;
        column := None;
        snippet := None;
        suggestion := Some "Ensure each test has meaningful assertions." |}]
  else [].

Definition assertionRules : list QualityRule := [
  {| id := "assertion/weak-assertion";
     name := "Weak Assertion";
     description := "Using weak assertions that barely verify anything";
     category := assertions; severity := warning; weight := 5;
     detect := fun content filename => Ok (detect_weak_assertion content filename) |};
  {| id := "assertion/no-error-assertion";
     name := "No Error Assertions";
     description := "Async code should verify error handling";
     category := assertions; severity := info; weight := 4;
     detect := fun content filename => Ok (detect_no_error_assertion content filename) |};
  {| id := "assertion/single-assertion-syndrome";
     name := "Single Assertion Per Test File";
     description := "Test file with very few assertions may be incomplete";
     category := assertions; severity := info; weight := 3;
     detect := fun content filename => Ok (detect_single_assertion_syndrome content filename) |}
].

(** *** Poor test isolation rules *)

Definition let_or_var : regex := Alt (Lit "let") (Lit "var").

Definition detect_test_order_dependency (content filename : string)
  : list RuleViolation :=
  (* Detect shared variables modified across tests *)
  let hasSharedState :=
    test (Pm (Cat [let_or_var; plus ws; plus word; star ws; opt (Chr ";");
                   star ws; Lit nl; lazy_star any; Lit "beforeEach";
                   lazy_star any; it_or_test; star ws; Chr "("])) content in
  let modifiesInTest :=
    test (Pm (Cat [it_or_test; star ws; Chr "("; star (none_of ")"); Chr ")";
                   star ws; Lit "=>"; star ws; Chr "{"; star (none_of "}");
                   Alts [Cat [plus word; star ws; Chr "="; star ws; none_of "="];
                         Lit ".push("; Lit ".pop("; Lit ".splice("]])) content in
  if hasSharedState && modifiesInTest then
    (* Check if there's proper reset in beforeEach *)
    let hasBeforeEach :=
      test (Pm (Cat [Lit "beforeEach"; star ws; Chr "("])) content in
    let hasProperReset :=
      test (Pm (Cat [Lit "beforeEach"; star ws; Chr "("; star (none_of ")");
                     Chr ")"; star ws; Lit "=>"; star ws; Chr "{";
                     star (none_of "}");
                     Alt (Cat [plus word; star ws; Chr "="; star ws; one_of "[{"])
                         (Cat [Lit ".length"; star ws; Chr "="; star ws; Chr "0"])]))
           content in
    if negb hasBeforeEach || negb hasProperReset then
      [{| ruleId := "isolation/test-order-dependency";
          message := "Tests may depend on execution order due to shared mutable state.";
          line := Some 1%nat;
          column := None;
          snippet := None;
          suggestion := Some "Reset all shared state in beforeEach() or create fresh instances per test." |}]
    else []
  else [].

Definition globalModifications : list (pattern * string) := [
  (P (Cat [Lit "process.env."; plus word; star ws; Chr "="]), "Modifying process.env");
  (P (Cat [Lit "global."; plus word; star ws; Chr "="]), "Modifying global object");
  (P (Cat [Lit "window."; plus word; star ws; Chr "="]), "Modifying window object");
  (P (Cat [Lit "document."; plus word; star ws; Chr "="]), "Modifying document")
].

Definition afterEachBlock : regex :=
  Cat [Lit "afterEach"; star ws; Chr "("; star (none_of ")"); Chr ")"; star ws;
       Lit "=>"; star ws; Chr "{"].

Definition detect_global_state (content filename : string)
  : list RuleViolation :=
  flat_map (fun pm : pattern * string =>
    let (pattern, msg) := pm in
    map (fun lm =>
      (* Check if it's cleaned up in afterEach *)
      let hasCleanup := test (P afterEachBlock) content in
      {| ruleId := "isolation/global-state";
         message := msg ++ " without "
                    ++ (if hasCleanup then "verifying" else "any") ++ " cleanup.";
         line := Some (lm_line lm);
         column := None;
         snippet := Some (lm_snippet lm);
         suggestion := Some "Restore original value in afterEach() or use vi.stubEnv()/jest.replaceProperty()." |})
      (matchAllWithLineNumbers content pattern))
    globalModifications.

Definition detect_filesystem_side_effects (content filename : string)
  : list RuleViolation :=
  let fsOperations :=
    matchAllWithLineNumbers content
      (P (Cat [Alts [Lit "writeFile"; Lit "writeFileSync"; Lit "mkdir";
                     Lit "mkdirSync"; Lit "appendFile"]; star ws; Chr "("])) in
  let hasCleanup :=
    test (P (Cat [Alts [Lit "unlink"; Lit "unlinkSync"; Lit "rm"; Lit "rmSync";
                        Lit "rmdir"]; star ws; Chr "("])) content
    || test (P (Cat [afterEachBlock; star (none_of "}");
                     Alt (Lit "unlink") (Lit "rm")])) content
    || test (Pi (Alt (Lit "tmp") (Lit "temp"))) content in
  if (0 <? List.length fsOperations)%nat && negb hasCleanup then
    map (fun lm =>
      {| ruleId := "isolation/filesystem-side-effects";
         message := "File system operation without visible cleanup.";
         line := Some (lm_line lm);
         column := None;
         snippet := Some (lm_snippet lm);
         suggestion := Some "Clean up created files in afterEach() or use temp directories." |})
      fsOperations
  else [].

Definition isolationRules : list QualityRule := [
  {| id := "isolation/test-order-dependency";
     name := "Test Order Dependency";
     description := "Tests that depend on execution order are fragile";
     category := isolation; severity := warning; weight := 7;
     detect := fun content filename => Ok (detect_test_order_dependency content filename) |};
  {| id := "isolation/global-state";
     name := "Global State Modification";
     description := "Tests modifying global state can affect other tests";
     category := isolation; severity := error; weight := 8;
     detect := fun content filename => Ok (detect_global_state content filename) |};
  {| id := "isolation/filesystem-side-effects";
     name := "Filesystem Side Effects";
     description := "Tests creating files without cleanup";
     category := isolation; severity := warning; weight := 6;
     detect := fun content filename => Ok (detect_filesystem_side_effects content filename) |}
].

(** *** Maintainability rules *)

Definition testNamePattern : pattern :=
  P (Cat [it_or_test; star ws; Chr "("; star ws; one_of quotes3;
          Group 1 (plus (none_of quotes3)); one_of quotes3]).

Definition badPatterns : list (pattern * string) := [
  (Pi (Cat [Bol; Lit "test"; star ws; plus digit; Eol]),
   "Numbered test name (test 1, test 2)");
  (Pi (Cat [Bol; Lit "it works"; Eol]),
   "Vague " ++ Js.dq ++ "it works" ++ Js.dq ++ " name");
  (Pi (Cat [Bol; Lit "should work"; Eol]),
   "Vague " ++ Js.dq ++ "should work" ++ Js.dq ++ " name");
  (Pi (Cat [Bol; Lit "basic test"; Eol]),
   "Vague " ++ Js.dq ++ "basic test" ++ Js.dq ++ " name");
  (Pi (Cat [Bol; Lit "test"; Eol]),
   "Just " ++ Js.dq ++ "test" ++ Js.dq ++ " as name");
  (P (Cat [Lit "function"; plus ws; plus word; Eol]),
   "Name just describes what function, not behavior")
].

Definition detect_poor_test_name (content filename : string)
  : list RuleViolation :=
  flat_map (fun lm =>
    let name := group content (lm_match lm) 1 in
    (* the first bad pattern that matches, then [break] *)
    List.app (match find (fun pi : pattern * string => test (fst pi) name) badPatterns with
    | Some (_, issue) =>
        [{| ruleId := "maintain/poor-test-name";
            message := "Test name " ++ Js.dq ++ name ++ Js.dq ++ ": " ++ issue ++ ".";
            line := Some (lm_line lm);
            column := None;
            snippet := Some ("test(" ++ Js.dq ++ name ++ Js.dq ++ ", ...)");
            suggestion := Some ("Use descriptive names like " ++ Js.dq
                                ++ "should return empty array when input is null"
                                ++ Js.dq ++ ".") |}]
    | None => []
    end)
    (* Check for very short names *)
    (if (String.length name <? 5)%nat && negb (Js.includes "should" name) then
       [{| ruleId := "maintain/poor-test-name";
           message := "Test name " ++ Js.dq ++ name ++ Js.dq
                      ++ " is too short to be descriptive.";
           line := Some (lm_line lm);
           column := None;
           snippet := Some ("test(" ++ Js.dq ++ name ++ Js.dq ++ ", ...)");
           suggestion := Some "Describe what behavior is being tested." |}]
     else []))
    (matchAllWithLineNumbers content testNamePattern).

(** The brace-counting loop: the state is [(maxNesting, currentNesting)]. *)
Definition nesting_step (st : Z * Z) (char : ascii) : Z * Z :=
  let (maxNesting, currentNesting) := st in
  let currentNesting := if Ascii.eqb char "{" then (currentNesting + 1)%Z
                        else currentNesting in
  let currentNesting := if Ascii.eqb char "}" then (currentNesting - 1)%Z
                        else currentNesting in
  (Z.max maxNesting currentNesting, currentNesting).

Definition maxNesting (content : string) : Z :=
  fst (fold_left nesting_step (Js.chars content) (0%Z, 0%Z)).

Definition detect_deeply_nested (content filename : string)
  : list RuleViolation :=
  (* Count nested describe blocks *)
  let describeMatches := matchAll (P (Cat [Lit "describe"; star ws; Chr "("])) content in
  if (4 <? List.length describeMatches)%nat && (8 <? maxNesting content)%Z then
    [{| ruleId := "maintain/deeply-nested";
        message := "Test file has deeply nested describe blocks.";
        line := Some 1%nat;
        column := None;
        snippet := None;
        suggestion := Some "Flatten structure or split into multiple test files." |}]
  else [].

Definition detect_large_test_file (content filename : string)
  : list RuleViolation :=
  let lines := List.length (Js.split nl content) in
  let testCount := count (P test_call) content in
  if (500 <? lines)%nat then
    [{| ruleId := "maintain/large-test-file";
        message := "Test file is " ++ Js.nat_to_string lines ++ " lines with "
                   ++ Js.nat_to_string testCount ++ " tests. Consider splitting.";
        line := Some 1%nat;
        column := None;
        snippet := None;
        suggestion := Some "Split into focused test files organized by feature or component." |}]
  else [].

Definition magicNumbersPattern : pattern :=
  P (Cat [Lit "expect"; star ws; Chr "("; plus (none_of ")"); Chr ")"; star ws;
          Lit ".toBe"; star ws; Chr "("; star ws; Group 1 (at_least 3 digit);
          star ws; Chr ")"]).

Definition detect_magic_numbers (content filename : string)
  : list RuleViolation :=
  (* Find expect statements with magic numbers *)
  map (fun lm =>
    {| ruleId := "maintain/magic-numbers";
       message := "Magic number " ++ group content (lm_match lm) 1 ++ " in assertion.";
       line := Some (lm_line lm);
       column := None;
       snippet := Some (lm_snippet lm);
       suggestion := Some "Extract to a named constant that explains the expected value." |})
    (matchAllWithLineNumbers content magicNumbersPattern).

Definition it_test_describe : regex :=
  Alts [Lit "it"; Lit "test"; Lit "describe"].

Definition detect_commented_test (content filename : string)
  : list RuleViolation :=
  let commentedTests :=
    matchAllWithLineNumbers content
      (P (Cat [Lit "//"; star ws; it_test_describe; star ws; Chr "("])) in
  let blockCommentedTests :=
    matchAllWithLineNumbers content
      (P (Cat [Lit "/*"; lazy_star any; it_test_describe; star ws; Chr "(";
               lazy_star any; Lit "*/"])) in
  map (fun lm =>
    {| ruleId := "maintain/commented-test";
       message := "Commented out test code found.";
       line := Some (lm_line lm);
       column := None;
       snippet := Some (lm_snippet lm);
       suggestion := Some "Delete commented tests or use .skip() / .todo() for temporary skipping." |})
    (commentedTests ++ blockCommentedTests).

Definition maintainabilityRules : list QualityRule := [
  {| id := "maintain/poor-test-name";
     name := "Poor Test Name";
     description := "Test names should describe behavior, not implementation";
     category := maintainability; severity := info; weight := 3;
     detect := fun content filename => Ok (detect_poor_test_name content filename) |};
  {| id := "maintain/deeply-nested";
     name := "Deeply Nested Tests";
     description := "Excessive nesting makes tests hard to read";
     category := maintainability; severity := warning; weight := 4;
     detect := fun content filename => Ok (detect_deeply_nested content filename) |};
  {| id := "maintain/large-test-file";
     name := "Large Test File";
     description := "Very large test files are hard to maintain";
     category := maintainability; severity := info; weight := 2;
     detect := fun content filename => Ok (detect_large_test_file content filename) |};
  {| id := "maintain/magic-numbers";
     name := "Magic Numbers in Tests";
     description := "Unexplained magic numbers reduce test clarity";
     category := maintainability; severity := info; weight := 2;
     detect := fun content filename => Ok (detect_magic_numbers content filename) |};
  {| id := "maintain/commented-test";
     name := "Commented Out Test";
     description := "Commented tests should be deleted or fixed";
     category := maintainability; severity := warning; weight := 4;
     detect := fun content filename => Ok (detect_commented_test content filename) |}
].

(** *** Structure rules *)

Definition detect_missing_describe (content filename : string)
  : list RuleViolation :=
  let hasDescribe := test (P (Cat [Lit "describe"; star ws; Chr "("])) content in
  let hasTests := test (P test_call) content in
  if hasTests && negb hasDescribe then
    [{| ruleId := "structure/missing-describe";
        message := "Tests are not organized in describe blocks.";
        line := Some 1%nat;
        column := None;
        snippet := None;
        suggestion := Some "Wrap related tests in describe() blocks for better organization." |}]
  else [].

Definition aaaCommentPattern : pattern :=
  Pi (Cat [Lit "//"; star ws;
           Alts [Lit "arrange"; Lit "act"; Lit "assert"; Lit "given";
                 Lit "when"; Lit "then"; Lit "setup"]]).

Definition detect_arrange_act_assert (content filename : string)
  : list RuleViolation :=
  (* Find tests with complex bodies that don't have clear sections *)
  flat_map (fun lm =>
    let body := group content (lm_match lm) 2 in
    let name := group content (lm_match lm) 1 in
    (* Skip short tests (likely simple enough) *)
    if (List.length (Js.split nl body) <? 5)%nat then []
    else
      (* Check for AAA comments or clear structure *)
      let hasAAA :=
        test aaaCommentPattern body
        || Js.includes (nl ++ nl) (hd "" (Js.split "expect" body)) in
      if negb hasAAA && (200 <? String.length body)%nat then
        [{| ruleId := "structure/arrange-act-assert";
            message := "Test " ++ Js.dq ++ name ++ Js.dq
                       ++ " may benefit from clearer AAA structure.";
            line := Some (lm_line lm);
            column := None;
            snippet := None;
            suggestion := Some "Add comments (// Arrange, // Act, // Assert) or blank lines to separate sections." |}]
      else [])
    (matchAllWithLineNumbers content testBlockPattern).

(** The number of [expect] groups (all but the first piece of the split)
    that are followed by a call after the first [);]. *)
Definition actCount (body : string) : nat :=
  let expectGroups := Regex.split (P expect_call) body in
  List.length
    (filter (fun g =>
       (* Check if there's significant code between expect groups *)
       let betweenCode :=
         nth 1 (Regex.split (P (Cat [Chr ")"; star ws; Chr ";"])) g) "" in
       test (P (Cat [plus word; star ws; Chr "("])) betweenCode)
       (tl expectGroups)).

Definition detect_multiple_acts (content filename : string)
  : list RuleViolation :=
  flat_map (fun lm =>
    let body := group content (lm_match lm) 2 in
    let name := group content (lm_match lm) 1 in
    if (2 <=? actCount body)%nat then
      [{| ruleId := "structure/multiple-acts";
          message := "Test " ++ Js.dq ++ name ++ Js.dq
                     ++ " appears to have multiple act phases.";
          line := Some (lm_line lm);
          column := None;
          snippet := None;
          suggestion := Some "Split into separate tests, each testing one behavior." |}]
    else [])
    (matchAllWithLineNumbers content testBlockPattern).

Definition structureRules : list QualityRule := [
  {| id := "structure/missing-describe";
     name := "Missing Describe Block";
     description := "Tests should be organized in describe blocks";
     category := structure; severity := info; weight := 2;
     detect := fun content filename => Ok (detect_missing_describe content filename) |};
  {| id := "structure/arrange-act-assert";
     name := "Missing AAA Pattern";
     description := "Tests should follow Arrange-Act-Assert pattern";
     category := structure; severity := info; weight := 2;
     detect := fun content filename => Ok (detect_arrange_act_assert content filename) |};
  {| id := "structure/multiple-acts";
     name := "Multiple Acts Per Test";
     description := "Tests with multiple acts are testing multiple things";
     category := structure; severity := warning; weight := 5;
     detect := fun content filename => Ok (detect_multiple_acts content filename) |}
].

(** *** Export all rules *)

Definition allRules : list QualityRule :=
  flakyTestRules ++ theaterRules ++ overMockingRules ++ assertionRules
  ++ isolationRules ++ maintainabilityRules ++ structureRules.

Definition rulesByCategory (c : RuleCategory) : list QualityRule :=
  match c with
  | flaky => flakyTestRules
  | theater => theaterRules
  | over_mocking => overMockingRules
  | assertions => assertionRules
  | isolation => isolationRules
  | maintainability => maintainabilityRules
  | structure => structureRules
  end.

Definition categoryDescriptions (c : RuleCategory) : string :=
  match c with
  | flaky => "Flaky Test Detection - Tests that may pass or fail randomly"
  | theater => "Testing Theater - Tests that appear to test but actually verify nothing"
  | over_mocking => "Over-Mocking - Tests that mock so much they test nothing real"
  | assertions => "Assertion Quality - Weak or missing assertions"
  | isolation => "Test Isolation - Tests that may interfere with each other"
  | maintainability => "Maintainability - Tests that are hard to understand or maintain"
  | structure => "Test Structure - Organization and clarity issues"
  end.

(** The string a category is written as in the source. *)
Definition category_name (c : RuleCategory) : string :=
  match c with
  | flaky => "flaky"
  | theater => "theater"
  | over_mocking => "over-mocking"
  | assertions => "assertions"
  | isolation => "isolation"
  | maintainability => "maintainability"
  | structure => "structure"
  end.

Definition category_eqb (a b : RuleCategory) : bool :=
  match a, b with
  | flaky, flaky | theater, theater | over_mocking, over_mocking
  | assertions, assertions | isolation, isolation
  | maintainability, maintainability | structure, structure => true
  | _, _ => false
  end.

Definition severity_eqb (a b : Severity) : bool :=
  match a, b with
  | error, error | warning, warning | info, info => true
  | _, _ => false
  end.

End Rules.

(* ================================================================== *)
(** ** The reviewer ([quality-reviewer.ts]) *)
(* ================================================================== *)

Module Reviewer.

Import Rules.
Local Open Scope string_scope.

(** *** Types *)

Module CategoryScore.
Record t : Type := {
  category : RuleCategory;
  description : string;
  score : Z;             (* 0-100 for this category *)
  weight : Z;            (* How much this contributes to overall *)
  violations : nat;
  maxDeduction : Z;
  actualDeduction : Q
}.
End CategoryScore.

Module ReviewedFile.
Record t : Type := {
  path : string;
  relativePath : string;
  violations : list RuleViolation;
  score : Z;
  scoreBreakdown : list CategoryScore.t;
  testCount : nat;
  assertionCount : nat;
  summary : string
}.
End ReviewedFile.

Module TopIssue.
Record t : Type := {
  rule : string;
  count : nat;
  severity : Severity
}.
End TopIssue.

Module ReviewSummary.
Record t : Type := {
  totalFiles : nat;
  totalTests : nat;
  totalAssertions : nat;
  totalViolations : nat;
  overallScore : Z;      (* 0-100 *)
  scoreBreakdown : list CategoryScore.t;
  violationsByCategory : RuleCategory -> nat;
  violationsBySeverity : Severity -> nat;
  topIssues : list TopIssue.t
}.
End ReviewSummary.

Module ReviewReport.
Record t : Type := {
  rootDir : string;
  timestamp : string;
  files : list ReviewedFile.t;
  summary : ReviewSummary.t;
  recommendations : list string
}.
End ReviewReport.

Module ReviewOptions.
Record t : Type := {
  rules : option (list QualityRule);
  includedCategories : option (list RuleCategory);
  excludedCategories : option (list RuleCategory);
  minSeverity : option Severity;
  ignorePatterns : option (list string)
}.
(** [options = {}] *)
Definition empty : t :=
  {| rules := None; includedCategories := None; excludedCategories := None;
     minSeverity := None; ignorePatterns := None |}.
End ReviewOptions.

(** *** Constants *)

Definition TEST_FILE_PATTERNS : list string := [
  "**/*.test.{ts,tsx,js,jsx,mjs}";
  "**/*.spec.{ts,tsx,js,jsx,mjs}";
  "**/__tests__/**/*.{ts,tsx,js,jsx,mjs}";
  "**/test_*.py";
  "**/*_test.py";
  "**/tests/test_*.py"
].

Definition DEFAULT_IGNORE : list string := [
  "**/node_modules/**";
  "**/dist/**";
  "**/build/**";
  "**/coverage/**";
  "**/.git/**"
].

Definition CATEGORY_WEIGHTS (c : RuleCategory) : Z :=
  match c with
  | theater => 25          (* Most critical - tests that don't test *)
  | flaky => 20            (* Very critical - unreliable tests *)
  | over_mocking => 15
  | assertions => 15
  | isolation => 10
  | maintainability => 10
  | structure => 5
  end.

(** [Object.keys(CATEGORY_WEIGHTS)], in the order of the literal. *)
Definition CATEGORY_KEYS : list RuleCategory :=
  [theater; flaky; over_mocking; assertions; isolation; maintainability; structure].

(** The literals [1.0], [0.6] and [0.3]: the doubles nearest to them. *)
Definition SEVERITY_MULTIPLIERS (s : Severity) : Q :=
  match s with
  | error => 1
  | warning => Double.double (6 # 10)
  | info => Double.double (3 # 10)
  end.

(** [Math.round]: the nearest integer, halves upwards. *)
Definition Math_round (x : Q) : Z := Qfloor (x + (1 # 2)).

(** *** Scoring logic *)

Definition initCategoryScore (rules : list QualityRule) (category : RuleCategory)
  : CategoryScore.t :=
  let categoryRules := filter (fun r => category_eqb (Rules.category r) category) rules in
  let maxDeduction := fold_left (fun sum r => (sum + Rules.weight r)%Z) categoryRules 0%Z in
  {| CategoryScore.category := category;
     CategoryScore.description := categoryDescriptions category;
     CategoryScore.score := 100;
     CategoryScore.weight := CATEGORY_WEIGHTS category;
     CategoryScore.violations := 0;
     CategoryScore.maxDeduction := maxDeduction;
     CategoryScore.actualDeduction := 0 |}.

(** [new Map(rules.map(r => [r.id, r])).get(ruleId)]: of two rules with one
    id the later one is kept. *)
Definition ruleMap_get (rules : list QualityRule) (ruleId : string)
  : option QualityRule :=
  find (fun r => String.eqb (Rules.id r) ruleId) (rev rules).

Definition addDeduction (deduction : Q) (cs : CategoryScore.t) : CategoryScore.t :=
  {| CategoryScore.category := CategoryScore.category cs;
     CategoryScore.description := CategoryScore.description cs;
     CategoryScore.score := CategoryScore.score cs;
     CategoryScore.weight := CategoryScore.weight cs;
     CategoryScore.violations := S (CategoryScore.violations cs);
     CategoryScore.maxDeduction := CategoryScore.maxDeduction cs;
     CategoryScore.actualDeduction :=
       Double.add (CategoryScore.actualDeduction cs) deduction |}.

(** One round of the loop [for (const violation of violations)] over the
    map [categoryScores], kept as the list of its values in key order. *)
Definition applyViolation (rules : list QualityRule)
  (categoryScores : list CategoryScore.t) (violation : RuleViolation)
  : list CategoryScore.t :=
  match ruleMap_get rules (ruleId violation) with
  | None => categoryScores
  | Some rule =>
      let severityMultiplier := SEVERITY_MULTIPLIERS (Rules.severity rule) in
      let deduction := Double.mul (inject_Z (Rules.weight rule)) severityMultiplier in
      map (fun cs =>
             if category_eqb (CategoryScore.category cs) (Rules.category rule)
             then addDeduction deduction cs else cs)
          categoryScores
  end.

(** Normalize deduction based on max possible; the score is capped at 0. *)
Definition normalizedDeduction (data : CategoryScore.t) : Q :=
  if (0 <? CategoryScore.maxDeduction data)%Z
  then Double.mul (Double.div (CategoryScore.actualDeduction data)
                              (inject_Z (CategoryScore.maxDeduction data)))
                  100
  else 0%Q.

Definition setScore (data : CategoryScore.t) : CategoryScore.t :=
  {| CategoryScore.category := CategoryScore.category data;
     CategoryScore.description := CategoryScore.description data;
     CategoryScore.score :=
       Z.max 0 (Math_round (Double.sub 100 (normalizedDeduction data)));
     CategoryScore.weight := CategoryScore.weight data;
     CategoryScore.violations := CategoryScore.violations data;
     CategoryScore.maxDeduction := CategoryScore.maxDeduction data;
     CategoryScore.actualDeduction := CategoryScore.actualDeduction data |}.

Definition weightedSum (scoreBreakdown : list CategoryScore.t) : Z :=
  fold_left (fun acc c => (acc + CategoryScore.score c * CategoryScore.weight c)%Z)
            scoreBreakdown 0%Z.

Definition totalWeight (scoreBreakdown : list CategoryScore.t) : Z :=
  fold_left (fun acc c => (acc + CategoryScore.weight c)%Z) scoreBreakdown 0%Z.

Definition calculateScore (violations : list RuleViolation) (rules : list QualityRule)
  : Z * list CategoryScore.t :=
  (* Initialize category scores *)
  let categoryScores := map (initCategoryScore rules) CATEGORY_KEYS in
  (* Apply violations *)
  let categoryScores := fold_left (applyViolation rules) violations categoryScores in
  (* Calculate category scores (capped at 0) *)
  let scoreBreakdown := map setScore categoryScores in
  (* Calculate overall weighted score *)
  let overallScore :=
    if (0 <? totalWeight scoreBreakdown)%Z
    then Math_round (Double.div (inject_Z (weightedSum scoreBreakdown))
                                (inject_Z (totalWeight scoreBreakdown)))
    else 100%Z in
  (overallScore, scoreBreakdown).

(** *** Helper functions *)

Definition severityIndex (s : Severity) : nat :=
  match s with info => 0 | warning => 1 | error => 2 end.

Definition includes_category (l : list RuleCategory) (c : RuleCategory) : bool :=
  existsb (category_eqb c) l.

Definition filterRules (options : ReviewOptions.t) : list QualityRule :=
  let rules := match ReviewOptions.rules options with
               | Some rs => rs
               | None => allRules
               end in
  let rules :=
    match ReviewOptions.includedCategories options with
    | Some (c :: cs) => filter (fun r => includes_category (c :: cs) (Rules.category r)) rules
    | _ => rules
    end in
  let rules :=
    match ReviewOptions.excludedCategories options with
    | Some (c :: cs) => filter (fun r => negb (includes_category (c :: cs) (Rules.category r))) rules
    | _ => rules
    end in
  let rules :=
    match ReviewOptions.minSeverity options with
    | Some minSeverity =>
        let minIndex := severityIndex minSeverity in
        filter (fun r => (minIndex <=? severityIndex (Rules.severity r))%nat) rules
    | None => rules
    end in
  rules.

Definition countTests (content : string) : nat :=
  Regex.count (P test_call) content.

Definition countAssertions (content : string) : nat :=
  fold_left (fun count pattern => (count + Regex.count pattern content)%nat)
    [P expect_call;
     P (Regex.Seq (Regex.Lit "assert") (Regex.one_of ".("));
     P (Regex.Seq (Regex.Lit "should") (Regex.one_of ".("))]
    0%nat.

(** [allRules.find(r => r.id === ruleId)] *)
Definition findRule (ruleId : string) : option QualityRule :=
  find (fun r => String.eqb (Rules.id r) ruleId) allRules.

Definition hasSeverity (s : Severity) (v : RuleViolation) : bool :=
  match findRule (ruleId v) with
  | Some rule => severity_eqb (Rules.severity rule) s
  | None => false
  end.

Definition generateFileSummary (violations : list RuleViolation)
  (testCount assertionCount : nat) (score : Z) : string :=
  match violations with
  | [] =>
      "‚úÖ Clean! " ++ Js.nat_to_string testCount ++ " tests, "
      ++ Js.nat_to_string assertionCount ++ " assertions, no issues detected."
  | _ =>
      let errors := List.length (filter (hasSeverity error) violations) in
      let warnings := List.length (filter (hasSeverity warning) violations) in
      let parts :=
        List.app
          (if (0 <? errors)%nat
           then [Js.nat_to_string errors ++ " error" ++ (if (1 <? errors)%nat then "s" else "")]
           else [])
          (if (0 <? warnings)%nat
           then [Js.nat_to_string warnings ++ " warning" ++ (if (1 <? warnings)%nat then "s" else "")]
           else []) in
      let scoreEmoji := if (80 <=? score)%Z then "üü¢"
                        else if (60 <=? score)%Z then "üü°" else "üî¥" in
      scoreEmoji ++ " Score: " ++ Js.Z_to_string score ++ "/100. "
      ++ Js.concat_with ", " parts ++ ". " ++ Js.nat_to_string testCount
      ++ " tests, " ++ Js.nat_to_string assertionCount ++ " assertions."
  end.

(** *** Core review functions *)

Definition bind {A B} (x : Result A) (k : A -> Result B) : Result B :=
  match x with
  | Ok v => k v
  | Throw e => Throw e
  end.

(** [try { body } catch (error) { handler }] *)
Definition try_catch {A} (body : Result A) (handler : string -> Result A) : Result A :=
  match body with
  | Ok v => Ok v
  | Throw e => handler e
  end.

Notation "x <- c1 ;; c2" := (bind c1 (fun x => c2))
  (at level 61, c1 at next level, right associativity).

(** [basename] of [path] (POSIX): what follows the last slash, trailing
    slashes apart. *)
Fixpoint drop_slashes (l : list ascii) : list ascii :=
  match l with
  | [] => []
  | a :: l' => if Ascii.eqb a "/" then drop_slashes l' else l
  end.

Fixpoint take_to_slash (l : list ascii) : list ascii :=
  match l with
  | [] => []
  | a :: l' => if Ascii.eqb a "/" then [] else a :: take_to_slash l'
  end.

Definition basename (filename : string) : string :=
  Js.str (rev (take_to_slash (drop_slashes (rev (Js.chars filename))))).

(** The loop [for (const rule of rules)] of [reviewTestFile]: a rule whose
    [detect] throws is skipped (the source logs it with [console.error]). *)
Fixpoint runRules (rules : list QualityRule) (content filename : string)
  (violations : list RuleViolation) : Result (list RuleViolation) :=
  match rules with
  | [] => Ok violations
  | rule :: rules' =>
      violations' <-
        try_catch
          (ruleViolations <- detect rule content filename ;;
           Ok (violations ++ ruleViolations)%list)
          (fun error => (* Rule failed - skip silently *) Ok violations) ;;
      runRules rules' content filename violations'
  end.

(** Review a single test file for quality issues *)
Definition reviewTestFile (content filename : string) (options : ReviewOptions.t)
  : Result ReviewedFile.t :=
  let rules := filterRules options in
  (* Run all applicable rules *)
  violations <- runRules rules content filename [] ;;
  (* Calculate metrics *)
  let testCount := countTests content in
  let assertionCount := countAssertions content in
  (* Calculate score *)
  let (score, scoreBreakdown) := calculateScore violations rules in
  (* Generate summary *)
  let summary := generateFileSummary violations testCount assertionCount score in
  Ok {| ReviewedFile.path := filename;
        ReviewedFile.relativePath := basename filename;
        ReviewedFile.violations := violations;
        ReviewedFile.score := score;
        ReviewedFile.scoreBreakdown := scoreBreakdown;
        ReviewedFile.testCount := testCount;
        ReviewedFile.assertionCount := assertionCount;
        ReviewedFile.summary := summary |}.

(** *** Aggregation *)

(** [Array.prototype.sort] with a comparator: a stable sort. *)
Section Sort.
Variable A : Type.
Variable cmp : A -> A -> Z.

Fixpoint insert_sorted (x : A) (l : list A) : list A :=
  match l with
  | [] => [x]
  | y :: l' => if (cmp x y <=? 0)%Z then x :: y :: l' else y :: insert_sorted x l'
  end.

Definition js_sort (l : list A) : list A := fold_right insert_sorted [] l.
End Sort.

(** [severityOrder.indexOf] for [['error', 'warning', 'info']]. *)
Definition severityRank (s : Severity) : Z :=
  match s with error => 0 | warning => 1 | info => 2 end.

(** Sort by severity first, then count *)
Definition compareIssues (a b : TopIssue.t) : Z :=
  let severityDiff := (severityRank (TopIssue.severity a)
                       - severityRank (TopIssue.severity b))%Z in
  if negb (severityDiff =? 0)%Z then severityDiff
  else (Z.of_nat (TopIssue.count b) - Z.of_nat (TopIssue.count a))%Z.

(** The map [violationCounts], as the list of its entries in insertion
    order: [bump id sev m] is [existing.count++] or [m.set(id, {count: 1,
    severity})]. *)
Fixpoint bump (ruleId : string) (sev : Severity) (m : list TopIssue.t)
  : list TopIssue.t :=
  match m with
  | [] => [{| TopIssue.rule := ruleId; TopIssue.count := 1; TopIssue.severity := sev |}]
  | e :: m' =>
      if String.eqb (TopIssue.rule e) ruleId
      then {| TopIssue.rule := TopIssue.rule e;
              TopIssue.count := S (TopIssue.count e);
              TopIssue.severity := TopIssue.severity e |} :: m'
      else e :: bump ruleId sev m'
  end.

Definition incr {K} (eqb : K -> K -> bool) (k : K) (f : K -> nat) : K -> nat :=
  fun k' => if eqb k' k then S (f k') else f k'.

(** The three tallies of [generateSummary]. *)
Record Tally : Type := {
  byCategory : RuleCategory -> nat;
  bySeverity : Severity -> nat;
  violationCounts : list TopIssue.t
}.

Definition emptyTally : Tally :=
  {| byCategory := fun _ => 0; bySeverity := fun _ => 0; violationCounts := [] |}.

Definition tallyViolation (t : Tally) (violation : RuleViolation) : Tally :=
  match findRule (ruleId violation) with
  | None => t
  | Some rule =>
      {| byCategory := incr category_eqb (Rules.category rule) (byCategory t);
         bySeverity := incr severity_eqb (Rules.severity rule) (bySeverity t);
         violationCounts := bump (Rules.id rule) (Rules.severity rule) (violationCounts t) |}
  end.

(** The map [categoryTotals], as the list of its entries
    [(category, (total, count))] in insertion order. *)
Fixpoint addTotal (c : RuleCategory) (score : Z)
  (m : list (RuleCategory * (Z * nat))) : list (RuleCategory * (Z * nat)) :=
  match m with
  | [] => [(c, (score, 1))]
  | (c', (total, count)) :: m' =>
      if category_eqb c' c then (c', ((total + score)%Z, S count)) :: m'
      else (c', (total, count)) :: addTotal c score m'
  end.

Fixpoint getTotal (c : RuleCategory) (m : list (RuleCategory * (Z * nat)))
  : option (Z * nat) :=
  match m with
  | [] => None
  | (c', d) :: m' => if category_eqb c' c then Some d else getTotal c m'
  end.

Definition categoryTotals (files : list ReviewedFile.t)
  : list (RuleCategory * (Z * nat)) :=
  fold_left (fun m file =>
               fold_left (fun m catScore =>
                            addTotal (CategoryScore.category catScore)
                                     (CategoryScore.score catScore) m)
                         (ReviewedFile.scoreBreakdown file) m)
            files [].

Definition totalScore (files : list ReviewedFile.t) : Z :=
  fold_left (fun sum f => (sum + ReviewedFile.score f)%Z) files 0%Z.

Definition generateSummary (files : list ReviewedFile.t) : ReviewSummary.t :=
  let totalFiles := List.length files in
  let totalTests := fold_left (fun sum f => sum + ReviewedFile.testCount f)%nat files 0%nat in
  let totalAssertions :=
    fold_left (fun sum f => sum + ReviewedFile.assertionCount f)%nat files 0%nat in
  (* Aggregate violations *)
  let allViolations := flat_map ReviewedFile.violations files in
  let totalViolations := List.length allViolations in
  (* Count by category, by severity and by rule *)
  let tally := fold_left tallyViolation allViolations emptyTally in
  (* Top issues *)
  let topIssues := firstn 10 (js_sort compareIssues (violationCounts tally)) in
  (* Aggregate category scores *)
  let totals := categoryTotals files in
  let scoreBreakdown :=
    map (fun category =>
           let avgScore :=
             match getTotal category totals with
             | Some (total, count) =>
                 Math_round (inject_Z total / inject_Z (Z.of_nat count))
             | None => 100%Z
             end in
           {| CategoryScore.category := category;
              CategoryScore.description := categoryDescriptions category;
              CategoryScore.score := avgScore;
              CategoryScore.weight := CATEGORY_WEIGHTS category;
              CategoryScore.violations := byCategory tally category;
              CategoryScore.maxDeduction := 0;   (* Not meaningful in aggregate *)
              CategoryScore.actualDeduction := 0 |})
        CATEGORY_KEYS in
  (* Calculate overall score *)
  let overallScore :=
    if (0 <? List.length files)%nat
    then Math_round (inject_Z (totalScore files) / inject_Z (Z.of_nat (List.length files)))
    else 100%Z in
  {| ReviewSummary.totalFiles := totalFiles;
     ReviewSummary.totalTests := totalTests;
     ReviewSummary.totalAssertions := totalAssertions;
     ReviewSummary.totalViolations := totalViolations;
     ReviewSummary.overallScore := overallScore;
     ReviewSummary.scoreBreakdown := scoreBreakdown;
     ReviewSummary.violationsByCategory := byCategory tally;
     ReviewSummary.violationsBySeverity := bySeverity tally;
     ReviewSummary.topIssues := topIssues |}.

Definition createEmptySummary : ReviewSummary.t :=
  {| ReviewSummary.totalFiles := 0;
     ReviewSummary.totalTests := 0;
     ReviewSummary.totalAssertions := 0;
     ReviewSummary.totalViolations := 0;
     ReviewSummary.overallScore := 0;
     ReviewSummary.scoreBreakdown := [];
     ReviewSummary.violationsByCategory := fun _ => 0%nat;
     ReviewSummary.violationsBySeverity := fun _ => 0%nat;
     ReviewSummary.topIssues := [] |}.

Definition generateRecommendations (summary : ReviewSummary.t)
  (files : list ReviewedFile.t) : list string :=
  let when (b : bool) (s : string) : list string := if b then [s] else [] in
  let byCat := ReviewSummary.violationsByCategory summary in
  (* Category-specific recommendations based on lowest scores *)
  let lowestCategories :=
    firstn 2
      (js_sort (fun a b => (CategoryScore.score a - CategoryScore.score b)%Z)
         (filter (fun c => (0 <? CategoryScore.violations c)%nat)
                 (ReviewSummary.scoreBreakdown summary))) in
  List.concat [
    (* Critical: Testing theater *)
    when (0 <? byCat theater)%nat
      ("üé≠ CRITICAL: Some tests don't actually test anything (testing theater). "
       ++ "Review empty tests and tests without assertions.");
    (* Critical: Flaky tests *)
    when (3 <? byCat flaky)%nat
      ("‚ö° CRITICAL: Multiple flaky test patterns detected. "
       ++ "These cause intermittent CI failures. Address timing dependencies and random data usage.");
    (* Over-mocking *)
    when (2 <? byCat over_mocking)%nat
      ("üé™ WARNING: Excessive mocking detected. "
       ++ "Tests that mock everything verify nothing. Consider integration tests for complex interactions.");
    (* Test isolation *)
    when (0 <? byCat isolation)%nat
      ("üîí Address test isolation issues to prevent tests from affecting each other. "
       ++ "Use beforeEach() for setup and afterEach() for cleanup.");
    (* Low overall score *)
    when (ReviewSummary.overallScore summary <? 60)%Z
      ("üìâ Overall test quality is below acceptable threshold. "
       ++ "Prioritize fixing error-level issues before adding new tests.");
    (* Missing assertions: totalAssertions / totalTests < 1 *)
    when ((0 <? ReviewSummary.totalTests summary)%nat
          && (ReviewSummary.totalAssertions summary <? ReviewSummary.totalTests summary)%nat)
      ("üéØ Low assertion density. "
       ++ "Aim for at least 1-2 meaningful assertions per test.");
    (* Positive feedback *)
    when (80 <=? ReviewSummary.overallScore summary)%Z
      "‚ú® Good test quality! Focus on maintaining standards and adding edge case coverage.";
    when (ReviewSummary.totalViolations summary =? 0)%nat
      "üèÜ Excellent! No quality issues detected. Consider adding more edge case tests.";
    flat_map (fun cat =>
      when (CategoryScore.score cat <? 70)%Z
        ("üìã Focus area: " ++ CategoryScore.description cat ++ ". Score: "
         ++ Js.Z_to_string (CategoryScore.score cat) ++ "/100."))
      lowestCategories
  ].

(** The collaborators of [reviewTestFiles]: file discovery, file reading,
    the clock and [path.relative]. *)
Record Env : Type := {
  glob : list string -> string -> list string -> list string;
      (* patterns, cwd, ignore *)
  readFile : string -> Result string;
  now : string;                               (* new Date().toISOString() *)
  relative : string -> string -> string
}.

Definition setRelativePath (p : string) (review : ReviewedFile.t) : ReviewedFile.t :=
  {| ReviewedFile.path := ReviewedFile.path review;
     ReviewedFile.relativePath := p;
     ReviewedFile.violations := ReviewedFile.violations review;
     ReviewedFile.score := ReviewedFile.score review;
     ReviewedFile.scoreBreakdown := ReviewedFile.scoreBreakdown review;
     ReviewedFile.testCount := ReviewedFile.testCount review;
     ReviewedFile.assertionCount := ReviewedFile.assertionCount review;
     ReviewedFile.summary := ReviewedFile.summary review |}.

(** The loop [for (const filepath of testFiles)]: a file whose reading or
    review throws is skipped. *)
Fixpoint reviewEach (env : Env) (rootDir : string) (options : ReviewOptions.t)
  (testFiles : list string) (reviewedFiles : list ReviewedFile.t)
  : Result (list ReviewedFile.t) :=
  match testFiles with
  | [] => Ok reviewedFiles
  | filepath :: testFiles' =>
      reviewedFiles' <-
        try_catch
          (content <- readFile env filepath ;;
           review <- reviewTestFile content filepath options ;;
           Ok (reviewedFiles ++ [setRelativePath (relative env rootDir filepath) review])%list)
          (fun error => (* Skip files that can't be read *) Ok reviewedFiles) ;;
      reviewEach env rootDir options testFiles' reviewedFiles'
  end.

(** Review all test files in a directory *)
Definition reviewTestFiles (env : Env) (rootDir : string) (options : ReviewOptions.t)
  : Result ReviewReport.t :=
  let ignorePatterns :=
    (DEFAULT_IGNORE ++ match ReviewOptions.ignorePatterns options with
                       | Some l => l
                       | None => []
                       end)%list in
  (* Find all test files *)
  let testFiles := glob env TEST_FILE_PATTERNS rootDir ignorePatterns in
  if (List.length testFiles =? 0)%nat then
    Ok {| ReviewReport.rootDir := rootDir;
          ReviewReport.timestamp := now env;
          ReviewReport.files := [];
          ReviewReport.summary := createEmptySummary;
          ReviewReport.recommendations := ["No test files found. Start by adding tests!"] |}
  else
    (* Review each file *)
    reviewedFiles <- reviewEach env rootDir options testFiles [] ;;
    (* Generate summary *)
    let summary := generateSummary reviewedFiles in
    let recommendations := generateRecommendations summary reviewedFiles in
    Ok {| ReviewReport.rootDir := rootDir;
          ReviewReport.timestamp := now env;
          ReviewReport.files := reviewedFiles;
          ReviewReport.summary := summary;
          ReviewReport.recommendations := recommendations |}.

End Reviewer.

(* ================================================================== *)
(** ** Vocabulary of the properties *)
(* ================================================================== *)

Import Rules Reviewer.

(** What a rule contributes to a review: its violations, or nothing when
    its [detect] throws. *)
Definition contribution (content filename : string) (r : QualityRule)
  : list RuleViolation :=
  match detect r content filename with
  | Ok vs => vs
  | Throw _ => []
  end.

Definition collected (content filename : string) (rules : list QualityRule)
  : list RuleViolation :=
  flat_map (contribution content filename) rules.


Definition category_scores (l : list CategoryScore.t) : list Z :=
  map CategoryScore.score l.

(** Options that keep the built-in catalog. *)
Definition selection (inc exc : option (list RuleCategory))
  (sev : option Severity) (ign : option (list string)) : ReviewOptions.t :=
  {| ReviewOptions.rules := None;
     ReviewOptions.includedCategories := inc;
     ReviewOptions.excludedCategories := exc;
     ReviewOptions.minSeverity := sev;
     ReviewOptions.ignorePatterns := ign |}.

(** Options over any catalog with a severity threshold. *)
Definition withSeverity (catalog : option (list QualityRule))
  (inc exc : option (list RuleCategory)) (ign : option (list string))
  (sev : Severity) : ReviewOptions.t :=
  {| ReviewOptions.rules := catalog;
     ReviewOptions.includedCategories := inc;
     ReviewOptions.excludedCategories := exc;
     ReviewOptions.minSeverity := Some sev;
     ReviewOptions.ignorePatterns := ign |}.

(** The number of violations of the reviewed files that carry a rule id. *)
Definition occurrences (ruleId : string) (files : list ReviewedFile.t) : nat :=
  List.length (filter (fun v => String.eqb (Rules.ruleId v) ruleId)
                      (flat_map ReviewedFile.violations files)).

(** A severity comes before another one in a ranking: error before
    warning before info. *)
Inductive more_severe : Severity -> Severity -> Prop :=
| error_before_warning : more_severe error warning
| error_before_info : more_severe error info
| warning_before_info : more_severe warning info.

(** The order of [topIssues]: a more severe issue first, and of two issues
    of one severity the more frequent first. *)
Definition ranks_before (a b : TopIssue.t) : Prop :=
  more_severe (TopIssue.severity a) (TopIssue.severity b)
  \/ (TopIssue.severity a = TopIssue.severity b
      /\ (TopIssue.count b <= TopIssue.count a)%nat).

(** The issues of all files before the cut to ten. *)
Definition rankedIssues (files : list ReviewedFile.t) : list TopIssue.t :=
  js_sort compareIssues
    (violationCounts
       (fold_left tallyViolation (flat_map ReviewedFile.violations files) emptyTally)).

(** A rule outside the built-in catalog whose [detect] throws. *)
Definition throwingRule : QualityRule :=
  {| id := "custom/throws";
     name := "Throws";
     description := "A detector that fails";
     category := structure; severity := warning; weight := 5;
     detect := fun _ _ => Throw "detector failed" |}.

(** Options that select exactly the rules of a list. *)
Definition only (rules : list QualityRule) : ReviewOptions.t :=
  {| ReviewOptions.rules := Some rules;
     ReviewOptions.includedCategories := None;
     ReviewOptions.excludedCategories := None;
     ReviewOptions.minSeverity := None;
     ReviewOptions.ignorePatterns := None |}.

(** The content of scenario A. *)
Definition scenarioA : string := "it('should work', () => {})".

Definition theaterScore (f : ReviewedFile.t) : list Z :=
  category_scores
    (filter (fun c => category_eqb (CategoryScore.category c) theater)
            (ReviewedFile.scoreBreakdown f)).

Definition otherScores (f : ReviewedFile.t) : list Z :=
  category_scores
    (filter (fun c => negb (category_eqb (CategoryScore.category c) theater))
            (ReviewedFile.scoreBreakdown f)).

(** A run in which one test file is discovered and cannot be read. *)
Definition unreadableEnv : Env :=
  {| glob := fun _ _ _ => ["/repo/src/a.test.ts"%string];
     readFile := fun _ => Throw "EISDIR: illegal operation on a directory, read";
     now := "2024-01-01T00:00:00.000Z";
     relative := fun _ p => p |}.

(** A run in which no test file is discovered. *)
Definition emptyEnv : Env :=
  {| glob := fun _ _ _ => [];
     readFile := fun _ => Throw "ENOENT";
     now := "2024-01-01T00:00:00.000Z";
     relative := fun _ p => p |}.

(** How many violations of a list carry a rule id. *)
Definition firings (ruleId : string) (vs : list RuleViolation) : nat :=
  List.length (filter (fun v => String.eqb (Rules.ruleId v) ruleId) vs).

(** The loop of [rmatch] on [r*] and [r*?], for an iteration [m1]. *)
Definition star_loop (greedy : bool)
  (m1 : Regex.mstate -> (Regex.mstate -> option Regex.mstate) -> option Regex.mstate)
  (k : Regex.mstate -> option Regex.mstate)
  : nat -> Regex.mstate -> option Regex.mstate :=
  fix loop (fuel : nat) (st0 : Regex.mstate) {struct fuel} : option Regex.mstate :=
    match fuel with
    | O => k st0
    | S fuel' =>
        if greedy
        then Regex.orElse (m1 st0 (fun st1 => if Regex.pos st0 <? Regex.pos st1
                                              then loop fuel' st1 else None))
                          (fun _ => k st0)
        else Regex.orElse (k st0)
                          (fun _ => m1 st0 (fun st1 => if Regex.pos st0 <? Regex.pos st1
                                                       then loop fuel' st1 else None))
    end.

(** *** Calls in a text *)

(** A white space character: tab, line feed, vertical tab, form feed,
    carriage return, space or no-break space. *)
Definition blank (c : ascii) : bool :=
  existsb (Ascii.eqb c) ["009"; "010"; "011"; "012"; "013"; " "; "160"]%char.

Fixpoint skip_blanks (l : list ascii) : list ascii :=
  match l with
  | c :: l' => if blank c then skip_blanks l' else l
  | [] => []
  end.

(** What follows a prefix [p] at the head of a text, if the text begins
    with [p]. *)
Fixpoint after_prefix (p l : list ascii) : option (list ascii) :=
  match p, l with
  | [], _ => Some l
  | a :: p', b :: l' => if Ascii.eqb a b then after_prefix p' l' else None
  | _ :: _, [] => None
  end.

(** A call of [name] starts at the head of a text: the characters of
    [name], then any white space, then an opening parenthesis. *)
Definition call_starts (name : string) (l : list ascii) : bool :=
  match after_prefix (Js.chars name) l with
  | Some rest =>
      match skip_blanks rest with
      | c :: _ => Ascii.eqb c "("
      | [] => false
      end
  | None => false
  end.

(** The number of positions of a text at which [starts] holds. *)
Fixpoint positions (starts : list ascii -> bool) (l : list ascii) : nat :=
  (if starts l then 1 else 0)
  + match l with
    | [] => 0
    | _ :: l' => positions starts l'
    end.

(** The number of positions of a content at which a call of one of the
    names starts. *)
Definition calls (names : list string) (content : string) : nat :=
  positions (fun l => existsb (fun name => call_starts name l) names)
            (Js.chars content).

(** The mock registrations of a content: the calls of [jest.mock],
    [vi.mock], [jest.spyOn], [vi.spyOn], [jest.fn], [vi.fn] and
    [.mockImplementation]. *)
Definition mockRegistrations (content : string) : nat :=
  calls ["jest.mock"]%string content
  + calls ["vi.mock"]%string content
  + calls ["jest.spyOn"; "vi.spyOn"]%string content
  + calls ["jest.fn"; "vi.fn"]%string content
  + calls [".mockImplementation"]%string content.

(** The assertions of a content: the calls of [expect]. *)
Definition assertionCalls (content : string) : nat :=
  calls ["expect"]%string content.

(** The number of white space characters at the head of a text. *)
Fixpoint blanks (l : list ascii) : nat :=
  match l with
  | c :: l' => if blank c then S (blanks l') else 0
  | [] => 0
  end.

(** The length of the call of [name] that starts at the head of a text. *)
Definition call_len1 (name l : list ascii) : option nat :=
  match after_prefix name l with
  | Some r =>
      match skipn (blanks r) r with
      | c :: _ => if Ascii.eqb c "(" then Some (List.length name + blanks r + 1) else None
      | [] => None
      end
  | None => None
  end.

(** The length of the call of the first of the names that starts at the
    head of a text. *)
Fixpoint call_len (names : list (list ascii)) (l : list ascii) : option nat :=
  match names with
  | [] => None
  | name :: names' =>
      match call_len1 name l with
      | Some n => Some n
      | None => call_len names' l
      end
  end.

(** The first call at or after the head of a text that begins at index
    [p]: its index and the index after it. *)
Fixpoint find_call (names : list (list ascii)) (p : nat) (l : list ascii)
  : option (nat * nat) :=
  match call_len names l with
  | Some n => Some (p, n + p)
  | None =>
      match l with
      | [] => None
      | _ :: l' => find_call names (S p) l'
      end
  end.

(** A matcher state [n] characters on. *)
Definition advance (n : nat) (st : Regex.mstate) : Regex.mstate :=
  {| Regex.pos := n + Regex.pos st;
     Regex.rest := skipn n (Regex.rest st);
     Regex.caps := Regex.caps st |}.

(** Names whose calls cannot overlap: no name begins with a white space
    character or a parenthesis, and no name begins inside another one. *)
Definition apart (name name' : list ascii) : bool :=
  forallb (fun t => negb (Js.starts_with_l (firstn (List.length name - t) name')
                                           (skipn t name)))
          (seq 1 (List.length name - 1)).

Definition separate (names : list (list ascii)) : bool :=
  forallb (fun name =>
             match name with
             | c :: _ => negb (blank c) && negb (Ascii.eqb c "(")
             | [] => false
             end
             && forallb (apart name) names)
          names.

(** A call of one of the names begins at the head of a text. *)
Definition begins (names : list (list ascii)) (l : list ascii) : bool :=
  match call_len names l with
  | Some _ => true
  | None => false
  end.

(** A file with six mock registrations and one assertion. *)
Definition sixMocks : string :=
  "vi.mock('./module1');
vi.mock('./module2');
vi.mock('./module3');
jest.mock('./module4');
const spy = vi.spyOn(api, 'get');
const fn = jest.fn();
describe('over-mocked', () => {
  it('should test something', () => {
    expect(load()).toBe(3);
  });
});
".



(** No rule of a catalog has a negative weight (the documented range of
    [weight] is 0-10). *)
Definition weights_ok (rules : list QualityRule) : Prop :=
  Forall (fun r => (0 <= weight r)%Z) rules.

(** The catalog that the options select from. *)
Definition catalogOf (options : ReviewOptions.t) : list QualityRule :=
  match ReviewOptions.rules options with
  | Some rs => rs
  | None => allRules
  end.



(** A rule outside the built-in catalog that reports one violation on
    every file. *)
Definition customRule : QualityRule :=
  {| id := "custom/always";
     name := "Always";
     description := "A project rule that always reports";
     category := structure; severity := warning; weight := 5;
     detect := fun _ _ =>
       Ok [{| ruleId := "custom/always";
              message := "Reported by a project rule.";
              line := Some 1%nat;
              column := None;
              snippet := None;
              suggestion := None |}] |}.

(** [topIssues] groups all violations: every violation of the files is
    counted in an entry of [topIssues] under its rule id. *)
Definition groups_all_violations (files : list ReviewedFile.t) : Prop :=
  forall v, In v (flat_map ReviewedFile.violations files) ->
    exists e, In e (ReviewSummary.topIssues (generateSummary files))
              /\ TopIssue.rule e = ruleId v
              /\ TopIssue.count e = occurrences (ruleId v) files.

(** A reviewed file with three violations of two built-in rules. *)
Definition sampleFile : ReviewedFile.t :=
  let v (i : string) :=
    {| ruleId := i; message := ""; line := None; column := None;
       snippet := None; suggestion := None |} in
  {| ReviewedFile.path := "a.test.ts";
     ReviewedFile.relativePath := "a.test.ts";
     ReviewedFile.violations :=
       [v "maintain/poor-test-name"; v "theater/empty-test";
        v "maintain/poor-test-name"]%string;
     ReviewedFile.score := 90;
     ReviewedFile.scoreBreakdown := [];
     ReviewedFile.testCount := 2;
     ReviewedFile.assertionCount := 0;
     ReviewedFile.summary := "" |}.



(** What the tally of the violations holds for each rule id. *)
Definition tally_ok (vs : list RuleViolation) (m : list TopIssue.t) : Prop :=
  NoDup (map TopIssue.rule m)
  /\ (forall e, In e m ->
        (exists r, findRule (TopIssue.rule e) = Some r
                   /\ TopIssue.severity e = severity r)
        /\ TopIssue.count e = firings (TopIssue.rule e) vs
        /\ (1 <= TopIssue.count e)%nat)
  /\ (forall v, In v vs -> findRule (ruleId v) <> None ->
        In (ruleId v) (map TopIssue.rule m)).

(** *** Vocabulary of the further properties *)

(** The scoring loop charges a violation to a category when its rule id is
    that of a selected rule of the category. *)
Definition charged (rules : list QualityRule) (c : RuleCategory)
  (v : RuleViolation) : bool :=
  match ruleMap_get rules (ruleId v) with
  | Some r => category_eqb (category r) c
  | None => false
  end.

(** The deduction of one violation: the double product of weight and
    severity multiplier. *)
Definition deductionOf (rules : list QualityRule) (v : RuleViolation) : Q :=
  match ruleMap_get rules (ruleId v) with
  | Some r => Double.mul (inject_Z (weight r)) (SEVERITY_MULTIPLIERS (severity r))
  | None => 0%Q
  end.

(** The deductions of the violations charged to a category, summed in
    doubles from 0 in the order of the violations. *)
Definition totalDeduction (rules : list QualityRule) (c : RuleCategory)
  (vs : list RuleViolation) : Q :=
  fold_left (fun acc v => Double.add acc (deductionOf rules v))
            (filter (charged rules c) vs) 0%Q.

(** The sum of the weights of the selected rules of a category. *)
Definition categoryBudget (rules : list QualityRule) (c : RuleCategory) : Z :=
  fold_right (fun r acc => (weight r + acc)%Z) 0%Z
             (filter (fun r => category_eqb (category r) c) rules).

(** What the loop over the violations has accumulated in each record. *)
Definition loop_state (rules : list QualityRule) (vs : list RuleViolation)
  (cs : CategoryScore.t) : Prop :=
  CategoryScore.weight cs = CATEGORY_WEIGHTS (CategoryScore.category cs)
  /\ CategoryScore.maxDeduction cs = categoryBudget rules (CategoryScore.category cs)
  /\ CategoryScore.violations cs
     = List.length (filter (charged rules (CategoryScore.category cs)) vs)
  /\ CategoryScore.actualDeduction cs
     = totalDeduction rules (CategoryScore.category cs) vs.



(** A violation of a rule id, with no other field set. *)
Definition violationOf (i : string) : RuleViolation :=
  {| ruleId := i; message := ""; line := None; column := None;
     snippet := None; suggestion := None |}.

(** A category passes the category filters: it is among the included
    categories when that list is given and not empty, and not among the
    excluded ones when that list is given and not empty. *)
Definition category_selected (options : ReviewOptions.t) (c : RuleCategory) : Prop :=
  match ReviewOptions.includedCategories options with
  | Some (x :: xs) => In c (x :: xs)
  | _ => True
  end
  /\ match ReviewOptions.excludedCategories options with
     | Some (x :: xs) => ~ In c (x :: xs)
     | _ => True
     end.

(** The order of the severities, info < warning < error: [reaches m s]
    when the severity [s] is at least the threshold [m]. *)
Definition reaches (m s : Severity) : bool :=
  match m, s with
  | info, _ => true
  | warning, warning => true
  | warning, error => true
  | error, error => true
  | _, _ => false
  end.

(** A severity passes the threshold of the options. *)
Definition severity_selected (options : ReviewOptions.t) (s : Severity) : Prop :=
  match ReviewOptions.minSeverity options with
  | Some m => reaches m s = true
  | None => True
  end.

(** A rule passes the category filters and the threshold of the options. *)
Definition passes (options : ReviewOptions.t) (r : QualityRule) : bool :=
  match ReviewOptions.includedCategories options with
  | Some (x :: xs) => existsb (category_eqb (category r)) (x :: xs)
  | _ => true
  end
  && match ReviewOptions.excludedCategories options with
     | Some (x :: xs) => negb (existsb (category_eqb (category r)) (x :: xs))
     | _ => true
     end
  && match ReviewOptions.minSeverity options with
     | Some m => reaches m (severity r)
     | None => true
     end.

(** The violation counts of a breakdown, summed. *)
Definition countedViolations (bd : list CategoryScore.t) : nat :=
  fold_right (fun cs acc => CategoryScore.violations cs + acc) 0 bd.

(** A violation's rule id is that of a selected rule. *)
Definition known (rules : list QualityRule) (v : RuleViolation) : bool :=
  match ruleMap_get rules (ruleId v) with
  | Some _ => true
  | None => false
  end.

(** The [theater/empty-test] violation of scenario A. *)
Definition scenarioA_empty_test : RuleViolation :=
  {| ruleId := "theater/empty-test";
     message := "Test " ++ Js.dq ++ "should work" ++ Js.dq ++ " is empty.";
     line := Some 1;
     column := None;
     snippet := Some ("test(" ++ Js.dq ++ "should work" ++ Js.dq ++ ", () => {})")%string;
     suggestion := Some "Implement the test or mark as .todo() if planned for later."%string |}.

(** A violation's rule id is that of a built-in rule of the category, of
    the severity, of any built-in rule. *)
Definition hasCategory (c : RuleCategory) (v : RuleViolation) : bool :=
  match findRule (ruleId v) with
  | Some r => category_eqb (category r) c
  | None => false
  end.

Definition inCatalog (v : RuleViolation) : bool :=
  match findRule (ruleId v) with
  | Some _ => true
  | None => false
  end.

(** The tallies of a summary, summed over their keys. *)
Definition sumByCategory (t : RuleCategory -> nat) : nat :=
  fold_right (fun c acc => t c + acc) 0 CATEGORY_KEYS.

Definition sumBySeverity (t : Severity -> nat) : nat :=
  t error + t warning + t info.

Definition sumCounts (l : list TopIssue.t) : nat :=
  fold_right (fun e acc => TopIssue.count e + acc) 0 l.

(** A discovered file can be read. *)
Definition readable (env : Env) (p : string) : bool :=
  match readFile env p with
  | Ok _ => true
  | Throw _ => false
  end.

(** The files that a run discovers. *)
Definition discovered (env : Env) (rootDir : string) (options : ReviewOptions.t)
  : list string :=
  glob env TEST_FILE_PATTERNS rootDir
    (DEFAULT_IGNORE ++ match ReviewOptions.ignorePatterns options with
                       | Some l => l
                       | None => []
                       end).

(** What the review loop adds for one discovered file. *)
Definition reviewedOf (env : Env) (rootDir : string) (options : ReviewOptions.t)
  (p : string) : list ReviewedFile.t :=
  match readFile env p with
  | Ok content =>
      match reviewTestFile content p options with
      | Ok f => [setRelativePath (relative env rootDir p) f]
      | Throw _ => []
      end
  | Throw _ => []
  end.

(** An environment with two discovered files of which the first cannot be
    read. *)
Definition mixedEnv : Env :=
  {| glob := fun _ _ _ => ["/repo/broken.test.ts"; "/repo/ok.test.ts"]%string;
     readFile := fun p => if String.eqb p "/repo/ok.test.ts"
                          then Ok scenarioA
                          else Throw "EACCES: permission denied";
     now := "2024-01-01T00:00:00.000Z";
     relative := fun _ p => basename p |}.

(** The number of lines of a content: [content.split('\n').length]. *)
Definition lineCount (content : string) : nat :=
  List.length (Js.split nl content).

(** A violation has a line number, and it is a line of the content. *)
Definition line_ok (content : string) (v : RuleViolation) : Prop :=
  exists n, line v = Some n /\ 1 <= n <= lineCount content.

(** The occurrences of a character. *)
Definition count_char (c : ascii) (l : list ascii) : nat :=
  List.length (filter (Ascii.eqb c) l).

(** A violation's rule id is that of a built-in rule whose severity is at
    least a threshold. *)
Definition atLeast (m : Severity) (v : RuleViolation) : bool :=
  match findRule (ruleId v) with
  | Some r => reaches m (severity r)
  | None => false
  end.

(** The exit status of the [review] command ([cli.ts]): 1 when the run
    throws, when the overall score is below 50 or when more than five
    error-level violations were found, else 0. *)
Definition reviewExitStatus (run : Result ReviewReport.t) : nat :=
  match run with
  | Ok report =>
      if (ReviewSummary.overallScore (ReviewReport.summary report) <? 50)%Z
         || (5 <? ReviewSummary.violationsBySeverity (ReviewReport.summary report) error)
      then 1
      else 0
  | Throw _ => 1
  end.

(** A matcher state lies within the input. *)
Definition within (input : list ascii) (st : Regex.mstate) : Prop :=
  Regex.rest st = skipn (Regex.pos st) input
  /\ Regex.pos st <= List.length input.

(** A match lies within a string, at or after a position. *)
Definition match_within (s : string) (from : nat) (m : Regex.rmatch_result) : Prop :=
  from <= Regex.index m
  /\ Regex.index m <= Regex.stop m
  /\ Regex.stop m <= String.length s.

(** Two matches in source order, without overlap. *)
Definition precedes (a b : Regex.rmatch_result) : Prop :=
  Regex.stop a <= Regex.index b.

(** Two located matches in source order, with their lines in order. *)
Definition lm_precedes (a b : LineMatch) : Prop :=
  precedes (lm_match a) (lm_match b) /\ lm_line a <= lm_line b.

(** Two violations with line numbers in order. *)
Definition line_le (v w : RuleViolation) : Prop :=
  exists a b, line v = Some a /\ line w = Some b /\ a <= b.

(** The detectors that report the matches of one pattern, match by match. *)
Definition singlePatternDetectors : list (string -> string -> list RuleViolation) :=
  [detect_shared_state; detect_network_dependency; detect_no_assertions;
   detect_empty_test; detect_console_only; detect_filesystem_side_effects;
   detect_poor_test_name; detect_magic_numbers; detect_arrange_act_assert;
   detect_multiple_acts].

(** The ids of the rules that judge a file as a whole. *)
Definition fileLevelRuleIds : list string :=
  ["mock/excessive-mocking"; "mock/mock-return-ignores-input";
   "assertion/no-error-assertion"; "assertion/single-assertion-syndrome";
   "isolation/test-order-dependency"; "maintain/deeply-nested";
   "maintain/large-test-file"; "structure/missing-describe"]%string.

(** The recommendation on assertion density, given when there are tests and
    fewer assertions than tests. *)
Definition densityAdvice (summary : ReviewSummary.t) : list string :=
  if (0 <? ReviewSummary.totalTests summary)%nat
     && (ReviewSummary.totalAssertions summary <? ReviewSummary.totalTests summary)%nat
  then ["üéØ Low assertion density. "
        ++ "Aim for at least 1-2 meaningful assertions per test."]%string
  else [].

(** The two recommendations of positive feedback. *)
Definition positiveFeedback : list string :=
  ["‚ú® Good test quality! Focus on maintaining standards and adding edge case coverage.";
   "üèÜ Excellent! No quality issues detected. Consider adding more edge case tests."]%string.

(** A run that discovers one test file with a described, asserting test. *)
Definition cleanContent : string :=
  "describe('math', () => { it('should add two numbers', () => { expect(add(1, 2)).toBe(3); }); });".

Definition cleanEnv : Env :=
  {| glob := fun _ _ _ => ["/repo/math.test.ts"%string];
     readFile := fun _ => Ok cleanContent;
     now := "2024-01-01T00:00:00.000Z";
     relative := fun _ p => basename p |}.

(* ================================================================== *)
(** ** Rounding to double precision *)
(* ================================================================== *)

Section DoubleFacts.

Import Double.

Lemma pow2_pos (k : Z) : (0 < pow2 k)%Q.
Proof. apply Qpower_0_lt. reflexivity. Qed.

Lemma pow2_add (a b : Z) : (pow2 (a + b) == pow2 a * pow2 b)%Q.
Proof. apply Qpower_plus. discriminate. Qed.

Lemma pow2_le (a b : Z) : (a <= b)%Z -> (pow2 a <= pow2 b)%Q.
Proof. intros H. apply Qpower_le_compat_l; [exact H|discriminate]. Qed.

Lemma pow2_lt (a b : Z) : (a < b)%Z -> (pow2 a < pow2 b)%Q.
Proof. intros H. apply Qpower_lt_compat_l; [exact H|reflexivity]. Qed.

Lemma pow2_lt_inv (a b : Z) : (pow2 a < pow2 b)%Q -> (a < b)%Z.
Proof. intros H. apply (Qpower_lt_compat_l_inv 2); [exact H|reflexivity]. Qed.

Lemma pow2_inject (k : Z) : (0 <= k)%Z -> (pow2 k == inject_Z (2 ^ k))%Q.
Proof. intros H. unfold pow2. now rewrite Zpower_Qpower. Qed.

Lemma scale_le (x y : Q) (q : Z) : (x <= y)%Q -> (x / pow2 q <= y / pow2 q)%Q.
Proof.
  intros H. unfold Qdiv. apply Qmult_le_compat_r; [exact H|].
  apply Qlt_le_weak, Qinv_lt_0_compat, pow2_pos.
Qed.

Lemma scale_lt (x y : Q) (q : Z) : (x < y)%Q -> (x / pow2 q < y / pow2 q)%Q.
Proof.
  intros H. unfold Qdiv. apply Qmult_lt_compat_r; [|exact H].
  apply Qinv_lt_0_compat, pow2_pos.
Qed.

Lemma scale_pow2 (a q : Z) : (pow2 a / pow2 q == pow2 (a - q))%Q.
Proof. symmetry. apply Qpower_minus. discriminate. Qed.

Lemma frac_lt (a b c d : Z) :
  (0 < b)%Z -> (0 < d)%Z -> (a * d < c * b)%Z ->
  (inject_Z a / inject_Z b < inject_Z c / inject_Z d)%Q.
Proof.
  intros Hb Hd H.
  assert (Qb : (0 < inject_Z b)%Q) by (change 0%Q with (inject_Z 0); now rewrite <- Zlt_Qlt).
  assert (Qd : (0 < inject_Z d)%Q) by (change 0%Q with (inject_Z 0); now rewrite <- Zlt_Qlt).
  apply Qlt_shift_div_l; [exact Qd|].
  setoid_replace (inject_Z a / inject_Z b * inject_Z d)%Q
    with (inject_Z a * inject_Z d / inject_Z b)%Q by (field; lra).
  apply Qlt_shift_div_r; [exact Qb|].
  rewrite <- !inject_Z_mult, <- Zlt_Qlt. exact H.
Qed.

Lemma ilog2_bounds (n : Z) (d : positive) :
  (0 < n)%Z ->
  let k := (Z.log2 n - Z.log2 (Zpos d))%Z in
  (pow2 (k - 1) < n # d)%Q /\ (n # d < pow2 (k + 1))%Q.
Proof.
  intros Hn k.
  destruct (Z.log2_spec n Hn) as [Ha1 Ha2].
  destruct (Z.log2_spec (Zpos d) (Pos2Z.is_pos d)) as [Hb1 Hb2].
  pose proof (Z.log2_nonneg n) as Ha0.
  pose proof (Z.log2_nonneg (Zpos d)) as Hb0.
  set (a := Z.log2 n) in *. set (b := Z.log2 (Zpos d)) in *.
  assert (HA : (pow2 a == inject_Z (2 ^ a))%Q) by now apply pow2_inject.
  assert (HA' : (pow2 (a + 1) == inject_Z (2 ^ Z.succ a))%Q)
    by (unfold Z.succ; apply pow2_inject; lia).
  assert (HB : (pow2 b == inject_Z (2 ^ b))%Q) by now apply pow2_inject.
  assert (HB' : (pow2 (b + 1) == inject_Z (2 ^ Z.succ b))%Q)
    by (unfold Z.succ; apply pow2_inject; lia).
  assert (Pa : (0 < 2 ^ a)%Z) by (apply Z.pow_pos_nonneg; lia).
  assert (Pb : (0 < 2 ^ b)%Z) by (apply Z.pow_pos_nonneg; lia).
  split.
  - replace (k - 1)%Z with (a - (b + 1))%Z by (unfold k; lia).
    rewrite <- scale_pow2, HA, HB'.
    rewrite (Qmake_Qdiv n d).
    apply frac_lt; [lia|lia|nia].
  - replace (k + 1)%Z with ((a + 1) - b)%Z by (unfold k; lia).
    rewrite <- scale_pow2, HA', HB.
    rewrite (Qmake_Qdiv n d).
    apply frac_lt; [lia|lia|nia].
Qed.

Lemma ilog2_spec (x : Q) :
  (0 < x)%Q -> (pow2 (ilog2 x) <= x)%Q /\ (x < pow2 (ilog2 x + 1))%Q.
Proof.
  intros Hx. destruct x as [n d].
  assert (Hn : (0 < n)%Z) by (unfold Qlt in Hx; simpl in Hx; lia).
  destruct (ilog2_bounds d Hn) as [Hlo Hhi]. cbv zeta in Hlo, Hhi.
  unfold ilog2. cbn [Qnum Qden].
  set (k := (Z.log2 n - Z.log2 (Zpos d))%Z) in *.
  destruct (Qle_bool (pow2 k) (n # d)) eqn:E.
  - apply Qle_bool_iff in E. split; [exact E|exact Hhi].
  - assert (L : (n # d < pow2 k)%Q).
    { apply Qnot_le_lt. intros C. apply Qle_bool_iff in C. congruence. }
    split; [now apply Qlt_le_weak|].
    now replace (k - 1 + 1)%Z with k by lia.
Qed.

Lemma ilog2_unique (x : Q) (e : Z) :
  (pow2 e <= x)%Q -> (x < pow2 (e + 1))%Q -> ilog2 x = e.
Proof.
  intros H1 H2.
  assert (Hx : (0 < x)%Q) by (eapply Qlt_le_trans; [apply pow2_pos|exact H1]).
  destruct (ilog2_spec Hx) as [G1 G2].
  assert (A : (ilog2 x < e + 1)%Z)
    by (apply pow2_lt_inv; eapply Qle_lt_trans; [exact G1|exact H2]).
  assert (B : (e < ilog2 x + 1)%Z)
    by (apply pow2_lt_inv; eapply Qle_lt_trans; [exact H1|exact G2]).
  lia.
Qed.

Lemma ilog2_mono (x y : Q) : (0 < x)%Q -> (x <= y)%Q -> (ilog2 x <= ilog2 y)%Z.
Proof.
  intros Hx Hxy.
  assert (Hy : (0 < y)%Q) by (eapply Qlt_le_trans; eassumption).
  destruct (ilog2_spec Hx) as [G1 _]. destruct (ilog2_spec Hy) as [_ G2].
  assert (A : (ilog2 x < ilog2 y + 1)%Z).
  { apply pow2_lt_inv. eapply Qle_lt_trans; [exact G1|].
    eapply Qle_lt_trans; [exact Hxy|exact G2]. }
  lia.
Qed.

Lemma ilog2_comp (x y : Q) : (0 < x)%Q -> (x == y)%Q -> ilog2 x = ilog2 y.
Proof.
  intros Hx E. symmetry. destruct (ilog2_spec Hx) as [G1 G2].
  apply ilog2_unique; rewrite <- E; assumption.
Qed.

(** *** Rounding to the nearest integer *)

Lemma rne_comp (x y : Q) : (x == y)%Q -> rne x = rne y.
Proof.
  intros E. unfold rne. rewrite (Qfloor_comp _ _ E).
  assert (C : ((x - inject_Z (Qfloor y)) ?= (1 # 2))%Q
              = ((y - inject_Z (Qfloor y)) ?= (1 # 2))%Q)
    by (apply Qcompare_comp; [now rewrite E|reflexivity]).
  now rewrite C.
Qed.

Lemma rne_inject (j : Z) : rne (inject_Z j) = j.
Proof.
  unfold rne. rewrite Qfloor_Z.
  assert (C : ((inject_Z j - inject_Z j) ?= (1 # 2))%Q = Lt).
  { rewrite <- Qlt_alt. setoid_replace (inject_Z j - inject_Z j)%Q with 0%Q by ring.
    reflexivity. }
  now rewrite C.
Qed.

Lemma rne_near (y : Q) : (Qfloor y <= rne y <= Qfloor y + 1)%Z.
Proof.
  unfold rne. destruct (Qcompare _ _); [destruct (Z.even _)| |]; lia.
Qed.

Lemma rne_mono (x y : Q) : (x <= y)%Q -> (rne x <= rne y)%Z.
Proof.
  intros H. pose proof (Qfloor_resp_le _ _ H) as Hf.
  destruct (Z.eq_dec (Qfloor x) (Qfloor y)) as [E|E].
  - unfold rne. rewrite E.
    destruct (Qcompare_spec (x - inject_Z (Qfloor y)) (1 # 2)) as [Cx|Cx|Cx];
    destruct (Qcompare_spec (y - inject_Z (Qfloor y)) (1 # 2)) as [Cy|Cy|Cy];
      try destruct (Z.even (Qfloor y)); try lia; exfalso; lra.
  - pose proof (rne_near x). pose proof (rne_near y). lia.
Qed.

(** *** Rounding to 53 significant bits *)

Lemma scaled_range (x : Q) :
  (0 < x)%Q ->
  (pow2 52 <= x / pow2 (ilog2 x - 52))%Q
  /\ (x / pow2 (ilog2 x - 52) < pow2 53)%Q.
Proof.
  intros Hx. destruct (ilog2_spec Hx) as [G1 G2].
  split.
  - setoid_replace (pow2 52) with (pow2 (ilog2 x) / pow2 (ilog2 x - 52))%Q.
    + now apply scale_le.
    + rewrite scale_pow2. now replace (ilog2 x - (ilog2 x - 52))%Z with 52%Z by lia.
  - setoid_replace (pow2 53) with (pow2 (ilog2 x + 1) / pow2 (ilog2 x - 52))%Q.
    + now apply scale_lt.
    + rewrite scale_pow2. now replace (ilog2 x + 1 - (ilog2 x - 52))%Z with 53%Z by lia.
Qed.

Lemma mantissa_range (x : Q) :
  (0 < x)%Q ->
  (2 ^ 52 <= rne (x / pow2 (ilog2 x - 52)) <= 2 ^ 53)%Z.
Proof.
  intros Hx. destruct (scaled_range Hx) as [G1 G2].
  split.
  - rewrite <- (rne_inject (2 ^ 52)). apply rne_mono.
    now rewrite <- pow2_inject by lia.
  - rewrite <- (rne_inject (2 ^ 53)). apply rne_mono.
    rewrite <- pow2_inject by lia. now apply Qlt_le_weak.
Qed.

Lemma nearest_bounds (x : Q) :
  (0 < x)%Q ->
  (pow2 (ilog2 x) <= nearest x)%Q /\ (nearest x <= pow2 (ilog2 x + 1))%Q.
Proof.
  intros Hx. destruct (mantissa_range Hx) as [M1 M2]. unfold nearest. cbv zeta.
  set (m := rne (x / pow2 (ilog2 x - 52))) in *.
  pose proof (pow2_pos (ilog2 x - 52)) as P.
  split.
  - setoid_replace (pow2 (ilog2 x)) with (pow2 52 * pow2 (ilog2 x - 52))%Q
      by (rewrite <- pow2_add; now replace (52 + (ilog2 x - 52))%Z with (ilog2 x) by lia).
    apply Qmult_le_compat_r; [|now apply Qlt_le_weak].
    rewrite pow2_inject by lia. now rewrite <- Zle_Qle.
  - setoid_replace (pow2 (ilog2 x + 1)) with (pow2 53 * pow2 (ilog2 x - 52))%Q
      by (rewrite <- pow2_add; now replace (53 + (ilog2 x - 52))%Z with (ilog2 x + 1)%Z by lia).
    apply Qmult_le_compat_r; [|now apply Qlt_le_weak].
    rewrite pow2_inject by lia. now rewrite <- Zle_Qle.
Qed.

Lemma nearest_pos (x : Q) : (0 < x)%Q -> (0 < nearest x)%Q.
Proof.
  intros Hx. eapply Qlt_le_trans; [apply (pow2_pos (ilog2 x))|].
  now apply nearest_bounds.
Qed.

Lemma nearest_comp (x y : Q) : (0 < x)%Q -> (x == y)%Q -> (nearest x == nearest y)%Q.
Proof.
  intros Hx E. unfold nearest. cbv zeta.
  rewrite <- (ilog2_comp Hx E).
  assert (S : (x / pow2 (ilog2 x - 52) == y / pow2 (ilog2 x - 52))%Q)
    by (apply Qdiv_comp; [exact E|reflexivity]).
  rewrite (rne_comp S). reflexivity.
Qed.

Lemma nearest_mono (x y : Q) : (0 < x)%Q -> (x <= y)%Q -> (nearest x <= nearest y)%Q.
Proof.
  intros Hx Hxy.
  assert (Hy : (0 < y)%Q) by (eapply Qlt_le_trans; eassumption).
  pose proof (ilog2_mono Hx Hxy) as He.
  destruct (Z.eq_dec (ilog2 x) (ilog2 y)) as [E|E].
  - unfold nearest. cbv zeta. rewrite E.
    apply Qmult_le_compat_r; [|apply Qlt_le_weak, pow2_pos].
    rewrite <- Zle_Qle. apply rne_mono. now apply scale_le.
  - destruct (nearest_bounds Hx) as [_ U]. destruct (nearest_bounds Hy) as [L _].
    eapply Qle_trans; [exact U|]. eapply Qle_trans; [|exact L].
    apply pow2_le. lia.
Qed.

(** A number that has 53 significant bits is kept. *)
Lemma nearest_exact (x : Q) (j : Z) :
  (0 < x)%Q -> (x == inject_Z j * pow2 (ilog2 x - 52))%Q -> (nearest x == x)%Q.
Proof.
  intros Hx E. unfold nearest. cbv zeta.
  assert (S : (x / pow2 (ilog2 x - 52) == inject_Z j)%Q).
  { rewrite E at 1. field. intros H.
    pose proof (pow2_pos (ilog2 x - 52)) as P. rewrite H in P. discriminate P. }
  rewrite (rne_comp S), rne_inject. now rewrite <- E.
Qed.

Lemma nearest_idem (x : Q) : (0 < x)%Q -> (nearest (nearest x) == nearest x)%Q.
Proof.
  intros Hx.
  pose proof (nearest_pos Hx) as Hp.
  destruct (mantissa_range Hx) as [M1 M2].
  destruct (nearest_bounds Hx) as [B1 B2].
  set (m := rne (x / pow2 (ilog2 x - 52))) in *.
  assert (Hy : (nearest x == inject_Z m * pow2 (ilog2 x - 52))%Q) by reflexivity.
  destruct (Z.eq_dec m (2 ^ 53)) as [Em|Em].
  - (* rounded up to the next power of two *)
    assert (Hv : (nearest x == pow2 (ilog2 x + 1))%Q).
    { rewrite Hy, Em, <- pow2_inject, <- pow2_add by lia.
      now replace (53 + (ilog2 x - 52))%Z with (ilog2 x + 1)%Z by lia. }
    assert (He : ilog2 (nearest x) = (ilog2 x + 1)%Z).
    { apply ilog2_unique; rewrite Hv; [apply Qle_refl|apply pow2_lt; lia]. }
    apply (@nearest_exact _ (2 ^ 52)); [exact Hp|].
    rewrite He, Hv, <- pow2_inject, <- pow2_add by lia.
    now replace (52 + (ilog2 x + 1 - 52))%Z with (ilog2 x + 1)%Z by lia.
  - assert (He : ilog2 (nearest x) = ilog2 x).
    { apply ilog2_unique; [exact B1|].
      rewrite Hy.
      setoid_replace (pow2 (ilog2 x + 1)) with (pow2 53 * pow2 (ilog2 x - 52))%Q
        by (rewrite <- pow2_add;
            now replace (53 + (ilog2 x - 52))%Z with (ilog2 x + 1)%Z by lia).
      apply Qmult_lt_compat_r; [apply pow2_pos|].
      rewrite pow2_inject by lia. rewrite <- Zlt_Qlt. lia. }
    apply (@nearest_exact _ m); [exact Hp|]. now rewrite He.
Qed.

(** *** Doubles *)

Lemma double_pos (x : Q) : (0 < x)%Q -> double x = nearest x.
Proof.
  intros H. unfold double.
  assert (C : (x ?= 0)%Q = Gt) by (apply Qgt_alt; exact H).
  now rewrite C.
Qed.

Lemma double_neg (x : Q) : (x < 0)%Q -> double x = (- nearest (- x))%Q.
Proof.
  intros H. unfold double.
  assert (C : (x ?= 0)%Q = Lt) by (apply Qlt_alt; exact H).
  now rewrite C.
Qed.

Lemma double_zero (x : Q) : (x == 0)%Q -> double x = 0%Q.
Proof.
  intros H. unfold double.
  assert (C : (x ?= 0)%Q = Eq) by (apply Qeq_alt; exact H).
  now rewrite C.
Qed.

Lemma double_cases (x : Q) :
  ((x < 0)%Q /\ double x = (- nearest (- x))%Q)
  \/ ((x == 0)%Q /\ double x = 0%Q)
  \/ ((0 < x)%Q /\ double x = nearest x).
Proof.
  destruct (Q_dec x 0) as [[H|H]|H].
  - left. split; [exact H|now apply double_neg].
  - right. right. split; [exact H|now apply double_pos].
  - right. left. split; [exact H|now apply double_zero].
Qed.

Lemma double_comp (x y : Q) : (x == y)%Q -> (double x == double y)%Q.
Proof.
  intros E. unfold double.
  assert (C : (x ?= 0)%Q = (y ?= 0)%Q)
    by (apply Qcompare_comp; [exact E|reflexivity]).
  rewrite C.
  destruct (Qcompare_spec y 0) as [H|H|H]; [reflexivity| |].
  - apply Qopp_comp. apply nearest_comp; [rewrite E; lra|now rewrite E].
  - apply nearest_comp; [now rewrite E|exact E].
Qed.

(** Rounding is monotone. *)
Lemma double_mono (x y : Q) : (x <= y)%Q -> (double x <= double y)%Q.
Proof.
  intros Hxy.
  destruct (double_cases x) as [[Hx Ex]|[[Hx Ex]|[Hx Ex]]];
  destruct (double_cases y) as [[Hy Ey]|[[Hy Ey]|[Hy Ey]]];
    rewrite Ex, Ey; try (exfalso; lra).
  - apply Qopp_le_compat. apply nearest_mono; lra.
  - assert (P : (0 < nearest (- x))%Q) by (apply nearest_pos; lra). lra.
  - assert (P : (0 < nearest (- x))%Q) by (apply nearest_pos; lra).
    assert (P' : (0 < nearest y)%Q) by (now apply nearest_pos). lra.
  - apply Qle_refl.
  - apply Qlt_le_weak. now apply nearest_pos.
  - now apply nearest_mono.
Qed.

(** A double is its own rounding. *)
Lemma double_idem (x : Q) : (double (double x) == double x)%Q.
Proof.
  destruct (double_cases x) as [[Hx Ex]|[[Hx Ex]|[Hx Ex]]]; rewrite Ex.
  - assert (P : (0 < nearest (- x))%Q) by (apply nearest_pos; lra).
    rewrite double_neg by lra.
    apply Qopp_comp.
    rewrite <- (@nearest_comp (nearest (- x)) (- - nearest (- x)))
      by (try exact P; ring).
    apply nearest_idem. lra.
  - reflexivity.
  - rewrite double_pos by now apply nearest_pos. now apply nearest_idem.
Qed.

Lemma double_0 : double 0 = 0%Q.
Proof. reflexivity. Qed.

Lemma double_nonneg (x : Q) : (0 <= x)%Q -> (0 <= double x)%Q.
Proof. intros H. change 0%Q with (double 0) at 1. now apply double_mono. Qed.

Lemma double_100 : (double 100 == 100)%Q.
Proof. vm_compute. reflexivity. Qed.


End DoubleFacts.

(* ================================================================== *)
(** ** Auxiliary lemmas *)
(* ================================================================== *)

Section Rounding.

Open Scope Z_scope.

Lemma Math_round_inject (n : Z) : Math_round (inject_Z n) = n.
Proof.
  unfold Math_round, Qfloor, Qplus, inject_Z; simpl.
  symmetry; apply Z.div_unique with (r := 1); lia.
Qed.

Lemma Math_round_mono (x y : Q) : (x <= y)%Q -> Math_round x <= Math_round y.
Proof.
  intros H. unfold Math_round. apply Qfloor_resp_le.
  apply Qplus_le_l. exact H.
Qed.

Lemma Math_round_le (x : Q) (n : Z) : (x <= inject_Z n)%Q -> Math_round x <= n.
Proof.
  intros H. rewrite <- (Math_round_inject n). now apply Math_round_mono.
Qed.

Lemma Math_round_ge (x : Q) (n : Z) : (inject_Z n <= x)%Q -> n <= Math_round x.
Proof.
  intros H. rewrite <- (Math_round_inject n). now apply Math_round_mono.
Qed.


End Rounding.

Section ReviewLoop.

Variables content filename : string.

Lemma runRules_collected (rules : list QualityRule) (acc : list RuleViolation) :
  runRules rules content filename acc
  = Ok (acc ++ collected content filename rules).
Proof.
  revert acc. induction rules as [|r rules IH]; intros acc; simpl.
  - now rewrite app_nil_r.
  - unfold collected, contribution in *; simpl.
    destruct (detect r content filename) as [vs|e]; simpl.
    + rewrite IH. now rewrite <- app_assoc.
    + rewrite IH. reflexivity.
Qed.

(** [reviewTestFile] always returns, and what it returns. *)
Lemma reviewTestFile_returns (options : ReviewOptions.t) :
  let rules := filterRules options in
  let violations := collected content filename rules in
  reviewTestFile content filename options
  = Ok {| ReviewedFile.path := filename;
          ReviewedFile.relativePath := basename filename;
          ReviewedFile.violations := violations;
          ReviewedFile.score := fst (calculateScore violations rules);
          ReviewedFile.scoreBreakdown := snd (calculateScore violations rules);
          ReviewedFile.testCount := countTests content;
          ReviewedFile.assertionCount := countAssertions content;
          ReviewedFile.summary :=
            generateFileSummary violations (countTests content)
              (countAssertions content) (fst (calculateScore violations rules)) |}.
Proof.
  intros rules violations. unfold reviewTestFile.
  rewrite runRules_collected. cbn [bind app].
  fold rules. fold violations.
  destruct (calculateScore violations rules) as [sc bd]. reflexivity.
Qed.

End ReviewLoop.

Lemma collected_app (c f : string) (l1 l2 : list QualityRule) :
  collected c f (l1 ++ l2) = collected c f l1 ++ collected c f l2.
Proof. unfold collected. apply flat_map_app. Qed.

Lemma collected_filter_length (c f : string) (p : QualityRule -> bool)
  (rules : list QualityRule) :
  (List.length (collected c f (filter p rules)) <= List.length (collected c f rules))%nat.
Proof.
  unfold collected. induction rules as [|r rules IH]; simpl.
  - lia.
  - destruct (p r); simpl; rewrite ?length_app; lia.
Qed.

Lemma filter_all (A : Type) (p : A -> bool) (l : list A) :
  (forall x, p x = true) -> filter p l = l.
Proof.
  intros H. induction l as [|x l IH]; simpl; [reflexivity|].
  now rewrite H, IH.
Qed.

(** Rule selection only filters: what it keeps is in the catalog. *)
Lemma filterRules_incl (options : ReviewOptions.t) :
  incl (filterRules options)
       (match ReviewOptions.rules options with Some rs => rs | None => allRules end).
Proof.
  unfold filterRules.
  set (base := match ReviewOptions.rules options with Some rs => rs | None => allRules end).
  destruct (ReviewOptions.includedCategories options) as [[|c cs]|];
  destruct (ReviewOptions.excludedCategories options) as [[|c' cs']|];
  destruct (ReviewOptions.minSeverity options) as [s|];
  intros r Hr; repeat (apply filter_In in Hr; destruct Hr as [Hr _]); exact Hr.
Qed.

(* ================================================================== *)
(** ** Rule selection *)
(* ================================================================== *)

(** C9: an [includedCategories] or [excludedCategories] that is the empty
    list selects as if the option were absent: for every catalog, every
    other option, and every content and filename, the selected rules and the
    whole review are the same; with nothing else set, the empty
    [includedCategories] keeps all 27 rules of the built-in catalog rather
    than none. *)
Theorem C9_empty_category_list_is_absent :
  forall (catalog : option (list QualityRule))
         (inc exc : option (list RuleCategory)) (sev : option Severity)
         (ign : option (list string)) (content filename : string),
    let opts i e :=
      {| ReviewOptions.rules := catalog;
         ReviewOptions.includedCategories := i;
         ReviewOptions.excludedCategories := e;
         ReviewOptions.minSeverity := sev;
         ReviewOptions.ignorePatterns := ign |} in
    filterRules (opts (Some []) exc) = filterRules (opts None exc)
    /\ filterRules (opts inc (Some [])) = filterRules (opts inc None)
    /\ reviewTestFile content filename (opts (Some []) exc)
       = reviewTestFile content filename (opts None exc)
    /\ reviewTestFile content filename (opts inc (Some []))
       = reviewTestFile content filename (opts inc None)
    /\ filterRules (selection (Some []) None None None) = allRules
    /\ List.length allRules = 27%nat.
Proof.
  intros catalog inc exc sev ign content filename opts.
  assert (Hi : filterRules (opts (Some []) exc) = filterRules (opts None exc))
    by reflexivity.
  assert (He : filterRules (opts inc (Some [])) = filterRules (opts inc None))
    by reflexivity.
  assert (Hri : reviewTestFile content filename (opts (Some []) exc)
                = reviewTestFile content filename (opts None exc)).
  { rewrite !reviewTestFile_returns. cbv zeta. now rewrite Hi. }
  assert (Hre : reviewTestFile content filename (opts inc (Some []))
                = reviewTestFile content filename (opts inc None)).
  { rewrite !reviewTestFile_returns. cbv zeta. now rewrite He. }
  split; [exact Hi|]. split; [exact He|]. split; [exact Hri|].
  split; [exact Hre|]. split; [reflexivity|]. vm_compute. reflexivity.
Qed.

(** C5: for every content, filename and catalog (and whatever the category
    filters), the review under [minSeverity = warning] has at most as many
    violations as the review under [minSeverity = info]; both reviews
    return. *)
Theorem C5_min_severity_antitone :
  forall (content filename : string) (catalog : option (list QualityRule))
         (inc exc : option (list RuleCategory)) (ign : option (list string)),
  exists fi fw : ReviewedFile.t,
    reviewTestFile content filename (withSeverity catalog inc exc ign info) = Ok fi
    /\ reviewTestFile content filename (withSeverity catalog inc exc ign warning) = Ok fw
    /\ (List.length (ReviewedFile.violations fw)
        <= List.length (ReviewedFile.violations fi))%nat.
Proof.
  intros content filename catalog inc exc ign.
  rewrite !reviewTestFile_returns. cbv zeta.
  eexists; eexists; split; [reflexivity|split; [reflexivity|]].
  cbn [ReviewedFile.violations].
  set (base := filterRules
                 {| ReviewOptions.rules := catalog;
                    ReviewOptions.includedCategories := inc;
                    ReviewOptions.excludedCategories := exc;
                    ReviewOptions.minSeverity := None;
                    ReviewOptions.ignorePatterns := ign |}).
  change (filterRules (withSeverity catalog inc exc ign info))
    with (filter (fun r => (severityIndex info <=? severityIndex (severity r))%nat) base).
  change (filterRules (withSeverity catalog inc exc ign warning))
    with (filter (fun r => (severityIndex warning <=? severityIndex (severity r))%nat) base).
  rewrite (filter_all (fun r => (severityIndex info <=? severityIndex (severity r))%nat) base)
    by (intros x; reflexivity).
  apply collected_filter_length.
Qed.

(* ================================================================== *)
(** ** The file reviewer *)
(* ================================================================== *)

(** C6: for every content, filename and options [reviewTestFile] returns a
    reviewed file (no exception leaves it); and when a selected rule's
    [detect] throws, the violations of the file are those of the rules
    selected before it followed by those of the rules selected after it,
    exactly the violations of a review from which the throwing rule is
    left out. *)
Theorem C6_throwing_rule_is_contained :
  forall (content filename : string) (options : ReviewOptions.t),
  exists f : ReviewedFile.t,
    reviewTestFile content filename options = Ok f
    /\ forall (before after : list QualityRule) (rule : QualityRule) (e : string),
         filterRules options = before ++ rule :: after ->
         detect rule content filename = Throw e ->
         ReviewedFile.violations f
         = collected content filename before ++ collected content filename after
         /\ exists f' : ReviewedFile.t,
              reviewTestFile content filename (only (before ++ after)) = Ok f'
              /\ ReviewedFile.violations f = ReviewedFile.violations f'.
Proof.
  intros content filename options.
  rewrite reviewTestFile_returns. cbv zeta.
  eexists; split; [reflexivity|].
  intros before after rule e Hsel Hthrow.
  cbn [ReviewedFile.violations].
  assert (Hv : collected content filename (filterRules options)
               = collected content filename before ++ collected content filename after).
  { rewrite Hsel, collected_app. f_equal.
    unfold collected; simpl. unfold contribution at 1. now rewrite Hthrow. }
  split; [exact Hv|].
  rewrite reviewTestFile_returns. cbv zeta.
  eexists; split; [reflexivity|].
  cbn [ReviewedFile.violations].
  rewrite Hv. change (filterRules (only (before ++ after))) with (before ++ after).
  now rewrite collected_app.
Qed.

Lemma C6_witness :
  exists f : ReviewedFile.t,
    reviewTestFile "it('should work', () => {})" "a.test.ts"
      (only (theaterRules ++ throwingRule :: structureRules)) = Ok f
    /\ map ruleId (ReviewedFile.violations f)
       = ["theater/no-assertions"; "theater/empty-test";
          "structure/missing-describe"]%string.
Proof.
  destruct (C6_throwing_rule_is_contained "it('should work', () => {})" "a.test.ts"
              (only (theaterRules ++ throwingRule :: structureRules)))
    as [f [Hf Hc]].
  exists f. split; [exact Hf|].
  destruct (Hc theaterRules structureRules throwingRule "detector failed"%string
              eq_refl eq_refl) as [Hv _].
  rewrite Hv. vm_compute. reflexivity.
Defined.

(** C4: for every content and filename, when rule selection keeps no rule
    the reviewed file has score 100, no violation, and seven category scores
    that are all 100. *)
Theorem C4_empty_selection_scores_100 :
  forall (content filename : string) (options : ReviewOptions.t),
    filterRules options = [] ->
    exists f : ReviewedFile.t,
      reviewTestFile content filename options = Ok f
      /\ ReviewedFile.score f = 100%Z
      /\ ReviewedFile.violations f = []
      /\ List.length (ReviewedFile.scoreBreakdown f) = 7%nat
      /\ Forall (fun c => CategoryScore.score c = 100%Z)
                (ReviewedFile.scoreBreakdown f).
Proof.
  intros content filename options Hsel.
  rewrite reviewTestFile_returns. cbv zeta. rewrite Hsel.
  eexists; split; [reflexivity|].
  cbn [ReviewedFile.score ReviewedFile.violations ReviewedFile.scoreBreakdown].
  change (collected content filename []) with (@nil RuleViolation).
  repeat split; try reflexivity.
  vm_compute. repeat constructor.
Qed.

Lemma C4_witness :
  filterRules (selection (Some [flaky]) (Some [flaky]) None None) = []
  /\ exists f : ReviewedFile.t,
       reviewTestFile "it('should work', () => {})" "a.test.ts"
         (selection (Some [flaky]) (Some [flaky]) None None) = Ok f
       /\ ReviewedFile.score f = 100%Z
       /\ ReviewedFile.violations f = []
       /\ List.length (ReviewedFile.scoreBreakdown f) = 7%nat
       /\ Forall (fun c => CategoryScore.score c = 100%Z)
                 (ReviewedFile.scoreBreakdown f).
Proof.
  split; [reflexivity|].
  apply (C4_empty_selection_scores_100 "it('should work', () => {})" "a.test.ts"
           (selection (Some [flaky]) (Some [flaky]) None None)).
  reflexivity.
Defined.

(** *** Scenario A *)

(** The network rule looks at the file name only to exempt a file. *)
Lemma network_dependency_filename (content filename : string) :
  detect_network_dependency content filename = []
  \/ detect_network_dependency content filename
     = detect_network_dependency content "".
Proof.
  unfold detect_network_dependency.
  destruct (Js.includes ".e2e." filename || Js.includes ".integration." filename).
  - now left.
  - now right.
Qed.

Lemma flat_map_agree (A B : Type) (g h : A -> list B) (l : list A) :
  (forall x, In x l -> g x = h x) -> flat_map g l = flat_map h l.
Proof.
  induction l as [|x l IH]; intros H; simpl; [reflexivity|].
  rewrite (H x (or_introl eq_refl)), IH; [reflexivity|].
  intros y Hy. apply H. now right.
Qed.

(** On the content of scenario A no rule depends on the file name. *)
Lemma scenarioA_filename_irrelevant (filename : string) :
  collected scenarioA filename allRules = collected scenarioA "" allRules.
Proof.
  unfold collected. apply flat_map_agree. intros r Hr.
  assert (Hnet : detect_network_dependency scenarioA filename
                 = detect_network_dependency scenarioA "").
  { destruct (network_dependency_filename scenarioA filename) as [H|H];
      [rewrite H; vm_compute; reflexivity | exact H]. }
  unfold contribution.
  unfold allRules, flakyTestRules, theaterRules, overMockingRules, assertionRules,
    isolationRules, maintainabilityRules, structureRules in Hr.
  cbn [app In] in Hr.
  repeat (destruct Hr as [<-|Hr]; [cbn [detect]; try rewrite Hnet; reflexivity|]).
  destruct Hr.
Qed.

(** The review of scenario A, for every file name. *)
Lemma scenarioA_review (filename : string) :
  exists f : ReviewedFile.t,
    reviewTestFile scenarioA filename ReviewOptions.empty = Ok f
    /\ map ruleId (ReviewedFile.violations f)
       = ["theater/no-assertions"; "theater/empty-test";
          "maintain/poor-test-name"; "structure/missing-describe"]%string
    /\ map (fun c => (CategoryScore.category c, CategoryScore.score c))
           (ReviewedFile.scoreBreakdown f)
       = [(theater, 52); (flaky, 100); (over_mocking, 100); (assertions, 100);
          (isolation, 100); (maintainability, 94); (structure, 93)]%Z
    /\ ReviewedFile.score f = 87%Z.
Proof.
  rewrite reviewTestFile_returns. cbv zeta.
  eexists; split; [reflexivity|].
  cbn [ReviewedFile.violations ReviewedFile.scoreBreakdown ReviewedFile.score].
  change (filterRules ReviewOptions.empty) with allRules.
  rewrite scenarioA_filename_irrelevant.
  split; [vm_compute; reflexivity|].
  split; vm_compute; reflexivity.
Qed.

(** C1 (as stated, refuted): reviewed against the built-in catalog, the
    content of scenario A does not yield a single [theater/empty-test]
    violation with theater score 76, every other category at 100 and file
    score 94. *)
Lemma C1_counterexample :
  ~ exists f : ReviewedFile.t,
      reviewTestFile scenarioA "example.test.ts" ReviewOptions.empty = Ok f
      /\ map ruleId (ReviewedFile.violations f) = ["theater/empty-test"%string]
      /\ theaterScore f = [76%Z]
      /\ otherScores f = [100; 100; 100; 100; 100; 100]%Z
      /\ ReviewedFile.score f = 94%Z.
Proof.
  intros [f [Hf [Hv _]]].
  destruct (scenarioA_review "example.test.ts") as [f0 [Hf0 [Hv0 _]]].
  rewrite Hf0 in Hf. injection Hf as <-.
  rewrite Hv0 in Hv. discriminate Hv.
Qed.

(** C1 (amended): for every file name, the content of scenario A reviewed
    against the built-in catalog yields four violations, in this order:
    [theater/no-assertions], [theater/empty-test], [maintain/poor-test-name]
    and [structure/missing-describe]; the theater score is 52, the
    maintainability score 94, the structure score 93, the four other category
    scores 100, and the file score 87. *)
Theorem C1_scenario_A_amended :
  forall filename : string,
  exists f : ReviewedFile.t,
    reviewTestFile scenarioA filename ReviewOptions.empty = Ok f
    /\ map ruleId (ReviewedFile.violations f)
       = ["theater/no-assertions"; "theater/empty-test";
          "maintain/poor-test-name"; "structure/missing-describe"]%string
    /\ map (fun c => (CategoryScore.category c, CategoryScore.score c))
           (ReviewedFile.scoreBreakdown f)
       = [(theater, 52); (flaky, 100); (over_mocking, 100); (assertions, 100);
          (isolation, 100); (maintainability, 94); (structure, 93)]%Z
    /\ ReviewedFile.score f = 87%Z.
Proof.
  intros filename. exact (scenarioA_review filename).
Qed.

(* ================================================================== *)
(** ** The aggregator *)
(* ================================================================== *)

(** C10: for every list of reviewed files, the summary has seven aggregate
    category records, one per category, and each of them has
    [maxDeduction = 0] and [actualDeduction = 0]. *)
Theorem C10_aggregate_deductions_are_zero :
  forall files : list ReviewedFile.t,
    let breakdown := ReviewSummary.scoreBreakdown (generateSummary files) in
    List.length breakdown = 7%nat
    /\ map CategoryScore.category breakdown = CATEGORY_KEYS
    /\ Forall (fun c => CategoryScore.maxDeduction c = 0%Z
                        /\ CategoryScore.actualDeduction c = 0%Q) breakdown.
Proof.
  intros files. cbv zeta. unfold generateSummary.
  cbn [ReviewSummary.scoreBreakdown CATEGORY_KEYS map List.length
       CategoryScore.category CategoryScore.maxDeduction
       CategoryScore.actualDeduction].
  split; [reflexivity|]. split; [reflexivity|].
  repeat constructor.
Qed.

(** C2 (the code at the failing input): when the only discovered file
    cannot be read, the run reviews zero files and all counters are zero,
    yet the summary's [overallScore] is 100; aggregating the empty list
    yields 100; only the run that discovers no file yields 0. *)
Theorem C2_zero_files_reviewed_scores_100 :
  (exists report : ReviewReport.t,
     reviewTestFiles unreadableEnv "/repo" ReviewOptions.empty = Ok report
     /\ ReviewReport.files report = []
     /\ ReviewSummary.totalFiles (ReviewReport.summary report) = 0%nat
     /\ ReviewSummary.totalTests (ReviewReport.summary report) = 0%nat
     /\ ReviewSummary.totalAssertions (ReviewReport.summary report) = 0%nat
     /\ ReviewSummary.totalViolations (ReviewReport.summary report) = 0%nat
     /\ ReviewSummary.overallScore (ReviewReport.summary report) = 100%Z)
  /\ ReviewSummary.overallScore (generateSummary []) = 100%Z
  /\ (exists report : ReviewReport.t,
        reviewTestFiles emptyEnv "/repo" ReviewOptions.empty = Ok report
        /\ ReviewReport.files report = []
        /\ ReviewSummary.overallScore (ReviewReport.summary report) = 0%Z).
Proof.
  split; [|split].
  - eexists. split; [vm_compute; reflexivity|]. repeat split.
  - reflexivity.
  - eexists. split; [vm_compute; reflexivity|]. repeat split.
Qed.

(* ================================================================== *)
(** ** The rule catalog *)
(* ================================================================== *)

Lemma Forall_flat_map_intro (A B : Type) (Q : B -> Prop) (g : A -> list B)
  (l : list A) :
  (forall x, Forall Q (g x)) -> Forall Q (flat_map g l).
Proof.
  intros H. induction l as [|x l IH]; simpl; [constructor|].
  apply Forall_app. split; [apply H | exact IH].
Qed.

Lemma Forall_map_intro (A B : Type) (Q : B -> Prop) (g : A -> B) (l : list A) :
  (forall x, Q (g x)) -> Forall Q (map g l).
Proof.
  intros H. induction l as [|x l IH]; simpl; constructor; auto.
Qed.

Ltac carries_id :=
  repeat first
    [ apply Forall_nil
    | apply Forall_cons; [reflexivity|]
    | apply Forall_flat_map_intro; intros
    | apply Forall_map_intro; intros; reflexivity
    | apply Forall_app; split
    | progress cbv beta zeta
    | match goal with
      | |- Forall _ (if ?b then _ else _) => destruct b
      | |- Forall _ (let (_, _) := ?p in _) => destruct p
      | |- Forall _ (match ?x with _ => _ end) => destruct x
      end ].

(** Every violation that a built-in rule reports carries the rule's id. *)
Lemma catalog_ruleIds (content filename : string) (r : QualityRule) :
  In r allRules ->
  Forall (fun v => ruleId v = id r) (contribution content filename r).
Proof.
  intros Hr.
  unfold allRules, flakyTestRules, theaterRules, overMockingRules, assertionRules,
    isolationRules, maintainabilityRules, structureRules in Hr.
  cbn [app In] in Hr.
  repeat (destruct Hr as [<-|Hr];
          [unfold contribution; cbn [detect id];
           cbv beta zeta delta
             [detect_timing_dependency detect_random_data
              detect_async_without_await detect_shared_state
              detect_network_dependency detect_no_assertions
              detect_always_true detect_empty_test detect_console_only
              detect_expect_nothing detect_excessive_mocking
              detect_mocking_what_you_test detect_mock_return_ignores_input
              detect_weak_assertion detect_no_error_assertion
              detect_single_assertion_syndrome detect_test_order_dependency
              detect_global_state detect_filesystem_side_effects
              detect_poor_test_name detect_deeply_nested detect_large_test_file
              detect_magic_numbers detect_commented_test detect_missing_describe
              detect_arrange_act_assert detect_multiple_acts];
           carries_id |]).
  all: try contradiction.
Qed.

Lemma firings_app (i : string) (a b : list RuleViolation) :
  firings i (a ++ b) = (firings i a + firings i b)%nat.
Proof. unfold firings. now rewrite filter_app, length_app. Qed.

Lemma firings_other (i j : string) (vs : list RuleViolation) :
  Forall (fun v => ruleId v = j) vs -> j <> i -> firings i vs = 0%nat.
Proof.
  intros H Hne. unfold firings. induction H as [|v vs Hv _ IH]; simpl; [reflexivity|].
  rewrite Hv. destruct (String.eqb_spec j i) as [E|_]; [contradiction|exact IH].
Qed.

Lemma firings_same (i : string) (vs : list RuleViolation) :
  Forall (fun v => ruleId v = i) vs -> firings i vs = List.length vs.
Proof.
  intros H. unfold firings. induction H as [|v vs Hv _ IH]; simpl; [reflexivity|].
  rewrite Hv, String.eqb_refl. simpl. now rewrite IH.
Qed.

(** In a catalog whose rules have distinct ids and report under their own
    id, the violations of a review that carry the id of a rule are the
    violations that rule reported. *)
Lemma firings_collected (content filename : string) (rules : list QualityRule) :
  NoDup (map id rules) ->
  (forall r, In r rules ->
     Forall (fun v => ruleId v = id r) (contribution content filename r)) ->
  forall r, In r rules ->
    firings (id r) (collected content filename rules)
    = List.length (contribution content filename r).
Proof.
  induction rules as [|r0 rules IH]; intros Hnd Hid r Hr; [destruct Hr|].
  simpl in Hnd. apply NoDup_cons_iff in Hnd. destruct Hnd as [Hnotin Hnd].
  unfold collected; simpl. rewrite firings_app. fold (collected content filename rules).
  destruct Hr as [<-|Hr].
  - rewrite firings_same by (apply Hid; now left).
    assert (H0 : firings (id r0) (collected content filename rules) = 0%nat).
    { clear IH. unfold collected.
      induction rules as [|r1 rules IH1]; [reflexivity|].
      simpl. rewrite firings_app.
      rewrite (@firings_other (id r0) (id r1)).
      - apply IH1.
        + intros Hin. apply Hnotin. now right.
        + now apply NoDup_cons_iff in Hnd.
        + intros r Hr. apply Hid. destruct Hr as [<-|Hr]; [now left|now right; right].
      - apply Hid. right; now left.
      - intros E. apply Hnotin. left. exact E. }
    rewrite H0. lia.
  - rewrite (@firings_other (id r) (id r0)).
    + apply IH; auto. intros r' Hr'. apply Hid. now right.
    + apply Hid. now left.
    + intros E. apply Hnotin. rewrite E. now apply in_map.
Qed.

Lemma allRules_ids_distinct : NoDup (map id allRules).
Proof.
  vm_compute.
  repeat (apply NoDup_cons; [cbn [In]; intuition discriminate|]).
  apply NoDup_nil.
Qed.

(* ================================================================== *)
(** ** Counting calls *)
(* ================================================================== *)

Lemma is_space_blank (c : ascii) : Js.is_space c = blank c.
Proof. destruct c as [[] [] [] [] [] [] [] []]; reflexivity. Qed.

Lemma blank_not_paren (c : ascii) : blank c = true -> Ascii.eqb "(" c = false.
Proof. destruct c as [[] [] [] [] [] [] [] []]; cbn; intros H; congruence. Qed.

Lemma skip_blanks_skipn (l : list ascii) : skip_blanks l = skipn (blanks l) l.
Proof.
  induction l as [|c l IH]; [reflexivity|]. cbn [skip_blanks blanks].
  destruct (blank c); [exact IH|reflexivity].
Qed.

Lemma after_prefix_skipn (p l r : list ascii) :
  after_prefix p l = Some r -> r = skipn (List.length p) l /\ List.length p <= List.length l.
Proof.
  revert l. induction p as [|a p IH]; intros l H.
  - injection H as <-. split; [reflexivity|apply Nat.le_0_l].
  - destruct l as [|b l]; [discriminate|]. cbn [after_prefix] in H.
    destruct (Ascii.eqb a b); [|discriminate].
    destruct (IH _ H) as [H1 H2]. cbn [List.length skipn]. split; [exact H1|lia].
Qed.

Lemma after_prefix_app (p q l : list ascii) :
  after_prefix (p ++ q) l
  = match after_prefix p l with
    | Some r => after_prefix q r
    | None => None
    end.
Proof.
  revert l. induction p as [|a p IH]; intros l; [reflexivity|].
  destruct l as [|b l]; [reflexivity|]. cbn [app after_prefix].
  destruct (Ascii.eqb a b); [apply IH|reflexivity].
Qed.

Section CallMatcher.

Import Regex.

Variable input : list ascii.

Lemma advance_0 (st : mstate) : advance 0 st = st.
Proof. now destruct st. Qed.

Lemma advance_step (n : nat) (st : mstate) (a : ascii) (tl : list ascii) :
  rest st = a :: tl -> advance n (step st tl) = advance (S n) st.
Proof.
  intros H. unfold advance, step. cbn [pos rest caps]. rewrite H.
  cbn [skipn]. now rewrite Nat.add_succ_r.
Qed.

Lemma advance_advance (n m : nat) (st : mstate) :
  advance n (advance m st) = advance (m + n) st.
Proof.
  unfold advance. cbn [pos rest caps].
  rewrite skipn_skipn, (Nat.add_comm m n), Nat.add_assoc. reflexivity.
Qed.

(** A literal matches when the text begins with it. *)
Lemma rmatch_lit (cs : list ascii) :
  forall (st : mstate) (k : mstate -> option mstate),
    rmatch no_flags input (lit_l cs) st k
    = match after_prefix cs (rest st) with
      | Some _ => k (advance (List.length cs) st)
      | None => None
      end.
Proof.
  induction cs as [|c cs IH]; intros st k.
  - cbn [lit_l rmatch after_prefix List.length]. now rewrite advance_0.
  - assert (Hchr : rmatch no_flags input (Chr c) st (fun st1 =>
                     match after_prefix cs (rest st1) with
                     | Some _ => k (advance (List.length cs) st1)
                     | None => None
                     end)
                   = match after_prefix (c :: cs) (rest st) with
                     | Some _ => k (advance (List.length (c :: cs)) st)
                     | None => None
                     end).
    { cbn [rmatch after_prefix]. destruct (rest st) as [|a tl] eqn:Ha; [reflexivity|].
      unfold chr_eq. cbn [ignoreCase no_flags].
      destruct (Ascii.eqb c a); [|reflexivity].
      cbn [step rest]. rewrite (@advance_step _ st a tl Ha). reflexivity. }
    destruct cs as [|c' cs'].
    + rewrite <- Hchr. cbn [lit_l rmatch after_prefix List.length].
      destruct (rest st) as [|a tl]; [reflexivity|].
      destruct (chr_eq no_flags c a); [|reflexivity].
      now rewrite advance_0.
    + rewrite <- Hchr.
      change (lit_l (c :: c' :: cs')) with (Seq (Chr c) (lit_l (c' :: cs'))).
      cbn [rmatch]. destruct (rest st) as [|a tl]; [reflexivity|].
      destruct (chr_eq no_flags c a); [|reflexivity].
      apply IH.
Qed.

(** White space is skipped as far as it goes when what follows cannot
    begin with white space. *)
Lemma star_blanks (k : mstate -> option mstate) :
  (forall st a tl, rest st = a :: tl -> blank a = true -> k st = None) ->
  forall (fuel : nat) (st : mstate),
    List.length (rest st) < fuel ->
    star_loop true (rmatch no_flags input ws) k fuel st
    = k (advance (blanks (rest st)) st).
Proof.
  intros Hk. induction fuel as [|fuel IH]; intros st Hf; [lia|].
  cbn [star_loop]. cbn [ws rmatch].
  destruct (rest st) as [|a tl] eqn:Ha.
  - cbn [orElse blanks]. now rewrite advance_0.
  - unfold in_class. cbn [existsb in_item xorb orb].
    rewrite orb_false_r, is_space_blank. cbn [blanks].
    destruct (blank a) eqn:Hb.
    + cbn [step pos]. rewrite (proj2 (Nat.ltb_lt _ _) (Nat.lt_succ_diag_r _)).
      fold (star_loop true (rmatch no_flags input ws) k).
      change {| pos := S (pos st); rest := tl; caps := caps st |} with (step st tl).
      rewrite IH by (cbn [step rest]; cbn [List.length] in Hf; lia).
      cbn [step rest]. rewrite (@advance_step _ st a tl Ha).
      unfold orElse.
      destruct (k (advance (S (blanks tl)) st)); [reflexivity|].
      now apply (Hk st a tl).
    + cbn [orElse]. now rewrite advance_0.
Qed.

(** The tail of a call: white space, then an opening parenthesis. *)
Lemma rmatch_call_tail (st : mstate) (k : mstate -> option mstate) :
  rmatch no_flags input (Seq (star ws) (Chr "(")) st k
  = match skipn (blanks (rest st)) (rest st) with
    | c :: _ => if Ascii.eqb c "(" then k (advance (blanks (rest st) + 1) st) else None
    | [] => None
    end.
Proof.
  cbn [rmatch star].
  change (star_loop true (rmatch no_flags input ws)
            (fun st1 => rmatch no_flags input (Chr "(") st1 k)
            (S (List.length (rest st))) st
          = match skipn (blanks (rest st)) (rest st) with
            | c :: _ => if Ascii.eqb c "(" then k (advance (blanks (rest st) + 1) st) else None
            | [] => None
            end).
  rewrite star_blanks; [|intros st0 a tl Ha Hb|lia].
  - set (n := blanks (rest st)).
    assert (Hr : rest (advance n st) = skipn n (rest st)) by reflexivity.
    cbn [rmatch]. rewrite Hr.
    destruct (skipn n (rest st)) as [|c tl] eqn:Hs; [reflexivity|].
    unfold chr_eq. cbn [ignoreCase no_flags]. rewrite Ascii.eqb_sym.
    destruct (Ascii.eqb c "("); [|reflexivity].
    f_equal. rewrite <- (advance_0 (step (advance n st) tl)).
    rewrite (@advance_step 0 (advance n st) c tl) by (now rewrite Hr).
    rewrite advance_advance. reflexivity.
  - cbn [rmatch]. rewrite Ha. unfold chr_eq. cbn [ignoreCase no_flags].
    now rewrite (blank_not_paren _ Hb).
Qed.

(** A call of one name. *)
Lemma rmatch_call (name : list ascii) (st : mstate) (k : mstate -> option mstate) :
  rmatch no_flags input (Seq (lit_l name) (Seq (star ws) (Chr "("))) st k
  = match call_len1 name (rest st) with
    | Some n => k (advance n st)
    | None => None
    end.
Proof.
  change (rmatch no_flags input (Seq (lit_l name) (Seq (star ws) (Chr "("))) st k)
    with (rmatch no_flags input (lit_l name) st
            (fun st1 => rmatch no_flags input (Seq (star ws) (Chr "(")) st1 k)).
  rewrite rmatch_lit. unfold call_len1.
  destruct (after_prefix name (rest st)) as [r|] eqn:Hp; [|reflexivity].
  apply after_prefix_skipn in Hp. destruct Hp as [Hr _].
  rewrite rmatch_call_tail.
  assert (Ha : rest (advance (List.length name) st) = r)
    by (unfold advance; cbn [rest]; now symmetry).
  rewrite Ha.
  destruct (skipn (blanks r) r) as [|c tl]; [reflexivity|].
  destruct (Ascii.eqb c "("); [|reflexivity].
  rewrite advance_advance. now rewrite Nat.add_assoc.
Qed.

(** A call of one of two names with a common ending. *)
Lemma rmatch_call2 (a b c : list ascii) (st : mstate) (k : mstate -> option mstate) :
  rmatch no_flags input
    (Seq (Alt (lit_l a) (lit_l b)) (Seq (lit_l c) (Seq (star ws) (Chr "(")))) st k
  = match call_len1 (a ++ c) (rest st) with
    | Some n => orElse (k (advance n st))
                  (fun _ => match call_len1 (b ++ c) (rest st) with
                            | Some n' => k (advance n' st)
                            | None => None
                            end)
    | None => match call_len1 (b ++ c) (rest st) with
              | Some n' => k (advance n' st)
              | None => None
              end
    end.
Proof.
  assert (G : forall x,
    rmatch no_flags input (lit_l x) st
      (fun st1 => rmatch no_flags input (Seq (lit_l c) (Seq (star ws) (Chr "("))) st1 k)
    = match call_len1 (x ++ c) (rest st) with
      | Some n => k (advance n st)
      | None => None
      end).
  { intros x. rewrite rmatch_lit. unfold call_len1 at 1. rewrite after_prefix_app.
    destruct (after_prefix x (rest st)) as [r|] eqn:Hx; [|reflexivity].
    apply after_prefix_skipn in Hx. destruct Hx as [Hr _].
    rewrite rmatch_call.
    assert (Ha : rest (advance (List.length x) st) = r)
      by (unfold advance; cbn [rest]; now symmetry).
    rewrite Ha. unfold call_len1.
    destruct (after_prefix c r) as [r'|]; [|reflexivity].
    destruct (skipn (blanks r') r') as [|d tl]; [reflexivity|].
    destruct (Ascii.eqb d "("); [|reflexivity].
    rewrite advance_advance, length_app. f_equal. f_equal. lia. }
  change (rmatch no_flags input
            (Seq (Alt (lit_l a) (lit_l b)) (Seq (lit_l c) (Seq (star ws) (Chr "(")))) st k)
    with (orElse
            (rmatch no_flags input (lit_l a) st
               (fun st1 => rmatch no_flags input
                             (Seq (lit_l c) (Seq (star ws) (Chr "("))) st1 k))
            (fun _ =>
               rmatch no_flags input (lit_l b) st
                 (fun st1 => rmatch no_flags input
                               (Seq (lit_l c) (Seq (star ws) (Chr "("))) st1 k))).
  rewrite !G. now destruct (call_len1 (a ++ c) (rest st)).
Qed.

End CallMatcher.

(** *** Calls that cannot overlap *)

Lemma call_len1_bounds (name l : list ascii) (n : nat) :
  call_len1 name l = Some n ->
  List.length name < n /\ n <= List.length l
  /\ (forall t, List.length name <= t -> t < n - 1 ->
        exists c tl, skipn t l = c :: tl /\ blank c = true)
  /\ (exists tl, skipn (n - 1) l = "("%char :: tl)
  /\ after_prefix name l <> None.
Proof.
  unfold call_len1. destruct (after_prefix name l) as [r|] eqn:Hp; [|discriminate].
  apply after_prefix_skipn in Hp. destruct Hp as [Hr Hlen].
  destruct (skipn (blanks r) r) as [|c tl] eqn:Hs; [discriminate|].
  destruct (Ascii.eqb_spec c "(") as [->|]; [|discriminate].
  intros H. injection H as <-.
  assert (Hb : blanks r < List.length r).
  { assert (List.length (skipn (blanks r) r) = S (List.length tl)) by now rewrite Hs.
    rewrite length_skipn in H. lia. }
  assert (Hrl : List.length r = List.length l - List.length name)
    by (rewrite Hr; apply length_skipn).
  split; [lia|]. split; [lia|]. split; [|split; [|discriminate]].
  - intros t H1 H2.
    replace t with ((t - List.length name) + List.length name) by lia.
    rewrite <- skipn_skipn, <- Hr.
    assert (G : forall (r0 : list ascii) j, j < blanks r0 ->
              exists c tl, skipn j r0 = c :: tl /\ blank c = true).
    { induction r0 as [|d r0 IH]; intros j Hj; [cbn in Hj; lia|].
      cbn [blanks] in Hj. destruct (blank d) eqn:Hd; [|lia].
      destruct j as [|j]; [now exists d, r0|]. cbn [skipn]. apply IH. lia. }
    apply G. lia.
  - exists tl.
    replace (List.length name + blanks r + 1 - 1) with (blanks r + List.length name) by lia.
    now rewrite <- skipn_skipn, <- Hr.
Qed.

Lemma after_prefix_head (p l : list ascii) (c : ascii) :
  after_prefix p l <> None ->
  match p with
  | a :: _ => exists tl, l = a :: tl
  | [] => True
  end.
Proof.
  destruct p as [|a p]; [tauto|]. destruct l as [|b l]; [intros H; now elim H|].
  cbn [after_prefix]. destruct (Ascii.eqb_spec a b) as [->|]; [|intros H; now elim H].
  intros _. now exists l.
Qed.

(** A text that begins with [p] and continues a text [a]: the part of [p]
    that fits into [a] begins [a]. *)
Lemma after_prefix_fits (p a x : list ascii) :
  after_prefix p (a ++ x) <> None ->
  Js.starts_with_l (firstn (List.length a) p) a = true.
Proof.
  revert a. induction p as [|c p IH]; intros a H.
  - now destruct a.
  - destruct a as [|d a]; [reflexivity|].
    cbn [app after_prefix] in H. cbn [List.length firstn Js.starts_with_l].
    destruct (Ascii.eqb c d); [|now elim H]. cbn [andb]. now apply IH.
Qed.

Lemma after_prefix_whole (p l : list ascii) :
  after_prefix p l <> None -> l = p ++ skipn (List.length p) l.
Proof.
  revert l. induction p as [|a p IH]; intros l H; [reflexivity|].
  destruct l as [|b l]; [now elim H|]. cbn [after_prefix] in H.
  destruct (Ascii.eqb_spec a b) as [->|]; [|now elim H].
  cbn [List.length skipn app]. f_equal. now apply IH.
Qed.

Lemma call_len_some (names : list (list ascii)) (l : list ascii) (n : nat) :
  call_len names l = Some n -> exists name, In name names /\ call_len1 name l = Some n.
Proof.
  induction names as [|x names IH]; [discriminate|]. cbn [call_len].
  destruct (call_len1 x l) as [m|] eqn:E.
  - intros H. injection H as <-. exists x. split; [now left|exact E].
  - intros H. destruct (IH H) as [y [Hy E']]. exists y. split; [now right|exact E'].
Qed.

Lemma call_len_none (names : list (list ascii)) (l : list ascii) :
  (forall name, In name names -> call_len1 name l = None) -> call_len names l = None.
Proof.
  induction names as [|x names IH]; intros H; [reflexivity|]. cbn [call_len].
  rewrite (H x) by now left. apply IH. intros y Hy. apply H. now right.
Qed.

Lemma call_len_bounds (names : list (list ascii)) (l : list ascii) (n : nat) :
  call_len names l = Some n -> 1 <= n <= List.length l.
Proof.
  intros H. apply call_len_some in H. destruct H as [name [_ H]].
  apply call_len1_bounds in H. lia.
Qed.

(** Inside a call no call begins. *)
Lemma no_overlap (names : list (list ascii)) (l : list ascii) (n t : nat) :
  separate names = true ->
  call_len names l = Some n -> 0 < t -> t < n ->
  call_len names (skipn t l) = None.
Proof.
  intros Hsep H Ht0 Htn.
  apply call_len_some in H. destruct H as [name [Hname H]].
  destruct (call_len1_bounds _ _ H) as [Hn1 [Hn2 [Hblanks [Hparen Hpre]]]].
  apply call_len_none. intros name' Hname'.
  unfold separate in Hsep. rewrite forallb_forall in Hsep.
  pose proof (Hsep name Hname) as Sn. pose proof (Hsep name' Hname') as Sn'.
  apply andb_true_iff in Sn. destruct Sn as [_ Sn].
  rewrite forallb_forall in Sn. specialize (Sn name' Hname').
  apply andb_true_iff in Sn'. destruct Sn' as [Sn' _].
  destruct name' as [|c0 name']; [discriminate|].
  apply andb_true_iff in Sn'. destruct Sn' as [Hc1 Hc2].
  apply negb_true_iff in Hc1, Hc2.
  unfold call_len1.
  destruct (after_prefix (c0 :: name') (skipn t l)) as [r|] eqn:Hp; [|reflexivity].
  exfalso.
  assert (Hne : after_prefix (c0 :: name') (skipn t l) <> None) by (rewrite Hp; discriminate).
  destruct (Nat.lt_ge_cases t (List.length name)) as [Hin|Hout].
  - (* inside the name *)
    unfold apart in Sn. rewrite forallb_forall in Sn.
    assert (Hseq : In t (seq 1 (List.length name - 1))) by (apply in_seq; lia).
    specialize (Sn t Hseq). apply negb_true_iff in Sn.
    rewrite (after_prefix_whole name l Hpre) in Hne.
    rewrite skipn_app in Hne.
    replace (t - List.length name) with 0 in Hne by lia. cbn [skipn] in Hne.
    apply after_prefix_fits in Hne.
    rewrite length_skipn in Hne. congruence.
  - (* in the white space or at the parenthesis *)
    apply (after_prefix_head) in Hne; [|exact c0]. destruct Hne as [tl Htl].
    destruct (Nat.eq_dec t (n - 1)) as [->|Hneq].
    + destruct Hparen as [tl' Hparen]. rewrite Hparen in Htl.
      injection Htl as <- _. now rewrite Ascii.eqb_refl in Hc2.
    + destruct (Hblanks t Hout ltac:(lia)) as [c [tl' [Hs Hb]]].
      rewrite Hs in Htl. injection Htl as -> _. congruence.
Qed.

(** *** Counting the positions of calls *)

Lemma skipn_next (A : Type) (l : list A) (t : nat) :
  t < List.length l -> exists c, skipn t l = c :: skipn (S t) l.
Proof.
  revert t. induction l as [|a l IH]; intros t H; [cbn in H; lia|].
  destruct t as [|t]; [now exists a|]. cbn [skipn]. apply IH. cbn in H. lia.
Qed.

Lemma positions_skip (starts : list ascii -> bool) (l : list ascii) (a d : nat) :
  (forall t, a <= t -> t < a + d -> starts (skipn t l) = false) ->
  a + d <= List.length l ->
  positions starts (skipn a l) = positions starts (skipn (a + d) l).
Proof.
  revert a. induction d as [|d IH]; intros a H Hl; [now rewrite Nat.add_0_r|].
  destruct (@skipn_next _ l a ltac:(lia)) as [c Hc].
  rewrite Hc. cbn [positions]. rewrite <- Hc, (H a) by lia. cbn [Nat.add].
  replace (a + S d) with (S a + d) by lia.
  apply IH; [intros t H1 H2; apply H; lia|lia].
Qed.

Lemma positions_call (names : list (list ascii)) (l : list ascii) (n : nat) :
  separate names = true ->
  call_len names l = Some n ->
  positions (begins names) l = S (positions (begins names) (skipn n l)).
Proof.
  intros Hsep H. destruct (call_len_bounds _ _ H) as [H1 H2].
  destruct l as [|c l]; [cbn in H2; lia|].
  cbn [positions]. unfold begins at 1. rewrite H. cbn [Nat.add]. f_equal.
  change l with (skipn 1 (c :: l)) at 1.
  rewrite (@positions_skip (begins names) (c :: l) 1 (n - 1)).
  - now replace (1 + (n - 1)) with n by lia.
  - intros t Ht1 Ht2. unfold begins.
    now rewrite (@no_overlap names (c :: l) n t Hsep H) by lia.
  - lia.
Qed.

Lemma find_call_none (names : list (list ascii)) (l : list ascii) (p : nat) :
  find_call names p l = None -> positions (begins names) l = 0.
Proof.
  revert p. induction l as [|c l IH]; intros p H; cbn [find_call] in H;
    cbn [positions]; unfold begins at 1;
    destruct (call_len names _); try discriminate; [reflexivity|].
  now apply IH in H.
Qed.

Lemma find_call_some (names : list (list ascii)) (l : list ascii) (p i e : nat) :
  find_call names p l = Some (i, e) ->
  exists off n,
    i = off + p /\ e = n + i /\ off <= List.length l
    /\ call_len names (skipn off l) = Some n
    /\ positions (begins names) l = positions (begins names) (skipn off l).
Proof.
  revert p. induction l as [|c l IH]; intros p H; cbn [find_call] in H.
  - destruct (call_len names []) as [n|] eqn:E; [|discriminate].
    injection H as <- <-. exists 0, n. repeat split; auto.
  - destruct (call_len names (c :: l)) as [n|] eqn:E.
    + injection H as <- <-. exists 0, n. repeat split; auto. cbn; lia.
    + apply IH in H. destruct H as [off [n [H1 [H2 [H3 [H4 H5]]]]]].
      exists (S off), n. cbn [skipn List.length].
      split; [lia|]. split; [exact H2|]. split; [lia|]. split; [exact H4|].
      cbn [positions]. unfold begins at 1. now rewrite E.
Qed.

Section CallCount.

Import Regex.

Variable r : regex.
Variable names : list (list ascii).

Hypothesis r_calls :
  forall (input : list ascii) (st : mstate),
    rmatch no_flags input r st (fun st1 => Some st1)
    = match call_len names (rest st) with
      | Some n => Some (advance n st)
      | None => None
      end.

Hypothesis names_separate : separate names = true.

Lemma search_calls (input l : list ascii) :
  forall p,
    search no_flags input r p l
    = match find_call names p l with
      | Some (i, e) => Some {| index := i; stop := e; groups := [] |}
      | None => None
      end.
Proof.
  induction l as [|c l IH]; intros p; cbn [search find_call]; rewrite r_calls;
    cbn [rest]; destruct (call_len names _) as [n|]; try reflexivity.
  apply IH.
Qed.

Lemma matchLoop_calls (s : string) :
  forall (fuel i : nat),
    i <= List.length (Js.chars s) ->
    List.length (Js.chars s) - i < fuel ->
    List.length (matchLoop fuel (P r) s i)
    = positions (begins names) (skipn i (Js.chars s)).
Proof.
  induction fuel as [|fuel IH]; intros i Hi Hf; [lia|].
  cbn [matchLoop]. unfold exec_from. cbn [P re fl].
  rewrite (proj2 (Nat.ltb_ge _ _) Hi).
  rewrite search_calls.
  destruct (find_call names i (skipn i (Js.chars s))) as [[idx e]|] eqn:E.
  - apply find_call_some in E.
    destruct E as [off [n [H1 [H2 [H3 [H4 H5]]]]]].
    destruct (call_len_bounds _ _ H4) as [Hn1 Hn2].
    rewrite length_skipn in H3, Hn2. rewrite length_skipn in Hn2.
    cbn [List.length stop index].
    assert (Hne : (e =? idx) = false) by (apply Nat.eqb_neq; lia).
    rewrite Hne, IH by lia.
    rewrite H5, (@positions_call names _ n names_separate H4), !skipn_skipn.
    f_equal. f_equal. f_equal. lia.
  - cbn [List.length]. symmetry. now apply find_call_none in E.
Qed.

Lemma count_calls (s : string) :
  count (P r) s = positions (begins names) (Js.chars s).
Proof.
  unfold count, matchAll.
  rewrite matchLoop_calls; [reflexivity|apply Nat.le_0_l|].
  assert (H : List.length (Js.chars s) = String.length s).
  { unfold Js.chars. induction s as [|c s IH]; cbn; [reflexivity|now rewrite IH]. }
  lia.
Qed.

End CallCount.

(** The calls of the vocabulary are those of the matcher. *)
Lemma call_starts_len (name : string) (l : list ascii) :
  call_starts name l
  = match call_len1 (Js.chars name) l with Some _ => true | None => false end.
Proof.
  unfold call_starts, call_len1.
  destruct (after_prefix (Js.chars name) l) as [r|]; [|reflexivity].
  rewrite skip_blanks_skipn.
  destruct (skipn (blanks r) r) as [|c tl]; [reflexivity|].
  now destruct (Ascii.eqb c "(").
Qed.

Lemma begins_starts (names : list string) (l : list ascii) :
  existsb (fun name => call_starts name l) names
  = begins (map Js.chars names) l.
Proof.
  unfold begins. induction names as [|x names IH]; [reflexivity|].
  cbn [existsb map call_len]. rewrite call_starts_len.
  destruct (call_len1 (Js.chars x) l); [reflexivity|]. exact IH.
Qed.

Lemma positions_ext (f g : list ascii -> bool) (l : list ascii) :
  (forall x, f x = g x) -> positions f l = positions g l.
Proof.
  intros H. induction l as [|c l IH]; cbn [positions]; rewrite H; [reflexivity|].
  now rewrite IH.
Qed.

Lemma calls_begins (names : list string) (content : string) :
  calls names content = positions (begins (map Js.chars names)) (Js.chars content).
Proof. unfold calls. apply positions_ext. intros l. apply begins_starts. Qed.

(** The regular expressions of the rule count calls. *)
Lemma count_call1 (name content : string) :
  separate [Js.chars name] = true ->
  Regex.count (P (Regex.Cat [Regex.Lit name; Regex.star Regex.ws; Regex.Chr "("]))
              content
  = calls [name] content.
Proof.
  intros Hsep. rewrite calls_begins. cbn [map].
  apply count_calls; [|exact Hsep].
  intros input st.
  change (Regex.Cat [Regex.Lit name; Regex.star Regex.ws; Regex.Chr "("])
    with (Regex.Seq (Regex.lit_l (Js.chars name))
                    (Regex.Seq (Regex.star Regex.ws) (Regex.Chr "("))).
  rewrite rmatch_call. cbn [call_len].
  now destruct (call_len1 (Js.chars name) (Regex.rest st)).
Qed.

Lemma count_call2 (a b c content : string) :
  separate [Js.chars (a ++ c); Js.chars (b ++ c)] = true ->
  Regex.count (P (Regex.Cat [Regex.Alt (Regex.Lit a) (Regex.Lit b); Regex.Lit c;
                             Regex.star Regex.ws; Regex.Chr "("]))
              content
  = calls [(a ++ c)%string; (b ++ c)%string] content.
Proof.
  intros Hsep. rewrite calls_begins. cbn [map].
  apply count_calls; [|exact Hsep].
  intros input st.
  change (Regex.Cat [Regex.Alt (Regex.Lit a) (Regex.Lit b); Regex.Lit c;
                     Regex.star Regex.ws; Regex.Chr "("])
    with (Regex.Seq (Regex.Alt (Regex.lit_l (Js.chars a)) (Regex.lit_l (Js.chars b)))
            (Regex.Seq (Regex.lit_l (Js.chars c))
                       (Regex.Seq (Regex.star Regex.ws) (Regex.Chr "(")))).
  rewrite rmatch_call2. cbn [call_len].
  assert (E : forall x y : string, Js.chars (x ++ y) = (Js.chars x ++ Js.chars y)%list).
  { intros x y. unfold Js.chars. induction x as [|d x IH]; [reflexivity|].
    cbn. now rewrite IH. }
  rewrite !E.
  destruct (call_len1 (Js.chars a ++ Js.chars c) (Regex.rest st)); [reflexivity|].
  now destruct (call_len1 (Js.chars b ++ Js.chars c) (Regex.rest st)).
Qed.

(** What the rule counts are the mock registrations and the assertions. *)
Lemma totalMocks_registrations (content : string) :
  totalMocks content = mockRegistrations content.
Proof.
  unfold totalMocks, mockCounts, mockRegistrations, jest_or_vi. cbn [fold_left].
  rewrite !count_call1 by (vm_compute; reflexivity).
  rewrite (@count_call2 "jest" "vi" ".spyOn") by (vm_compute; reflexivity).
  rewrite (@count_call2 "jest" "vi" ".fn") by (vm_compute; reflexivity).
  reflexivity.
Qed.

Lemma expectCount_assertions (content : string) :
  expectCount content = assertionCalls content.
Proof.
  unfold expectCount, expect_call, assertionCalls.
  apply count_call1. vm_compute. reflexivity.
Qed.

(** C8: for every content and file name, in the review against the built-in
    catalog the rule [mock/excessive-mocking] fires once when the number of
    mock registrations exceeds 5 and exceeds twice the number of
    assertions, and does not fire otherwise.  A mock registration is a
    position of the content at which [jest.mock], [vi.mock], [jest.spyOn],
    [vi.spyOn], [jest.fn], [vi.fn] or [.mockImplementation] is followed,
    after any white space, by an opening parenthesis; an assertion is a
    position at which [expect] is followed in this way.  So a file with six
    mock registrations and one assertion gets exactly one
    [mock/excessive-mocking] violation. *)
Theorem C8_excessive_mocking_threshold :
  forall content filename : string,
  exists f : ReviewedFile.t,
    reviewTestFile content filename ReviewOptions.empty = Ok f
    /\ let fired := firings "mock/excessive-mocking" (ReviewedFile.violations f) in
       (fired = 1%nat <->
          (5 < mockRegistrations content
           /\ 2 * assertionCalls content < mockRegistrations content)%nat)
       /\ (fired = 0%nat \/ fired = 1%nat)
       /\ (mockRegistrations content = 6%nat -> assertionCalls content = 1%nat ->
           fired = 1%nat).
Proof.
  intros content filename.
  rewrite <- totalMocks_registrations, <- expectCount_assertions.
  rewrite reviewTestFile_returns. cbv zeta.
  eexists; split; [reflexivity|].
  cbn [ReviewedFile.violations].
  change (filterRules ReviewOptions.empty) with allRules.
  pose (rule := {| id := "mock/excessive-mocking";
                   name := "Excessive Mocking";
                   description := "Over-mocking defeats the purpose of testing";
                   category := over_mocking; severity := warning; weight := 7;
                   detect := fun content filename =>
                               Ok (detect_excessive_mocking content filename) |}).
  assert (Hin : In rule allRules).
  { unfold allRules. apply in_or_app; right. apply in_or_app; right.
    apply in_or_app; left. now left. }
  pose proof (@firings_collected content filename allRules allRules_ids_distinct
                (catalog_ruleIds content filename) rule Hin) as Hf.
  change (id rule) with "mock/excessive-mocking"%string in Hf.
  rewrite Hf. clear Hf.
  unfold contribution. cbn [detect rule].
  unfold detect_excessive_mocking.
  destruct (Nat.ltb_spec 5 (totalMocks content)) as [H5|H5];
  destruct (Nat.ltb_spec (expectCount content * 2) (totalMocks content)) as [H2|H2];
    cbn [andb List.length]; (split; [split; [intros; lia | intros; lia] | split; [lia | lia]]).
Qed.

Lemma C8_witness :
  exists f : ReviewedFile.t,
    reviewTestFile sixMocks "mocked.test.ts" ReviewOptions.empty = Ok f
    /\ firings "mock/excessive-mocking" (ReviewedFile.violations f) = 1%nat.
Proof.
  destruct (C8_excessive_mocking_threshold sixMocks "mocked.test.ts")
    as [f [Hf [_ [_ H6]]]].
  exists f. split; [exact Hf|].
  apply H6; vm_compute; reflexivity.
Defined.

(* ================================================================== *)
(** ** Bounds of the scores *)
(* ================================================================== *)

Section ScoreBounds.

Open Scope Z_scope.



Lemma ruleMap_get_In (rules : list QualityRule) (i : string) (r : QualityRule) :
  ruleMap_get rules i = Some r -> In r rules.
Proof.
  unfold ruleMap_get. intros H. apply find_some in H. destruct H as [H _].
  now apply in_rev.
Qed.


Lemma multiplier_nonneg (s : Severity) : (0 <= SEVERITY_MULTIPLIERS s)%Q.
Proof.
  destruct s; unfold SEVERITY_MULTIPLIERS;
    [discriminate|apply double_nonneg; discriminate|apply double_nonneg; discriminate].
Qed.










End ScoreBounds.

Section AggregateBounds.

Open Scope Z_scope.








End AggregateBounds.




(* ================================================================== *)
(** ** The ranked issues *)
(* ================================================================== *)

Section StableSort.

Variable A : Type.
Variable cmp : A -> A -> Z.
Variable R : A -> A -> Prop.
Hypothesis R_of_cmp : forall x y, (cmp x y <= 0)%Z -> R x y.
Hypothesis R_total : forall x y, ~ (cmp x y <= 0)%Z -> R y x.
Hypothesis R_trans : forall x y z, R x y -> R y z -> R x z.

Lemma insert_sorted_perm (x : A) (l : list A) :
  Permutation (insert_sorted cmp x l) (x :: l).
Proof.
  induction l as [|y l IH]; simpl; [reflexivity|].
  destruct (cmp x y <=? 0)%Z; [reflexivity|].
  rewrite IH. apply perm_swap.
Qed.

Lemma js_sort_perm (l : list A) : Permutation (js_sort cmp l) l.
Proof.
  induction l as [|x l IH]; simpl; [reflexivity|].
  rewrite insert_sorted_perm. now constructor.
Qed.

Lemma insert_sorted_sorted (x : A) (l : list A) :
  StronglySorted R l -> StronglySorted R (insert_sorted cmp x l).
Proof.
  induction 1 as [|y l Hs IH Hy]; simpl.
  - repeat constructor.
  - destruct (Z.leb_spec (cmp x y) 0) as [Hle|Hgt].
    + constructor; [now constructor|].
      constructor; [now apply R_of_cmp|].
      eapply Forall_impl; [|exact Hy]. intros z Hz.
      eapply R_trans; [apply R_of_cmp; exact Hle|exact Hz].
    + constructor; [exact IH|].
      eapply Permutation_Forall; [symmetry; apply insert_sorted_perm|].
      constructor; [apply R_total; lia|exact Hy].
Qed.

Lemma js_sort_sorted (l : list A) : StronglySorted R (js_sort cmp l).
Proof.
  induction l as [|x l IH]; simpl; [constructor|].
  now apply insert_sorted_sorted.
Qed.

Lemma firstn_sorted (n : nat) (l : list A) :
  StronglySorted R l -> StronglySorted R (firstn n l).
Proof.
  intros H. revert n. induction H as [|x l Hs IH Hx]; intros [|n]; simpl;
    try constructor; auto.
  rewrite Forall_forall in *. intros y Hy. apply Hx.
  rewrite <- (firstn_skipn n l). apply in_or_app. now left.
Qed.

End StableSort.

(** In a sorted list every entry of a prefix comes before every entry
    of the rest. *)
Lemma sorted_cut (A : Type) (R : A -> A -> Prop) (n : nat) (l : list A) :
  StronglySorted R l ->
  forall x y, In x (firstn n l) -> In y (skipn n l) -> R x y.
Proof.
  intros H. revert n. induction H as [|a l Hs IH Ha]; intros n x y Hx Hy.
  - destruct n; destruct Hx.
  - destruct n as [|n]; [destruct Hx|].
    cbn [firstn skipn] in Hx, Hy. destruct Hx as [<-|Hx].
    + rewrite Forall_forall in Ha. apply Ha.
      rewrite <- (firstn_skipn n l). apply in_or_app. now right.
    + now apply (IH n).
Qed.

Lemma compareIssues_ranks (a b : TopIssue.t) :
  (compareIssues a b <= 0)%Z <-> ranks_before a b.
Proof.
  unfold compareIssues, ranks_before.
  destruct (TopIssue.severity a), (TopIssue.severity b); simpl;
    split; intros H;
    first [ solve [lia]
          | solve [left; constructor]
          | solve [right; split; [reflexivity|lia]]
          | solve [destruct H as [H|[H1 H2]];
                   [inversion H | first [discriminate H1 | lia]]] ].
Qed.

Lemma ranks_before_total (a b : TopIssue.t) :
  ~ (compareIssues a b <= 0)%Z -> ranks_before b a.
Proof.
  intros H. unfold ranks_before. revert H. unfold compareIssues.
  destruct (TopIssue.severity a), (TopIssue.severity b); simpl; intros H;
    first [ solve [left; constructor]
          | solve [right; split; [reflexivity|lia]]
          | solve [exfalso; lia] ].
Qed.

Lemma more_severe_trans (a b c : Severity) :
  more_severe a b -> more_severe b c -> more_severe a c.
Proof. intros H1 H2. destruct H1; inversion H2; constructor. Qed.

Lemma ranks_before_trans (a b c : TopIssue.t) :
  ranks_before a b -> ranks_before b c -> ranks_before a c.
Proof.
  unfold ranks_before. intros [H1|[E1 H1]] [H2|[E2 H2]].
  - left. eapply more_severe_trans; eassumption.
  - left. rewrite <- E2. exact H1.
  - left. rewrite E1. exact H2.
  - right. split; [congruence|lia].
Qed.

Lemma findRule_id (i : string) (r : QualityRule) :
  findRule i = Some r -> id r = i.
Proof.
  unfold findRule. intros H. apply find_some in H. destruct H as [_ H].
  now apply String.eqb_eq.
Qed.

Lemma findRule_known (r : QualityRule) :
  In r allRules -> findRule (id r) <> None.
Proof.
  intros Hr H. unfold findRule in H.
  apply (find_none _ _ H) in Hr. now rewrite String.eqb_refl in Hr.
Qed.

Section Bump.

Variables (k : string) (s : Severity).

Lemma bump_keys (m : list TopIssue.t) :
  forall i, In i (map TopIssue.rule (bump k s m))
            <-> i = k \/ In i (map TopIssue.rule m).
Proof.
  induction m as [|e m IH]; intros i; simpl.
  - intuition.
  - destruct (String.eqb_spec (TopIssue.rule e) k) as [E|E]; simpl.
    + rewrite E. intuition.
    + rewrite IH. intuition.
Qed.

Lemma bump_NoDup (m : list TopIssue.t) :
  NoDup (map TopIssue.rule m) -> NoDup (map TopIssue.rule (bump k s m)).
Proof.
  induction m as [|e m IH]; intros H; simpl.
  - repeat constructor. intros [].
  - apply NoDup_cons_iff in H. destruct H as [Hn Hd].
    destruct (String.eqb_spec (TopIssue.rule e) k) as [E|E]; simpl.
    + now constructor.
    + constructor; [|now apply IH].
      rewrite bump_keys. intros [H|H]; [now apply E|now apply Hn].
Qed.

(** An entry after [bump]: an old entry of another rule, the old entry of
    the rule with one more occurrence, or a new entry with one. *)
Lemma bump_In (m : list TopIssue.t) (e' : TopIssue.t) :
  NoDup (map TopIssue.rule m) ->
  In e' (bump k s m) ->
  (TopIssue.rule e' <> k /\ In e' m)
  \/ (TopIssue.rule e' = k
      /\ ((exists e, In e m /\ TopIssue.rule e = k
                      /\ TopIssue.count e' = S (TopIssue.count e)
                      /\ TopIssue.severity e' = TopIssue.severity e)
          \/ (~ In k (map TopIssue.rule m)
              /\ TopIssue.count e' = 1%nat /\ TopIssue.severity e' = s))).
Proof.
  induction m as [|e m IH]; intros Hd H; simpl in H.
  - destruct H as [<-|[]]. right. split; [reflexivity|]. right. simpl. intuition.
  - apply NoDup_cons_iff in Hd. destruct Hd as [Hn Hd].
    destruct (String.eqb_spec (TopIssue.rule e) k) as [E|E].
    + destruct H as [<-|H].
      * right. split; [exact E|]. left. exists e. simpl. intuition.
      * left. split; [|now right].
        intros E'. apply Hn. rewrite E, <- E'. now apply in_map.
    + destruct H as [<-|H].
      * left. split; [exact E|now left].
      * destruct (IH Hd H) as [[H1 H2]|[H1 [[e0 [H2 H3]]|[H2 H3]]]].
        -- left. split; [exact H1|now right].
        -- right. split; [exact H1|]. left. exists e0. split; [now right|exact H3].
        -- right. split; [exact H1|]. right. split; [|exact H3].
           simpl. intros [H4|H4]; [now apply E|now apply H2].
Qed.

End Bump.

Lemma firings_snoc (i : string) (vs : list RuleViolation) (v : RuleViolation) :
  firings i (vs ++ [v])
  = (firings i vs + if String.eqb (ruleId v) i then 1 else 0)%nat.
Proof.
  rewrite firings_app. unfold firings at 2. simpl.
  now destruct (String.eqb (ruleId v) i).
Qed.

Lemma tally_violations_ok (vs : list RuleViolation) :
  tally_ok vs (violationCounts (fold_left tallyViolation vs emptyTally)).
Proof.
  induction vs as [|v vs IH] using rev_ind.
  - simpl. split; [constructor|]. split; [intros e []|intros v []].
  - rewrite fold_left_app. cbn [fold_left].
    set (t := fold_left tallyViolation vs emptyTally) in *.
    destruct IH as [Hd [He Hv]].
    unfold tallyViolation.
    destruct (findRule (ruleId v)) as [r|] eqn:Hr.
    + pose proof (findRule_id _ Hr) as Hid.
      cbn [violationCounts]. split; [now apply bump_NoDup|]. split.
      * intros e' He'. rewrite firings_snoc.
        destruct (bump_In _ _ _ _ Hd He') as [[H1 H2]|[H1 [[e [H2 [H3 [H4 H5]]]]|[H2 [H3 H4]]]]].
        -- destruct (He e' H2) as [Ha [Hb Hc]].
           split; [exact Ha|]. split; [|exact Hc].
           destruct (String.eqb_spec (ruleId v) (TopIssue.rule e')) as [E|E];
             [exfalso; apply H1; congruence|lia].
        -- destruct (He e H2) as [Ha [Hb Hc]].
           split; [|split; [|lia]].
           ++ exists r. rewrite H1, Hid. split; [exact Hr|].
              rewrite H5. destruct Ha as [r' [Hr' Hs']].
              rewrite H3, Hid, Hr in Hr'. injection Hr' as <-. exact Hs'.
           ++ rewrite H1, Hid, String.eqb_refl, H4, Hb, H3, Hid. lia.
        -- split; [|split; [|lia]].
           ++ exists r. rewrite H1, Hid. split; [exact Hr|exact H4].
           ++ rewrite H1, Hid, String.eqb_refl, H3.
              assert (H0 : firings (ruleId v) vs = 0%nat).
              { unfold firings. destruct (filter _ vs) as [|w ws] eqn:Ef; [reflexivity|].
                exfalso. apply H2.
                assert (Hw : In w (filter (fun v0 => String.eqb (ruleId v0) (ruleId v)) vs))
                  by (rewrite Ef; now left).
                apply filter_In in Hw. destruct Hw as [Hw1 Hw2].
                apply String.eqb_eq in Hw2. rewrite Hid, <- Hw2.
                apply Hv; [exact Hw1|]. rewrite Hw2, Hr. discriminate. }
              rewrite H0. reflexivity.
      * intros w Hw Hknown. apply bump_keys.
        apply in_app_or in Hw. destruct Hw as [Hw|[<-|[]]].
        -- right. now apply Hv.
        -- left. now rewrite Hid.
    + split; [exact Hd|]. split.
      * intros e He'. destruct (He e He') as [Ha [Hb Hc]].
        split; [exact Ha|]. split; [|exact Hc].
        rewrite firings_snoc.
        destruct (String.eqb_spec (ruleId v) (TopIssue.rule e)) as [E|E]; [|lia].
        exfalso. destruct Ha as [r [Hr' _]]. rewrite <- E, Hr in Hr'. discriminate.
      * intros w Hw Hknown. apply in_app_or in Hw. destruct Hw as [Hw|[<-|[]]].
        -- now apply Hv.
        -- now rewrite Hr in Hknown.
Qed.

(** C7 (as stated, refuted): the file reviewed with a project rule given
    through [options.rules] has one violation, and [topIssues] has no entry
    for it: a violation whose rule id is not in the built-in catalog is
    skipped by the tallies. *)
Lemma C7_counterexample :
  exists f : ReviewedFile.t,
    reviewTestFile "" "a.test.ts" (only [customRule]) = Ok f
    /\ ReviewSummary.totalViolations (generateSummary [f]) = 1%nat
    /\ ReviewSummary.topIssues (generateSummary [f]) = []
    /\ ~ groups_all_violations [f].
Proof.
  eexists. split; [vm_compute; reflexivity|].
  split; [reflexivity|]. split; [reflexivity|].
  intros H.
  destruct (H {| ruleId := "custom/always";
                 message := "Reported by a project rule.";
                 line := Some 1%nat; column := None;
                 snippet := None; suggestion := None |}) as [e [He _]].
  - left. reflexivity.
  - exact He.
Qed.

(** C7 (amended): for every list of reviewed files, the ranked issues are
    sorted by severity (error before warning before info) and, within one
    severity, by descending count; [topIssues] is their first ten entries,
    so it has at most 10 entries, it is sorted in the same way, and every
    ranked issue that is cut off ranks after every entry of [topIssues];
    the ranked issues have one entry per rule id, each entry carries the
    id of a rule of the built-in catalog, that rule's severity, and as
    count the number of all violations of the files with that rule id; and
    every violation whose rule id names a rule of the built-in catalog is
    counted in an entry of the ranked issues (violations of other rule ids
    are skipped). *)
Theorem C7_top_issues_amended :
  forall files : list ReviewedFile.t,
    let top := ReviewSummary.topIssues (generateSummary files) in
    StronglySorted ranks_before (rankedIssues files)
    /\ top = firstn 10 (rankedIssues files)
    /\ (List.length top <= 10)%nat
    /\ StronglySorted ranks_before top
    /\ (forall e e', In e top -> In e' (skipn 10 (rankedIssues files)) ->
          ranks_before e e')
    /\ NoDup (map TopIssue.rule (rankedIssues files))
    /\ (forall e, In e (rankedIssues files) ->
          (exists r, findRule (TopIssue.rule e) = Some r
                     /\ TopIssue.severity e = severity r)
          /\ TopIssue.count e = occurrences (TopIssue.rule e) files
          /\ (1 <= TopIssue.count e)%nat)
    /\ (forall v, In v (flat_map ReviewedFile.violations files) ->
          findRule (ruleId v) <> None ->
          exists e, In e (rankedIssues files)
                    /\ TopIssue.rule e = ruleId v
                    /\ TopIssue.count e = occurrences (ruleId v) files).
Proof.
  intros files. cbv zeta.
  change (ReviewSummary.topIssues (generateSummary files))
    with (firstn 10 (rankedIssues files)).
  pose proof (tally_violations_ok (flat_map ReviewedFile.violations files))
    as [Hd [He Hv]].
  assert (Hp : Permutation (rankedIssues files)
                 (violationCounts
                    (fold_left tallyViolation
                       (flat_map ReviewedFile.violations files) emptyTally)))
    by apply js_sort_perm.
  assert (Hsorted : StronglySorted ranks_before (rankedIssues files)).
  { unfold rankedIssues. apply js_sort_sorted.
    - intros x y. apply compareIssues_ranks.
    - apply ranks_before_total.
    - apply ranks_before_trans. }
  assert (Hin : forall e, In e (rankedIssues files) ->
            (exists r, findRule (TopIssue.rule e) = Some r
                       /\ TopIssue.severity e = severity r)
            /\ TopIssue.count e = occurrences (TopIssue.rule e) files
            /\ (1 <= TopIssue.count e)%nat).
  { intros e Hin. apply He. eapply Permutation_in; [exact Hp|exact Hin]. }
  split; [exact Hsorted|].
  split; [reflexivity|].
  split; [apply firstn_le_length|].
  split; [now apply firstn_sorted|].
  split; [intros e e'; now apply sorted_cut|].
  split; [eapply Permutation_NoDup;
          [symmetry; apply Permutation_map; exact Hp|exact Hd]|].
  split; [exact Hin|].
  intros v Hvin Hknown.
  specialize (Hv v Hvin Hknown). apply in_map_iff in Hv.
  destruct Hv as [e [E Hem]].
  assert (Her : In e (rankedIssues files))
    by (eapply Permutation_in; [symmetry; exact Hp|exact Hem]).
  exists e. split; [exact Her|]. split; [exact E|].
  rewrite <- E. now apply Hin.
Qed.

Lemma C7_witness :
  exists e : TopIssue.t,
    In e (rankedIssues [sampleFile])
    /\ TopIssue.rule e = "maintain/poor-test-name"%string
    /\ TopIssue.count e = 2%nat.
Proof.
  destruct (C7_top_issues_amended [sampleFile]) as [_ [_ [_ [_ [_ [_ [_ H]]]]]]].
  destruct (H {| ruleId := "maintain/poor-test-name"; message := "";
                 line := None; column := None; snippet := None;
                 suggestion := None |}) as [e [He [Hr Hc]]].
  - left. reflexivity.
  - apply (@findRule_known
             {| id := "maintain/poor-test-name";
                name := "Poor Test Name";
                description := "Test names should describe behavior, not implementation";
                category := maintainability; severity := info; weight := 3;
                detect := fun content filename =>
                            Ok (detect_poor_test_name content filename) |}).
    unfold allRules. do 5 (apply in_or_app; right).
    apply in_or_app; left. left. reflexivity.
  - exists e. split; [exact He|]. split; [exact Hr|]. rewrite Hc. reflexivity.
Defined.

(* ================================================================== *)
(** ** Further properties of the scoring *)
(* ================================================================== *)

Lemma category_eqb_eq (a b : RuleCategory) : category_eqb a b = true <-> a = b.
Proof. destruct a, b; simpl; split; intros H; try reflexivity; discriminate. Qed.

Lemma category_eqb_sym (a b : RuleCategory) : category_eqb a b = category_eqb b a.
Proof. now destruct a, b. Qed.

Lemma fold_left_weights (l : list QualityRule) (a : Z) :
  fold_left (fun sum r => (sum + weight r)%Z) l a
  = (a + fold_right (fun r acc => (weight r + acc)%Z) 0%Z l)%Z.
Proof.
  revert a. induction l as [|r l IH]; intros a; simpl; [lia|].
  rewrite IH. lia.
Qed.

Lemma totalDeduction_snoc (rules : list QualityRule) (c : RuleCategory)
  (vs : list RuleViolation) (v : RuleViolation) :
  totalDeduction rules c (vs ++ [v])
  = if charged rules c v
    then Double.add (totalDeduction rules c vs) (deductionOf rules v)
    else totalDeduction rules c vs.
Proof.
  unfold totalDeduction. rewrite filter_app. cbn [filter].
  destruct (charged rules c v); [now rewrite fold_left_app|now rewrite app_nil_r].
Qed.

Lemma loop_invariant (rules : list QualityRule) (vs : list RuleViolation) :
  let l := fold_left (applyViolation rules) vs
             (map (initCategoryScore rules) CATEGORY_KEYS) in
  map CategoryScore.category l = CATEGORY_KEYS
  /\ Forall (loop_state rules vs) l.
Proof.
  cbv zeta. induction vs as [|v vs IH] using rev_ind.
  - cbn [fold_left]. split; [reflexivity|].
    apply Forall_map_intro. intros c. unfold loop_state; simpl.
    repeat split; try reflexivity.
    unfold categoryBudget. now rewrite fold_left_weights.
  - rewrite fold_left_app. cbn [fold_left].
    destruct IH as [Hk Hl].
    set (l := fold_left (applyViolation rules) vs
                (map (initCategoryScore rules) CATEGORY_KEYS)) in *.
    clearbody l.
    unfold applyViolation.
    destruct (ruleMap_get rules (ruleId v)) as [r|] eqn:Hr.
    + split.
      * rewrite <- Hk. rewrite map_map. apply map_ext.
        intros cs. now destruct (category_eqb _ _).
      * clear Hk. induction Hl as [|cs l [H1 [H2 [H3 H4]]] _ IH]; simpl; constructor; auto.
        unfold loop_state.
        assert (Hc : charged rules (CategoryScore.category cs) v
                     = category_eqb (CategoryScore.category cs) (category r)).
        { unfold charged. rewrite Hr. apply category_eqb_sym. }
        destruct (category_eqb (CategoryScore.category cs) (category r)) eqn:E;
          cbn [addDeduction CategoryScore.category CategoryScore.weight
               CategoryScore.maxDeduction CategoryScore.violations
               CategoryScore.actualDeduction];
          rewrite filter_app, length_app, totalDeduction_snoc; cbn [filter];
          rewrite Hc; cbn [List.length].
        -- repeat split; auto; [lia|]. rewrite H4. unfold deductionOf. now rewrite Hr.
        -- repeat split; auto; lia.
    + split; [exact Hk|]. clear Hk.
      eapply Forall_impl; [|exact Hl]. intros cs [H1 [H2 [H3 H4]]].
      assert (Hc : charged rules (CategoryScore.category cs) v = false)
        by (unfold charged; now rewrite Hr).
      unfold loop_state. rewrite filter_app, length_app, totalDeduction_snoc.
      cbn [filter]. rewrite Hc. cbn [List.length].
      repeat split; auto; lia.
Qed.

Lemma Math_round_comp (x y : Q) : (x == y)%Q -> Math_round x = Math_round y.
Proof.
  intros H. unfold Math_round. apply Qfloor_comp. now rewrite H.
Qed.

Lemma calculateScore_closed_form :
  forall (violations : list RuleViolation) (rules : list QualityRule),
    let bd := snd (calculateScore violations rules) in
    map CategoryScore.category bd = CATEGORY_KEYS
    /\ map CategoryScore.weight bd = [25; 20; 15; 15; 10; 10; 5]%Z
    /\ Forall (fun cs =>
         let c := CategoryScore.category cs in
         CategoryScore.maxDeduction cs = categoryBudget rules c
         /\ CategoryScore.violations cs
            = List.length (filter (charged rules c) violations)
         /\ CategoryScore.actualDeduction cs = totalDeduction rules c violations
         /\ CategoryScore.score cs
            = if (0 <? categoryBudget rules c)%Z
              then Z.max 0 (Math_round
                              (Double.sub 100
                                 (Double.mul
                                    (Double.div (totalDeduction rules c violations)
                                                (inject_Z (categoryBudget rules c)))
                                    100)))
              else 100%Z) bd
    /\ fst (calculateScore violations rules)
       = Math_round (Double.div (inject_Z (weightedSum bd)) 100).
Proof.
  intros violations rules. cbv zeta.
  unfold calculateScore. cbv zeta. cbn [fst snd].
  destruct (loop_invariant rules violations) as [Hk Hl].
  set (l := fold_left (applyViolation rules) violations
              (map (initCategoryScore rules) CATEGORY_KEYS)) in *.
  clearbody l.
  assert (Hcat : map CategoryScore.category (map setScore l) = CATEGORY_KEYS).
  { rewrite map_map. exact Hk. }
  assert (Hw : map CategoryScore.weight (map setScore l) = [25; 20; 15; 15; 10; 10; 5]%Z).
  { rewrite map_map. cbn [setScore CategoryScore.weight].
    transitivity (map CATEGORY_WEIGHTS (map CategoryScore.category l)).
    - rewrite map_map. apply map_ext_in. intros cs Hcs.
      rewrite Forall_forall in Hl. now destruct (Hl cs Hcs) as [H1 _].
    - now rewrite Hk. }
  split; [exact Hcat|]. split; [exact Hw|]. split.
  - rewrite Forall_map. eapply Forall_impl; [|exact Hl].
    intros cs [H1 [H2 [H3 H4]]].
    cbn [setScore CategoryScore.category CategoryScore.maxDeduction
         CategoryScore.violations CategoryScore.actualDeduction CategoryScore.score].
    split; [exact H2|]. split; [exact H3|]. split; [exact H4|].
    unfold normalizedDeduction. rewrite H2.
    destruct (0 <? categoryBudget rules (CategoryScore.category cs))%Z.
    + now rewrite H4.
    + reflexivity.
  - assert (Ht : totalWeight (map setScore l) = 100%Z).
    { unfold totalWeight.
      assert (G : forall (m : list CategoryScore.t) a,
                fold_left (fun acc c => (acc + CategoryScore.weight c)%Z) m a
                = fold_left Z.add (map CategoryScore.weight m) a).
      { induction m as [|x m IH]; intros a; simpl; [reflexivity|apply IH]. }
      rewrite G, Hw. reflexivity. }
    rewrite Ht. reflexivity.
Qed.

(** The arithmetic of [calculateScore] is that of doubles: for two timing
    dependencies, random data, a network dependency and an always-true
    assertion the deduction of flaky is 8 + 8 + 3.5999999999999996 + 9 of
    40, which gives the flaky score 28 and the file score 80, where exact
    arithmetic would give 29 and 81. *)
Lemma calculateScore_rounds_in_doubles :
  let vs := map violationOf
              ["flaky/timing-dependency"; "flaky/timing-dependency";
               "flaky/random-data"; "flaky/network-dependency";
               "theater/always-true"]%string in
  fst (calculateScore vs allRules) = 80%Z
  /\ map CategoryScore.score (snd (calculateScore vs allRules))
     = [79; 28; 100; 100; 100; 100; 100]%Z.
Proof. vm_compute. split; reflexivity. Qed.


Lemma weightedSum_constant (s : Z) (bd : list CategoryScore.t) :
  Forall (fun c => CategoryScore.score c = s) bd ->
  weightedSum bd = (s * totalWeight bd)%Z.
Proof.
  unfold weightedSum, totalWeight. intros H.
  assert (G : forall a b, a = (s * b)%Z ->
            fold_left (fun acc c => (acc + CategoryScore.score c * CategoryScore.weight c)%Z) bd a
            = (s * fold_left (fun acc c => (acc + CategoryScore.weight c)%Z) bd b)%Z).
  { induction H as [|c bd Hc _ IH]; intros a b Hab; simpl; [exact Hab|].
    apply IH. rewrite Hc. lia. }
  apply G. lia.
Qed.

Lemma totalDeduction_nil (rules : list QualityRule) (c : RuleCategory) :
  totalDeduction rules c [] = 0%Q.
Proof. reflexivity. Qed.

(** Without a deduction the quotient, the product and the difference are
    exact. *)
Lemma clean_category_score (b : Q) :
  Math_round (Double.sub 100 (Double.mul (Double.div 0 b) 100)) = 100%Z.
Proof.
  unfold Double.div.
  rewrite (@double_zero (0 / b)) by (unfold Qdiv; ring).
  unfold Double.mul. rewrite (@double_zero (0 * 100)) by ring.
  unfold Double.sub. rewrite <- (Math_round_inject 100) at 2.
  apply Math_round_comp. change (inject_Z 100) with 100%Q.
  apply Qeq_trans with (Double.double 100); [|exact double_100].
  apply double_comp. ring.
Qed.

Lemma clean_scores (rules : list QualityRule) :
  fst (calculateScore [] rules) = 100%Z
  /\ Forall (fun c => CategoryScore.score c = 100%Z
                      /\ CategoryScore.violations c = 0%nat)
            (snd (calculateScore [] rules)).
Proof.
  destruct (calculateScore_closed_form [] rules) as [Hk [Hw [Hf Hs]]].
  cbv zeta in *.
  assert (H100 : Forall (fun c => CategoryScore.score c = 100%Z
                                  /\ CategoryScore.violations c = 0%nat)
                        (snd (calculateScore [] rules))).
  { eapply Forall_impl; [|exact Hf]. intros cs [_ [Hv [_ Hsc]]].
    split; [|exact Hv]. rewrite Hsc.
    destruct (0 <? categoryBudget rules (CategoryScore.category cs))%Z eqn:E;
      [|reflexivity].
    rewrite totalDeduction_nil, clean_category_score. reflexivity. }
  split; [|exact H100].
  rewrite Hs. rewrite (@weightedSum_constant 100).
  - assert (Ht : totalWeight (snd (calculateScore [] rules)) = 100%Z).
    { unfold totalWeight.
      assert (G : forall (m : list CategoryScore.t) a,
                fold_left (fun acc c => (acc + CategoryScore.weight c)%Z) m a
                = fold_left Z.add (map CategoryScore.weight m) a).
      { induction m as [|x m IH]; intros a; simpl; [reflexivity|apply IH]. }
      rewrite G, Hw. reflexivity. }
    rewrite Ht. vm_compute. reflexivity.
  - eapply Forall_impl; [|exact H100]. now intros c [H _].
Qed.

(** The fields of a reviewed file. *)
Lemma reviewTestFile_fields (content filename : string) (options : ReviewOptions.t)
  (f : ReviewedFile.t) :
  reviewTestFile content filename options = Ok f ->
  let rules := filterRules options in
  let violations := collected content filename rules in
  ReviewedFile.path f = filename
  /\ ReviewedFile.violations f = violations
  /\ ReviewedFile.score f = fst (calculateScore violations rules)
  /\ ReviewedFile.scoreBreakdown f = snd (calculateScore violations rules)
  /\ ReviewedFile.testCount f = countTests content
  /\ ReviewedFile.assertionCount f = countAssertions content.
Proof.
  intros H. rewrite reviewTestFile_returns in H. cbv zeta in H.
  apply (f_equal (fun r => match r with Ok x => x | Throw _ => f end)) in H.
  cbv beta iota in H. rewrite <- H. cbv zeta.
  cbn [ReviewedFile.path ReviewedFile.violations ReviewedFile.score
       ReviewedFile.scoreBreakdown ReviewedFile.testCount
       ReviewedFile.assertionCount].
  repeat split.
Qed.

(** X2: a reviewed file without violations has score 100, and each of its
    category scores is 100 with a violation count of 0, whatever rules were
    selected (also rules given through [options.rules]). *)
Theorem X2_clean_file_scores_100 :
  forall (content filename : string) (options : ReviewOptions.t)
         (f : ReviewedFile.t),
    reviewTestFile content filename options = Ok f ->
    ReviewedFile.violations f = [] ->
    ReviewedFile.score f = 100%Z
    /\ Forall (fun c => CategoryScore.score c = 100%Z
                        /\ CategoryScore.violations c = 0%nat)
              (ReviewedFile.scoreBreakdown f).
Proof.
  intros content filename options f Hf Hv.
  destruct (reviewTestFile_fields _ _ _ Hf) as [_ [H1 [H2 [H3 _]]]].
  rewrite H2, H3. rewrite <- H1, Hv.
  apply clean_scores.
Qed.

Lemma X2_witness :
  exists f : ReviewedFile.t,
    reviewTestFile "" "a.test.ts" ReviewOptions.empty = Ok f
    /\ ReviewedFile.score f = 100%Z
    /\ Forall (fun c => CategoryScore.score c = 100%Z
                        /\ CategoryScore.violations c = 0%nat)
              (ReviewedFile.scoreBreakdown f).
Proof.
  eexists. split; [apply reviewTestFile_returns|].
  apply (@X2_clean_file_scores_100 "" "a.test.ts" ReviewOptions.empty).
  - apply reviewTestFile_returns.
  - vm_compute. reflexivity.
Defined.



Lemma deductionOf_nonneg (rules : list QualityRule) (v : RuleViolation) :
  weights_ok rules -> (0 <= deductionOf rules v)%Q.
Proof.
  intros Hw. unfold deductionOf.
  destruct (ruleMap_get rules (ruleId v)) as [r|] eqn:E; [|lra].
  apply ruleMap_get_In in E. unfold weights_ok in Hw.
  rewrite Forall_forall in Hw. specialize (Hw r E).
  apply double_nonneg.
  apply Qmult_le_0_compat; [|apply multiplier_nonneg].
  change 0%Q with (inject_Z 0). now rewrite <- Zle_Qle.
Qed.


(** A double sum of non-negative terms does not decrease along the sum,
    when it starts from a double. *)
Lemma double_sum_grows (d : RuleViolation -> Q) (l : list RuleViolation) :
  (forall v, 0 <= d v)%Q ->
  forall acc : Q, (Double.double acc == acc)%Q ->
    (acc <= fold_left (fun acc v => Double.add acc (d v)) l acc)%Q.
Proof.
  intros Hd. induction l as [|v l IH]; intros acc Hacc; cbn [fold_left].
  - apply Qle_refl.
  - apply Qle_trans with (Double.add acc (d v)).
    + apply Qle_trans with (Double.double acc);
        [apply Qle_lteq; right; now apply Qeq_sym|].
      apply double_mono. specialize (Hd v). lra.
    + apply IH. apply double_idem.
Qed.


Lemma totalDeduction_nonneg (rules : list QualityRule) (c : RuleCategory)
  (vs : list RuleViolation) :
  weights_ok rules -> (0 <= totalDeduction rules c vs)%Q.
Proof.
  intros Hw. unfold totalDeduction.
  apply (@double_sum_grows (deductionOf rules) (filter (charged rules c) vs)
           (fun v => deductionOf_nonneg v Hw) 0%Q).
  reflexivity.
Qed.







(* ================================================================== *)
(** ** Further properties of rule selection *)
(* ================================================================== *)

Lemma includes_category_In (l : list RuleCategory) (c : RuleCategory) :
  includes_category l c = true <-> In c l.
Proof.
  unfold includes_category. rewrite existsb_exists. split.
  - intros [x [Hx E]]. apply category_eqb_eq in E. now subst.
  - intros H. exists c. split; [exact H|]. now apply category_eqb_eq.
Qed.

Lemma severityIndex_reaches (m s : Severity) :
  (severityIndex m <=? severityIndex s) = reaches m s.
Proof. now destruct m, s. Qed.

Lemma filter_filter (A : Type) (p q : A -> bool) (l : list A) :
  filter q (filter p l) = filter (fun x => p x && q x) l.
Proof.
  induction l as [|x l IH]; [reflexivity|]. cbn [filter].
  destruct (p x); cbn [filter andb]; [destruct (q x)|]; now rewrite IH.
Qed.

Lemma filter_same (A : Type) (p q : A -> bool) (l : list A) :
  (forall x, p x = q x) -> filter p l = filter q l.
Proof.
  intros H. induction l as [|x l IH]; [reflexivity|].
  cbn [filter]. now rewrite H, IH.
Qed.

Lemma filter_true (A : Type) (l : list A) : filter (fun _ => true) l = l.
Proof. induction l as [|x l IH]; [reflexivity|]. cbn [filter]. now rewrite IH. Qed.

(** The three filters of [filterRules] are one filter. *)
Lemma filterRules_passes (options : ReviewOptions.t) :
  filterRules options = filter (passes options) (catalogOf options).
Proof.
  unfold filterRules, catalogOf, passes, includes_category.
  set (rules := match ReviewOptions.rules options with
                | Some rs => rs
                | None => allRules
                end).
  destruct (ReviewOptions.includedCategories options) as [[|c cs]|];
  destruct (ReviewOptions.excludedCategories options) as [[|c' cs']|];
  destruct (ReviewOptions.minSeverity options) as [s|];
    rewrite ?filter_filter;
    try (symmetry; apply filter_true);
    apply filter_same; intros r;
    rewrite ?severityIndex_reaches, ?andb_true_r, ?andb_assoc; reflexivity.
Qed.

Lemma passes_spec (options : ReviewOptions.t) (r : QualityRule) :
  passes options r = true
  <-> category_selected options (category r)
      /\ severity_selected options (severity r).
Proof.
  unfold passes, category_selected, severity_selected.
  destruct (ReviewOptions.includedCategories options) as [[|c cs]|];
  destruct (ReviewOptions.excludedCategories options) as [[|c' cs']|];
  destruct (ReviewOptions.minSeverity options) as [s|];
    rewrite ?andb_true_iff, ?negb_true_iff, <- ?not_true_iff_false,
      ?(includes_category_In : forall l c, existsb (category_eqb c) l = true <-> In c l);
    tauto.
Qed.

Lemma filterRules_spec (options : ReviewOptions.t) (r : QualityRule) :
  In r (filterRules options)
  <-> In r (catalogOf options)
      /\ category_selected options (category r)
      /\ severity_selected options (severity r).
Proof. rewrite filterRules_passes, filter_In, passes_spec. tauto. Qed.

(** X4: rule selection keeps, in the order of the catalog (the rules of
    [options.rules], else the built-in ones), exactly the rules whose
    category is among [includedCategories] when that list is given and not
    empty, is not among [excludedCategories] when that list is given and
    not empty, and whose severity is at least [minSeverity] when it is
    given, in the order info < warning < error; an excluded category wins
    over an included one. *)
Theorem X4_selection_characterised :
  forall options : ReviewOptions.t,
    filterRules options = filter (passes options) (catalogOf options)
    /\ (forall r : QualityRule,
          passes options r = true
          <-> category_selected options (category r)
              /\ severity_selected options (severity r))
    /\ (forall r : QualityRule,
          In r (filterRules options)
          <-> In r (catalogOf options)
              /\ category_selected options (category r)
              /\ severity_selected options (severity r)).
Proof.
  intros options. split; [apply filterRules_passes|].
  split; intros r; [apply passes_spec|apply filterRules_spec].
Qed.

Lemma collected_In (content filename : string) (rules : list QualityRule)
  (v : RuleViolation) :
  In v (collected content filename rules) ->
  exists r, In r rules /\ In v (contribution content filename r).
Proof.
  unfold collected. rewrite in_flat_map. intros [r [Hr Hv]]. now exists r.
Qed.

Lemma builtin_violation_rule (content filename : string)
  (inc exc : option (list RuleCategory)) (sev : option Severity)
  (ign : option (list string)) (v : RuleViolation) :
  In v (collected content filename (filterRules (selection inc exc sev ign))) ->
  exists r, In r (filterRules (selection inc exc sev ign)) /\ id r = ruleId v.
Proof.
  intros Hv. apply collected_In in Hv. destruct Hv as [r [Hr Hv]].
  exists r. split; [exact Hr|].
  assert (Hin : In r allRules) by now apply filterRules_incl in Hr.
  pose proof (catalog_ruleIds content filename Hin) as Hid.
  rewrite Forall_forall in Hid. symmetry. now apply Hid.
Qed.

(** X5: in a review against the built-in catalog every violation of the
    reviewed file carries the id of a selected built-in rule: a rule whose
    category passes the category filters and whose severity passes the
    threshold.  So no violation of an excluded category, of a category that
    is not included, or of a severity below [minSeverity] is reported. *)
Theorem X5_violations_come_from_selected_rules :
  forall (content filename : string) (inc exc : option (list RuleCategory))
         (sev : option Severity) (ign : option (list string))
         (f : ReviewedFile.t) (v : RuleViolation),
    reviewTestFile content filename (selection inc exc sev ign) = Ok f ->
    In v (ReviewedFile.violations f) ->
    exists r : QualityRule,
      In r allRules
      /\ id r = ruleId v
      /\ category_selected (selection inc exc sev ign) (category r)
      /\ severity_selected (selection inc exc sev ign) (severity r).
Proof.
  intros content filename inc exc sev ign f v Hf Hv.
  destruct (reviewTestFile_fields _ _ _ Hf) as [_ [H1 _]].
  rewrite H1 in Hv. apply builtin_violation_rule in Hv.
  destruct Hv as [r [Hr Hid]]. exists r.
  apply filterRules_spec in Hr. destruct Hr as [Hc [Hcat Hsev]].
  split; [exact Hc|]. split; [exact Hid|]. split; [exact Hcat|exact Hsev].
Qed.

Lemma X5_witness :
  exists r : QualityRule,
    In r allRules
    /\ id r = "theater/empty-test"%string
    /\ category_selected (selection (Some [theater]) None (Some error) None)
                         (category r)
    /\ severity_selected (selection (Some [theater]) None (Some error) None)
                         (severity r).
Proof.
  eapply (@X5_violations_come_from_selected_rules scenarioA "a.test.ts"
            (Some [theater]) None (Some error) None _ scenarioA_empty_test).
  - apply reviewTestFile_returns.
  - vm_compute. auto.
Defined.

Lemma filter_all_in (A : Type) (p : A -> bool) (l : list A) :
  (forall x, In x l -> p x = true) -> filter p l = l.
Proof.
  induction l as [|x l IH]; intros H; simpl; [reflexivity|].
  rewrite (H x (or_introl eq_refl)). f_equal. apply IH.
  intros y Hy. apply H. now right.
Qed.

Lemma charged_known (rules : list QualityRule) (v : RuleViolation) :
  fold_right (fun c acc => (if charged rules c v then 1 else 0) + acc) 0 CATEGORY_KEYS
  = if known rules v then 1 else 0.
Proof.
  unfold charged, known.
  destruct (ruleMap_get rules (ruleId v)) as [r|]; [|reflexivity].
  destruct (category r); reflexivity.
Qed.

Lemma charged_counts (rules : list QualityRule) (vs : list RuleViolation) :
  fold_right (fun c acc => List.length (filter (charged rules c) vs) + acc) 0 CATEGORY_KEYS
  = List.length (filter (known rules) vs).
Proof.
  induction vs as [|v vs IH]; [reflexivity|].
  cbn [filter].
  pose proof (charged_known rules v) as Hv.
  cbn [fold_right CATEGORY_KEYS] in *.
  destruct (charged rules theater v), (charged rules flaky v),
    (charged rules over_mocking v), (charged rules assertions v),
    (charged rules isolation v), (charged rules maintainability v),
    (charged rules structure v), (known rules v);
    cbn [List.length] in *; lia.
Qed.

Lemma countedViolations_known (vs : list RuleViolation) (rules : list QualityRule) :
  countedViolations (snd (calculateScore vs rules))
  = List.length (filter (known rules) vs).
Proof.
  destruct (calculateScore_closed_form vs rules) as [Hk [_ [Hf _]]].
  cbv zeta in *. rewrite <- charged_counts.
  set (bd := snd (calculateScore vs rules)) in *. clearbody bd.
  rewrite <- Hk. clear Hk. unfold countedViolations.
  induction Hf as [|cs bd [_ [Hv _]] _ IH]; [reflexivity|].
  cbn [map fold_right]. rewrite Hv, IH. reflexivity.
Qed.

Lemma ruleMap_get_known (rules : list QualityRule) (r : QualityRule) :
  In r rules -> ruleMap_get rules (id r) <> None.
Proof.
  intros Hr H. unfold ruleMap_get in H.
  apply in_rev in Hr. apply (find_none _ _ H) in Hr.
  now rewrite String.eqb_refl in Hr.
Qed.

(** X6: the violation counts of the seven categories of a file add up to
    the number of violations whose rule id is that of a selected rule; in a
    review against the built-in catalog they add up to the number of
    violations of the file, each violation being counted in one category. *)
Theorem X6_category_counts_add_up :
  forall (content filename : string) (inc exc : option (list RuleCategory))
         (sev : option Severity) (ign : option (list string))
         (vs : list RuleViolation) (rules : list QualityRule),
    countedViolations (snd (calculateScore vs rules))
    = List.length (filter (known rules) vs)
    /\ exists f : ReviewedFile.t,
         reviewTestFile content filename (selection inc exc sev ign) = Ok f
         /\ countedViolations (ReviewedFile.scoreBreakdown f)
            = List.length (ReviewedFile.violations f).
Proof.
  intros content filename inc exc sev ign vs rules.
  split; [apply countedViolations_known|].
  rewrite reviewTestFile_returns. cbv zeta.
  eexists; split; [reflexivity|].
  cbn [ReviewedFile.scoreBreakdown ReviewedFile.violations].
  rewrite countedViolations_known. f_equal.
  apply filter_all_in. intros v Hv.
  apply builtin_violation_rule in Hv. destruct Hv as [r [Hr Hid]].
  unfold known. rewrite <- Hid.
  pose proof (ruleMap_get_known _ _ Hr) as Hk.
  now destruct (ruleMap_get _ (id r)).
Qed.

(* ================================================================== *)
(** ** Further properties of the aggregator *)
(* ================================================================== *)

Lemma severity_eqb_sym (a b : Severity) : severity_eqb a b = severity_eqb b a.
Proof. now destruct a, b. Qed.

Lemma sumCounts_bump (k : string) (s : Severity) (m : list TopIssue.t) :
  sumCounts (bump k s m) = S (sumCounts m).
Proof.
  unfold sumCounts. induction m as [|e m IH]; simpl; [reflexivity|].
  destruct (String.eqb (TopIssue.rule e) k); simpl; [reflexivity|].
  rewrite IH. lia.
Qed.

Lemma sumCounts_perm (l l' : list TopIssue.t) :
  Permutation l l' -> sumCounts l = sumCounts l'.
Proof.
  unfold sumCounts. induction 1; simpl; lia.
Qed.

Lemma tally_closed_form (vs : list RuleViolation) :
  let t := fold_left tallyViolation vs emptyTally in
  (forall c, byCategory t c = List.length (filter (hasCategory c) vs))
  /\ (forall s, bySeverity t s = List.length (filter (hasSeverity s) vs))
  /\ sumCounts (violationCounts t) = List.length (filter inCatalog vs).
Proof.
  cbv zeta. induction vs as [|v vs IH] using rev_ind.
  - repeat split.
  - rewrite fold_left_app. cbn [fold_left].
    destruct IH as [Hc [Hs Hn]].
    set (t := fold_left tallyViolation vs emptyTally) in *. clearbody t.
    unfold tallyViolation, hasCategory, hasSeverity, inCatalog in *.
    destruct (findRule (ruleId v)) as [r|] eqn:Hr.
    + cbn [byCategory bySeverity violationCounts]. split; [|split].
      * intros c. rewrite filter_app, length_app. cbn [filter]. rewrite Hr.
        unfold incr. rewrite (category_eqb_sym c (category r)).
        destruct (category_eqb (category r) c); cbn [List.length]; rewrite Hc; lia.
      * intros s. rewrite filter_app, length_app. cbn [filter]. rewrite Hr.
        unfold incr. rewrite (severity_eqb_sym s (severity r)).
        destruct (severity_eqb (severity r) s); cbn [List.length]; rewrite Hs; lia.
      * rewrite sumCounts_bump, filter_app, length_app. cbn [filter]. rewrite Hr.
        cbn [List.length]. rewrite Hn. lia.
    + split; [|split].
      * intros c. rewrite filter_app, length_app. cbn [filter]. rewrite Hr.
        cbn [List.length]. rewrite Hc. lia.
      * intros s. rewrite filter_app, length_app. cbn [filter]. rewrite Hr.
        cbn [List.length]. rewrite Hs. lia.
      * rewrite filter_app, length_app. cbn [filter]. rewrite Hr.
        cbn [List.length]. rewrite Hn. lia.
Qed.

Lemma hasCategory_inCatalog (v : RuleViolation) :
  fold_right (fun c acc => (if hasCategory c v then 1 else 0) + acc) 0 CATEGORY_KEYS
  = if inCatalog v then 1 else 0.
Proof.
  unfold hasCategory, inCatalog.
  destruct (findRule (ruleId v)) as [r|]; [|reflexivity].
  destruct (category r); reflexivity.
Qed.

Lemma category_counts_add_up (vs : list RuleViolation) :
  fold_right (fun c acc => List.length (filter (hasCategory c) vs) + acc) 0 CATEGORY_KEYS
  = List.length (filter inCatalog vs).
Proof.
  induction vs as [|v vs IH]; [reflexivity|].
  cbn [filter].
  pose proof (hasCategory_inCatalog v) as Hv.
  cbn [fold_right CATEGORY_KEYS] in *.
  destruct (hasCategory theater v), (hasCategory flaky v),
    (hasCategory over_mocking v), (hasCategory assertions v),
    (hasCategory isolation v), (hasCategory maintainability v),
    (hasCategory structure v), (inCatalog v);
    cbn [List.length] in *; lia.
Qed.

Lemma hasSeverity_inCatalog (v : RuleViolation) :
  ((if hasSeverity error v then 1 else 0) + (if hasSeverity warning v then 1 else 0)
   + (if hasSeverity info v then 1 else 0))%nat
  = if inCatalog v then 1 else 0.
Proof.
  unfold hasSeverity, inCatalog.
  destruct (findRule (ruleId v)) as [r|]; [|reflexivity].
  destruct (severity r); reflexivity.
Qed.

Lemma severity_counts_add_up (vs : list RuleViolation) :
  (List.length (filter (hasSeverity error) vs)
   + List.length (filter (hasSeverity warning) vs)
   + List.length (filter (hasSeverity info) vs))%nat
  = List.length (filter inCatalog vs).
Proof.
  induction vs as [|v vs IH]; [reflexivity|].
  cbn [filter].
  pose proof (hasSeverity_inCatalog v) as Hv.
  destruct (hasSeverity error v), (hasSeverity warning v),
    (hasSeverity info v), (inCatalog v);
    cbn [List.length] in *; lia.
Qed.

(** X7: the tallies of a summary agree.  For every list of reviewed files,
    [totalViolations] is the number of all violations;
    [violationsByCategory] and [violationsBySeverity] count, per key, the
    violations whose rule id is that of a built-in rule of that category or
    severity; their sums over the seven categories and the three
    severities, the sum of the counts of the ranked issues and the sum of
    the [violations] fields of the aggregate breakdown are all the number of
    violations with a built-in rule id, which is at most
    [totalViolations]. *)
Theorem X7_summary_tallies_agree :
  forall files : list ReviewedFile.t,
    let s := generateSummary files in
    let vs := flat_map ReviewedFile.violations files in
    ReviewSummary.totalViolations s = List.length vs
    /\ (forall c, ReviewSummary.violationsByCategory s c
                  = List.length (filter (hasCategory c) vs))
    /\ (forall sev, ReviewSummary.violationsBySeverity s sev
                    = List.length (filter (hasSeverity sev) vs))
    /\ sumByCategory (ReviewSummary.violationsByCategory s)
       = List.length (filter inCatalog vs)
    /\ sumBySeverity (ReviewSummary.violationsBySeverity s)
       = List.length (filter inCatalog vs)
    /\ sumCounts (rankedIssues files) = List.length (filter inCatalog vs)
    /\ countedViolations (ReviewSummary.scoreBreakdown s)
       = List.length (filter inCatalog vs)
    /\ List.length (filter inCatalog vs) <= ReviewSummary.totalViolations s.
Proof.
  intros files. cbv zeta.
  destruct (tally_closed_form (flat_map ReviewedFile.violations files))
    as [Hc [Hs Hn]]. cbv zeta in *.
  unfold generateSummary.
  cbn [ReviewSummary.totalViolations ReviewSummary.violationsByCategory
       ReviewSummary.violationsBySeverity ReviewSummary.scoreBreakdown].
  set (vs := flat_map ReviewedFile.violations files) in *.
  set (t := fold_left tallyViolation vs emptyTally) in *.
  assert (Hsum : sumByCategory (byCategory t) = List.length (filter inCatalog vs)).
  { unfold sumByCategory. rewrite <- category_counts_add_up.
    generalize CATEGORY_KEYS. intros l.
    induction l as [|c l IH]; cbn [fold_right]; [reflexivity|].
    now rewrite Hc, IH. }
  split; [reflexivity|]. split; [exact Hc|]. split; [exact Hs|].
  split; [exact Hsum|]. split.
  { unfold sumBySeverity. rewrite !Hs. apply severity_counts_add_up. }
  split.
  { rewrite <- Hn. apply sumCounts_perm. apply js_sort_perm. }
  split.
  { rewrite <- Hsum. unfold countedViolations, sumByCategory.
    generalize CATEGORY_KEYS. intros l.
    induction l as [|c l IH]; cbn [map fold_right CategoryScore.violations];
      [reflexivity|]. now rewrite IH. }
  apply filter_length_le.
Qed.

Lemma reviewEach_flat_map (env : Env) (rootDir : string)
  (options : ReviewOptions.t) (testFiles : list string)
  (acc : list ReviewedFile.t) :
  reviewEach env rootDir options testFiles acc
  = Ok (acc ++ flat_map (reviewedOf env rootDir options) testFiles).
Proof.
  revert acc. induction testFiles as [|p testFiles IH]; intros acc.
  - cbn [reviewEach flat_map]. now rewrite app_nil_r.
  - cbn [reviewEach flat_map].
    assert (Hstep : reviewedOf env rootDir options p
                    = match readFile env p with
                      | Ok content =>
                          match reviewTestFile content p options with
                          | Ok f => [setRelativePath (relative env rootDir p) f]
                          | Throw _ => []
                          end
                      | Throw _ => []
                      end) by reflexivity.
    rewrite Hstep. clear Hstep.
    destruct (readFile env p) as [content|e]; cbn [bind try_catch].
    + destruct (reviewTestFile content p options) as [f|e'];
        cbn [bind try_catch]; rewrite IH.
      * now rewrite <- app_assoc.
      * reflexivity.
    + rewrite IH. reflexivity.
Qed.

Lemma reviewedOf_paths (env : Env) (rootDir : string) (options : ReviewOptions.t)
  (testFiles : list string) :
  map ReviewedFile.path (flat_map (reviewedOf env rootDir options) testFiles)
  = filter (readable env) testFiles.
Proof.
  induction testFiles as [|p testFiles IH]; [reflexivity|].
  cbn [flat_map filter]. rewrite map_app, IH.
  unfold reviewedOf, readable.
  destruct (readFile env p) as [content|e]; [|reflexivity].
  rewrite reviewTestFile_returns. reflexivity.
Qed.

Lemma reviewedOf_each (env : Env) (rootDir : string) (options : ReviewOptions.t)
  (testFiles : list string) :
  Forall (fun f =>
            exists content f0,
              readFile env (ReviewedFile.path f) = Ok content
              /\ reviewTestFile content (ReviewedFile.path f) options = Ok f0
              /\ f = setRelativePath (relative env rootDir (ReviewedFile.path f)) f0)
         (flat_map (reviewedOf env rootDir options) testFiles).
Proof.
  apply Forall_flat_map_intro. intros p. unfold reviewedOf.
  destruct (readFile env p) as [content|e] eqn:Hr; [|constructor].
  destruct (reviewTestFile content p options) as [f0|e] eqn:Hf; [|constructor].
  constructor; [|constructor].
  destruct (reviewTestFile_fields _ _ _ Hf) as [Hp _].
  cbn [setRelativePath ReviewedFile.path]. rewrite Hp.
  exists content, f0. now rewrite Hr, Hf.
Qed.

(** X8: a project run never throws, and it reviews exactly the discovered
    files that can be read, in discovery order: the paths of the files of
    the report are the readable discovered paths, each file is the review of
    the content read at its path with [relativePath] set to
    [relative(rootDir, path)], unreadable files are skipped, and
    [totalFiles] is the number of files of the report. *)
Theorem X8_run_reviews_the_readable_files :
  forall (env : Env) (rootDir : string) (options : ReviewOptions.t),
  exists report : ReviewReport.t,
    reviewTestFiles env rootDir options = Ok report
    /\ ReviewReport.rootDir report = rootDir
    /\ map ReviewedFile.path (ReviewReport.files report)
       = filter (readable env) (discovered env rootDir options)
    /\ Forall (fun f =>
                 exists content f0,
                   readFile env (ReviewedFile.path f) = Ok content
                   /\ reviewTestFile content (ReviewedFile.path f) options = Ok f0
                   /\ f = setRelativePath
                            (relative env rootDir (ReviewedFile.path f)) f0)
              (ReviewReport.files report)
    /\ ReviewSummary.totalFiles (ReviewReport.summary report)
       = List.length (ReviewReport.files report).
Proof.
  intros env rootDir options. unfold reviewTestFiles. cbv zeta.
  fold (discovered env rootDir options).
  destruct (discovered env rootDir options) as [|p ps] eqn:Hd.
  - cbn [List.length Nat.eqb]. eexists; split; [reflexivity|].
    cbn [ReviewReport.rootDir ReviewReport.files ReviewReport.summary].
    repeat split. constructor.
  - cbn [List.length Nat.eqb]. rewrite reviewEach_flat_map. cbn [bind app].
    eexists; split; [reflexivity|].
    cbn [ReviewReport.rootDir ReviewReport.files ReviewReport.summary].
    split; [reflexivity|]. split; [apply reviewedOf_paths|].
    split; [apply reviewedOf_each|]. reflexivity.
Qed.

Lemma mean_between (t n a b : Z) :
  (0 < n)%Z -> (a * n <= t <= b * n)%Z ->
  (a <= Math_round (inject_Z t / inject_Z n) <= b)%Z.
Proof.
  intros Hn [Ha Hb].
  assert (Hq : (0 < inject_Z n)%Q)
    by (change 0%Q with (inject_Z 0); now rewrite <- Zlt_Qlt).
  split.
  - apply Math_round_ge. apply Qle_shift_div_l; [exact Hq|].
    rewrite <- inject_Z_mult, <- Zle_Qle. exact Ha.
  - apply Math_round_le. apply Qle_shift_div_r; [exact Hq|].
    rewrite <- inject_Z_mult, <- Zle_Qle. exact Hb.
Qed.

Lemma totalScore_between (a b : Z) (files : list ReviewedFile.t) :
  Forall (fun f => (a <= ReviewedFile.score f <= b)%Z) files ->
  forall acc k, (a * k <= acc <= b * k)%Z ->
    (a * (k + Z.of_nat (List.length files))
     <= fold_left (fun sum f => (sum + ReviewedFile.score f)%Z) files acc
     <= b * (k + Z.of_nat (List.length files)))%Z.
Proof.
  induction 1 as [|f files Hf _ IH]; intros acc k Hk.
  - cbn [fold_left List.length]. rewrite Z.add_0_r. exact Hk.
  - cbn [fold_left List.length].
    specialize (IH (acc + ReviewedFile.score f)%Z (k + 1)%Z).
    rewrite Nat2Z.inj_succ.
    replace (k + Z.succ (Z.of_nat (List.length files)))%Z
      with (k + 1 + Z.of_nat (List.length files))%Z by lia.
    apply IH. lia.
Qed.

Lemma overallScore_between :
  forall (files : list ReviewedFile.t) (a b : Z),
    files <> [] ->
    Forall (fun f => (a <= ReviewedFile.score f <= b)%Z) files ->
    (a <= ReviewSummary.overallScore (generateSummary files) <= b)%Z.
Proof.
  intros files a b Hne Hf. unfold generateSummary.
  cbn [ReviewSummary.overallScore].
  destruct files as [|f files]; [contradiction|].
  cbn [List.length Nat.ltb Nat.leb].
  apply mean_between; [lia|].
  unfold totalScore.
  pose proof (@totalScore_between a b (f :: files) Hf 0%Z 0%Z) as H.
  rewrite Z.add_0_l in H. apply H. lia.
Qed.



(* ================================================================== *)
(** ** Line numbers *)
(* ================================================================== *)

Lemma chars_length (s : string) : List.length (Js.chars s) = String.length s.
Proof. induction s as [|c s IH]; simpl; [reflexivity|]. now rewrite IH. Qed.

Lemma str_chars (s : string) : Js.str (Js.chars s) = s.
Proof. apply string_of_list_ascii_of_string. Qed.

Lemma chars_str (l : list ascii) : Js.chars (Js.str l) = l.
Proof. apply list_ascii_of_string_of_list_ascii. Qed.

Lemma split_char_length (c : ascii) (fuel : nat) :
  forall (l cur : list ascii),
    List.length l < fuel ->
    List.length (Js.split_l fuel [c] cur l) = S (count_char c l).
Proof.
  induction fuel as [|fuel IH]; intros l cur Hl; [lia|].
  destruct l as [|a l]; [reflexivity|].
  cbn [Js.split_l Js.starts_with_l List.length skipn]. unfold count_char.
  cbn [filter].
  destruct (Ascii.eqb c a); cbn [andb List.length].
  - f_equal. apply IH. simpl in Hl. lia.
  - apply IH. simpl in Hl. lia.
Qed.

Lemma lineCount_count (s : string) :
  lineCount s = S (count_char "010"%char (Js.chars s)).
Proof.
  unfold lineCount, Js.split.
  change (Js.chars nl) with ["010"%char].
  apply split_char_length. rewrite chars_length. lia.
Qed.

Lemma chars_prefix (n : nat) (s : string) :
  Js.chars (String.substring 0 n s) = firstn n (Js.chars s).
Proof.
  revert n. induction s as [|c s IH]; intros [|n]; simpl; try reflexivity.
  now rewrite IH.
Qed.

Lemma count_char_firstn (c : ascii) (n : nat) (l : list ascii) :
  count_char c (firstn n l) <= count_char c l.
Proof.
  unfold count_char. revert n. induction l as [|a l IH]; intros [|n]; simpl;
    try lia.
  specialize (IH n). destruct (Ascii.eqb c a); simpl; lia.
Qed.

(** [findLineNumber] is a line of the content, for every index. *)
Lemma findLineNumber_bounds (content : string) (index : nat) :
  1 <= findLineNumber content index <= lineCount content.
Proof.
  unfold findLineNumber. fold (lineCount (Js.substring 0 index content)).
  rewrite !lineCount_count. unfold Js.substring. rewrite chars_prefix.
  pose proof (count_char_firstn "010"%char (index - 0) (Js.chars content)). lia.
Qed.

Lemma lineCount_pos (content : string) : 1 <= 1 <= lineCount content.
Proof. rewrite lineCount_count. lia. Qed.

Lemma matchAll_lines (content : string) (p : Regex.pattern) :
  Forall (fun lm => 1 <= lm_line lm <= lineCount content)
         (matchAllWithLineNumbers content p).
Proof.
  unfold matchAllWithLineNumbers. apply Forall_map_intro. intros m.
  cbn [lm_line]. apply findLineNumber_bounds.
Qed.

Lemma Forall_map_from (A B : Type) (Q0 : A -> Prop) (Q : B -> Prop)
  (g : A -> B) (l : list A) :
  Forall Q0 l -> (forall x, Q0 x -> Q (g x)) -> Forall Q (map g l).
Proof.
  intros H G. induction H; simpl; constructor; auto.
Qed.

Lemma Forall_flat_map_from (A B : Type) (Q0 : A -> Prop) (Q : B -> Prop)
  (g : A -> list B) (l : list A) :
  Forall Q0 l -> (forall x, Q0 x -> Forall Q (g x)) -> Forall Q (flat_map g l).
Proof.
  intros H G. induction H; simpl; [constructor|].
  apply Forall_app. split; auto.
Qed.

Ltac solve_line :=
  first
    [ eexists; split; [reflexivity|assumption]
    | eexists; split; [reflexivity|apply lineCount_pos]
    | eexists; split; [reflexivity|apply findLineNumber_bounds] ].

Ltac lines_ok :=
  repeat first
    [ apply Forall_nil
    | apply Forall_cons; [solve_line|]
    | progress cbv beta zeta
    | match goal with
      | |- Forall _ (map _ (matchAllWithLineNumbers _ _)) =>
          eapply Forall_map_from; [apply matchAll_lines|intros ? ?; solve_line]
      | |- Forall _ (map _ (_ ++ _)) =>
          rewrite map_app; apply Forall_app; split
      | |- Forall _ (flat_map _ (matchAllWithLineNumbers _ _)) =>
          eapply Forall_flat_map_from; [apply matchAll_lines|intros ? ?]
      | |- Forall _ (flat_map _ _) => apply Forall_flat_map_intro; intros
      | |- Forall _ (_ ++ _) => apply Forall_app; split
      | |- Forall _ (if ?b then _ else _) => destruct b
      | |- Forall _ (let (_, _) := ?p in _) => destruct p
      | |- Forall _ (match ?x with _ => _ end) => destruct x
      end ].

Lemma mock_return_lines (content filename : string) :
  Forall (line_ok content) (detect_mock_return_ignores_input content filename).
Proof.
  unfold detect_mock_return_ignores_input. cbv zeta.
  match goal with
  | |- context [matchAllWithLineNumbers content ?p] =>
      pose proof (matchAll_lines content p) as HL;
      destruct (matchAllWithLineNumbers content p) as [|lm L]
  end.
  - cbn [List.length Nat.ltb Nat.leb]. constructor.
  - destruct (3 <? List.length (lm :: L)); [|constructor].
    constructor; [|constructor].
    inversion HL as [|? ? Hlm _]; subst.
    eexists; split; [reflexivity|].
    destruct (lm_line lm); [apply lineCount_pos|exact Hlm].
Qed.

(** Every violation that a built-in rule reports has a line number between
    1 and the number of lines of the content. *)
Lemma catalog_lines (content filename : string) (r : QualityRule) :
  In r allRules -> Forall (line_ok content) (contribution content filename r).
Proof.
  intros Hr.
  unfold allRules, flakyTestRules, theaterRules, overMockingRules, assertionRules,
    isolationRules, maintainabilityRules, structureRules in Hr.
  cbn [app In] in Hr.
  repeat (destruct Hr as [<-|Hr];
          [unfold contribution; cbn [detect];
           first
             [ apply mock_return_lines
             | cbv beta zeta delta
                 [detect_timing_dependency detect_random_data
                  detect_async_without_await detect_shared_state
                  detect_network_dependency detect_no_assertions
                  detect_always_true detect_empty_test detect_console_only
                  detect_expect_nothing detect_excessive_mocking
                  excessive_mocking_violation
                  detect_mocking_what_you_test
                  detect_weak_assertion detect_no_error_assertion
                  detect_single_assertion_syndrome detect_test_order_dependency
                  detect_global_state detect_filesystem_side_effects
                  detect_poor_test_name detect_deeply_nested
                  detect_large_test_file detect_magic_numbers
                  detect_commented_test detect_missing_describe
                  detect_arrange_act_assert detect_multiple_acts];
               lines_ok ] |]).
  all: try contradiction.
Qed.

(** X10: in a review against the built-in catalog every violation of the
    reviewed file has a line number, and it is between 1 and the number of
    lines of the content ([content.split('\n').length]), whatever the
    content, the file name and the selection. *)
Theorem X10_violation_lines_are_lines_of_the_content :
  forall (content filename : string) (inc exc : option (list RuleCategory))
         (sev : option Severity) (ign : option (list string)),
  exists f : ReviewedFile.t,
    reviewTestFile content filename (selection inc exc sev ign) = Ok f
    /\ Forall (line_ok content) (ReviewedFile.violations f).
Proof.
  intros content filename inc exc sev ign.
  rewrite reviewTestFile_returns. cbv zeta.
  eexists; split; [reflexivity|].
  cbn [ReviewedFile.violations]. unfold collected.
  apply Forall_flat_map_from with (Q0 := fun r => In r allRules).
  - rewrite Forall_forall. intros r Hr. now apply filterRules_incl in Hr.
  - intros r Hr. now apply catalog_lines.
Qed.

Lemma count_char_firstn_mono (c : ascii) (l : list ascii) :
  forall i j, i <= j -> count_char c (firstn i l) <= count_char c (firstn j l).
Proof.
  unfold count_char. induction l as [|a l IH]; intros i j Hij.
  - now rewrite !firstn_nil.
  - destruct i as [|i]; [simpl; lia|].
    destruct j as [|j]; [lia|].
    cbn [firstn filter]. specialize (IH i j).
    destruct (Ascii.eqb c a); cbn [List.length]; lia.
Qed.

Lemma findLineNumber_count (content : string) (index : nat) :
  findLineNumber content index
  = S (count_char "010"%char (firstn index (Js.chars content))).
Proof.
  unfold findLineNumber. fold (lineCount (Js.substring 0 index content)).
  rewrite lineCount_count. unfold Js.substring. rewrite chars_prefix.
  now rewrite Nat.sub_0_r.
Qed.

(** X11: [findLineNumber(content, index)] is one more than the number of
    newline characters among the first [index] characters of the content:
    it is 1 at index 0, it does not decrease as the index grows, and it
    never exceeds the number of lines of the content, also for an index
    past the end. *)
Theorem X11_findLineNumber_counts_newlines :
  forall (content : string) (index index' : nat),
    findLineNumber content index
    = S (count_char "010"%char (firstn index (Js.chars content)))
    /\ findLineNumber content 0 = 1
    /\ 1 <= findLineNumber content index <= lineCount content
    /\ (index <= index' ->
        findLineNumber content index <= findLineNumber content index').
Proof.
  intros content index index'.
  split; [apply findLineNumber_count|].
  split; [now rewrite findLineNumber_count|].
  split; [apply findLineNumber_bounds|].
  intros H. rewrite !findLineNumber_count.
  apply le_n_S. now apply count_char_firstn_mono.
Qed.

Lemma X11_witness :
  findLineNumber scenarioA 3 <= findLineNumber scenarioA 10.
Proof.
  destruct (X11_findLineNumber_counts_newlines scenarioA 3 10) as [_ [_ [_ H]]].
  apply H. repeat constructor.
Defined.

(* ================================================================== *)
(** ** The severity threshold and the exit status *)
(* ================================================================== *)

Lemma find_unique (l : list QualityRule) (r : QualityRule) :
  NoDup (map id l) -> In r l ->
  find (fun x => String.eqb (id x) (id r)) l = Some r.
Proof.
  induction l as [|x l IH]; intros Hd Hr; [destruct Hr|].
  simpl in Hd. apply NoDup_cons_iff in Hd. destruct Hd as [Hn Hd].
  cbn [find]. destruct Hr as [->|Hr].
  - now rewrite String.eqb_refl.
  - destruct (String.eqb_spec (id x) (id r)) as [E|E].
    + exfalso. apply Hn. rewrite E. now apply in_map.
    + now apply IH.
Qed.

Lemma findRule_builtin (r : QualityRule) : In r allRules -> findRule (id r) = Some r.
Proof. intros Hr. unfold findRule. apply find_unique; [exact allRules_ids_distinct|exact Hr]. Qed.

Lemma collected_filter_rules (content filename : string)
  (p : QualityRule -> bool) (rules : list QualityRule) :
  (forall r, In r rules -> In r allRules) ->
  collected content filename (filter p rules)
  = filter (fun v => match findRule (ruleId v) with
                     | Some r => p r
                     | None => false
                     end)
           (collected content filename rules).
Proof.
  induction rules as [|r rules IH]; intros Hin; [reflexivity|].
  assert (Hr : In r allRules) by (apply Hin; now left).
  assert (Hc : filter (fun v => match findRule (ruleId v) with
                                | Some r => p r
                                | None => false
                                end) (contribution content filename r)
               = if p r then contribution content filename r else []).
  { pose proof (catalog_ruleIds content filename Hr) as Hid.
    induction Hid as [|v vs Hv _ IHv]; [now destruct (p r)|].
    cbn [filter]. rewrite Hv, (findRule_builtin Hr), IHv. now destruct (p r). }
  unfold collected in *. cbn [filter flat_map]. rewrite filter_app, Hc.
  rewrite <- IH by (intros r' Hr'; apply Hin; now right).
  now destruct (p r).
Qed.

(** X12: the severity threshold acts on the violations as a filter.  In a
    review against the built-in catalog, the violations under
    [minSeverity = m] are the violations of the review without threshold
    whose rule has severity at least [m] (info < warning < error), in the
    same order; all others are removed and none is added. *)
Theorem X12_threshold_filters_the_violations :
  forall (content filename : string) (inc exc : option (list RuleCategory))
         (ign : option (list string)) (m : Severity),
  exists f0 f : ReviewedFile.t,
    reviewTestFile content filename (selection inc exc None ign) = Ok f0
    /\ reviewTestFile content filename (selection inc exc (Some m) ign) = Ok f
    /\ ReviewedFile.violations f
       = filter (atLeast m) (ReviewedFile.violations f0).
Proof.
  intros content filename inc exc ign m.
  rewrite !reviewTestFile_returns. cbv zeta.
  eexists; eexists; split; [reflexivity|split; [reflexivity|]].
  cbn [ReviewedFile.violations].
  change (filterRules (selection inc exc (Some m) ign))
    with (filter (fun r => severityIndex m <=? severityIndex (severity r))
                 (filterRules (selection inc exc None ign))).
  rewrite (@filter_same _ (fun r => severityIndex m <=? severityIndex (severity r))
             (fun r => reaches m (severity r)))
    by (intros r; apply severityIndex_reaches).
  rewrite collected_filter_rules; [reflexivity|].
  intros r Hr. now apply filterRules_incl in Hr.
Qed.

Lemma empty_run (env : Env) (rootDir : string) (options : ReviewOptions.t) :
  discovered env rootDir options = [] ->
  reviewTestFiles env rootDir options
  = Ok {| ReviewReport.rootDir := rootDir;
          ReviewReport.timestamp := now env;
          ReviewReport.files := [];
          ReviewReport.summary := createEmptySummary;
          ReviewReport.recommendations :=
            ["No test files found. Start by adding tests!"%string] |}.
Proof.
  intros H. unfold reviewTestFiles. cbv zeta.
  fold (discovered env rootDir options). now rewrite H.
Qed.

(** X13: a run that discovers no test file returns the empty report: no
    file, a summary with [overallScore] 0, all counts zero and no breakdown,
    and the single recommendation "No test files found. Start by adding
    tests!"; the [review] command then exits with status 1, since 0 is
    below its threshold of 50. *)
Theorem X13_no_test_files_found :
  forall (env : Env) (rootDir : string) (options : ReviewOptions.t),
    discovered env rootDir options = [] ->
    exists report : ReviewReport.t,
      reviewTestFiles env rootDir options = Ok report
      /\ ReviewReport.files report = []
      /\ ReviewReport.summary report = createEmptySummary
      /\ ReviewSummary.overallScore (ReviewReport.summary report) = 0%Z
      /\ ReviewSummary.totalFiles (ReviewReport.summary report) = 0
      /\ ReviewSummary.scoreBreakdown (ReviewReport.summary report) = []
      /\ ReviewReport.recommendations report
         = ["No test files found. Start by adding tests!"%string]
      /\ reviewExitStatus (reviewTestFiles env rootDir options) = 1.
Proof.
  intros env rootDir options H.
  rewrite (empty_run _ _ _ H).
  eexists; split; [reflexivity|]. repeat split.
Qed.

Lemma X13_witness :
  reviewExitStatus (reviewTestFiles emptyEnv "/repo" ReviewOptions.empty) = 1.
Proof.
  destruct (@X13_no_test_files_found emptyEnv "/repo" ReviewOptions.empty eq_refl)
    as [report [_ [_ [_ [_ [_ [_ [_ H]]]]]]]].
  exact H.
Defined.

Lemma nonempty_run (env : Env) (rootDir : string) (options : ReviewOptions.t) :
  discovered env rootDir options <> [] ->
  let F := flat_map (reviewedOf env rootDir options)
                    (discovered env rootDir options) in
  reviewTestFiles env rootDir options
  = Ok {| ReviewReport.rootDir := rootDir;
          ReviewReport.timestamp := now env;
          ReviewReport.files := F;
          ReviewReport.summary := generateSummary F;
          ReviewReport.recommendations :=
            generateRecommendations (generateSummary F) F |}.
Proof.
  intros H. cbv zeta. unfold reviewTestFiles. cbv zeta.
  fold (discovered env rootDir options).
  destruct (discovered env rootDir options) as [|p ps]; [contradiction|].
  cbn [List.length Nat.eqb]. rewrite reviewEach_flat_map. reflexivity.
Qed.

Lemma errors_of_summary (files : list ReviewedFile.t) :
  ReviewSummary.violationsBySeverity (generateSummary files) error
  = List.length (filter (hasSeverity error)
                        (flat_map ReviewedFile.violations files)).
Proof.
  destruct (tally_closed_form (flat_map ReviewedFile.violations files))
    as [_ [Hs _]]. apply Hs.
Qed.

(** X14: a run that discovers test files returns the files it could
    review, their aggregate as summary, and the recommendations derived
    from it; the [review] command then exits with status 0 when at least
    one file was reviewed, every file score is at least 50 and at most five
    violations of error-level built-in rules were found, and with status 1
    when more than five such violations were found or when every file score
    of a non-empty report is below 50. *)
Theorem X14_exit_status_of_a_run :
  forall (env : Env) (rootDir : string) (options : ReviewOptions.t),
    discovered env rootDir options <> [] ->
    let F := flat_map (reviewedOf env rootDir options)
                      (discovered env rootDir options) in
    let errors := List.length (filter (hasSeverity error)
                                      (flat_map ReviewedFile.violations F)) in
    reviewTestFiles env rootDir options
    = Ok {| ReviewReport.rootDir := rootDir;
            ReviewReport.timestamp := now env;
            ReviewReport.files := F;
            ReviewReport.summary := generateSummary F;
            ReviewReport.recommendations :=
              generateRecommendations (generateSummary F) F |}
    /\ (F <> [] ->
        Forall (fun f => (50 <= ReviewedFile.score f)%Z) F ->
        errors <= 5 ->
        reviewExitStatus (reviewTestFiles env rootDir options) = 0)
    /\ (5 < errors ->
        reviewExitStatus (reviewTestFiles env rootDir options) = 1)
    /\ (F <> [] ->
        Forall (fun f => (ReviewedFile.score f < 50)%Z) F ->
        reviewExitStatus (reviewTestFiles env rootDir options) = 1).
Proof.
  intros env rootDir options Hd. cbv zeta.
  rewrite (nonempty_run _ _ _ Hd). cbv zeta.
  set (F := flat_map (reviewedOf env rootDir options)
                     (discovered env rootDir options)).
  split; [reflexivity|].
  unfold reviewExitStatus. cbn [ReviewReport.summary].
  rewrite errors_of_summary.
  set (errors := List.length (filter (hasSeverity error)
                                     (flat_map ReviewedFile.violations F))).
  split; [|split].
  - intros Hne Hs He.
    assert (Hb : (50 <= ReviewSummary.overallScore (generateSummary F)
                  <= Z.max 50 (ReviewSummary.overallScore (generateSummary F)))%Z).
    { split; [|lia].
      assert (G : forall b, Forall (fun f => (ReviewedFile.score f <= b)%Z) F ->
                  (50 <= ReviewSummary.overallScore (generateSummary F))%Z).
      { intros b Hbnd.
        apply (@overallScore_between F 50 b Hne).
        rewrite Forall_forall in *. intros f Hf. split; auto. }
      clear He. 
      assert (Hex : exists b, Forall (fun f => (ReviewedFile.score f <= b)%Z) F).
      { clear. induction F as [|f F [b IH]]; [exists 0%Z; constructor|].
        exists (Z.max b (ReviewedFile.score f)). constructor; [lia|].
        eapply Forall_impl; [|exact IH]. intros; cbv beta in *; lia. }
      destruct Hex as [b Hbnd]. exact (G b Hbnd). }
    destruct (Z.ltb_spec (ReviewSummary.overallScore (generateSummary F)) 50);
      [lia|].
    destruct (Nat.ltb_spec 5 errors); [lia|reflexivity].
  - intros He. destruct (Nat.ltb_spec 5 errors); [|lia].
    now rewrite orb_true_r.
  - intros Hne Hs.
    assert (Hex : exists a, Forall (fun f => (a <= ReviewedFile.score f)%Z) F).
    { clear. induction F as [|f F [a IH]]; [exists 0%Z; constructor|].
      exists (Z.min a (ReviewedFile.score f)). constructor; [lia|].
      eapply Forall_impl; [|exact IH]. intros; cbv beta in *; lia. }
    destruct Hex as [a Ha].
    assert (Hb : (a <= ReviewSummary.overallScore (generateSummary F) <= 49)%Z).
    { apply (@overallScore_between F a 49 Hne).
      rewrite Forall_forall in *. intros f Hf.
      specialize (Hs f Hf). specialize (Ha f Hf). lia. }
    destruct (Z.ltb_spec (ReviewSummary.overallScore (generateSummary F)) 50);
      [reflexivity|lia].
Qed.

Lemma X14_witness :
  reviewExitStatus (reviewTestFiles mixedEnv "/repo" ReviewOptions.empty) = 0.
Proof.
  assert (Hd : discovered mixedEnv "/repo" ReviewOptions.empty <> [])
    by discriminate.
  destruct (@X14_exit_status_of_a_run mixedEnv "/repo" ReviewOptions.empty Hd)
    as [_ [H _]].
  apply H.
  - vm_compute. discriminate.
  - vm_compute. repeat constructor; discriminate.
  - vm_compute. repeat constructor.
Defined.

(* ================================================================== *)
(** ** The matcher and the order of the matches *)
(* ================================================================== *)

Lemma skipn_tail (A : Type) (l : list A) :
  forall (n : nat) (a : A) (tl : list A),
    skipn n l = a :: tl -> skipn (S n) l = tl /\ n < List.length l.
Proof.
  induction l as [|x l IH]; intros n a tl H.
  - destruct n; discriminate.
  - destruct n as [|n]; cbn [skipn] in *.
    + injection H as _ <-. split; [reflexivity|simpl; lia].
    + destruct (IH n a tl H) as [H1 H2]. split; [exact H1|simpl; lia].
Qed.

Section MatcherProgress.

Import Regex.

Variable fl0 : flags.
Variable input : list ascii.

Lemma within_step (st : mstate) (a : ascii) (tl : list ascii) :
  within input st -> rest st = a :: tl -> within input (step st tl).
Proof.
  intros [Hr Hp] Ha. unfold within, step; cbn [rest pos].
  rewrite Ha in Hr. symmetry in Hr.
  destruct (skipn_tail _ _ Hr) as [H1 H2].
  split; [now symmetry|lia].
Qed.

(** A successful match continues from a state within the input that is
    not before the state it started from. *)
Lemma rmatch_advances (r : regex) :
  forall (st : mstate) (k : mstate -> option mstate) (res : mstate),
    within input st ->
    rmatch fl0 input r st k = Some res ->
    exists st', within input st' /\ pos st <= pos st' /\ k st' = Some res.
Proof.
  induction r as [ |c| |neg items|r1 IH1 r2 IH2|r1 IH1 r2 IH2|greedy r1 IH1
                  |n r1 IH1|neg r1 IH1|neg r1 IH1| | ];
    intros st k res Hw H; cbn [rmatch] in H.
  - exists st. auto.
  - destruct (rest st) as [|a tl] eqn:Ha; [discriminate|].
    destruct (chr_eq fl0 c a); [|discriminate].
    exists (step st tl). split; [now apply within_step with a|].
    split; [cbn; lia|exact H].
  - destruct (rest st) as [|a tl] eqn:Ha; [discriminate|].
    destruct (Js.is_line_terminator a); [discriminate|].
    exists (step st tl). split; [now apply within_step with a|].
    split; [cbn; lia|exact H].
  - destruct (rest st) as [|a tl] eqn:Ha; [discriminate|].
    destruct (xorb neg (in_class fl0 items a)); [|discriminate].
    exists (step st tl). split; [now apply within_step with a|].
    split; [cbn; lia|exact H].
  - apply IH1 in H; [|exact Hw]. destruct H as [st1 [Hw1 [Hp1 H]]].
    apply IH2 in H; [|exact Hw1]. destruct H as [st2 [Hw2 [Hp2 H]]].
    exists st2. split; [exact Hw2|]. split; [lia|exact H].
  - unfold orElse in H.
    destruct (rmatch fl0 input r1 st k) as [m|] eqn:E.
    + injection H as ->. now apply IH1 in E.
    + now apply IH2 in H.
  - change (star_loop greedy (rmatch fl0 input r1) k (S (List.length (rest st))) st
            = Some res) in H.
    revert H. generalize (S (List.length (rest st))). intros fuel.
    revert st Hw. induction fuel as [|fuel IHf]; intros st Hw H;
      cbn in H; fold (star_loop greedy (rmatch fl0 input r1) k) in H.
    + exists st. auto.
    + assert (Hiter :
                rmatch fl0 input r1 st
                  (fun st1 => if pos st <? pos st1
                              then star_loop greedy (rmatch fl0 input r1) k fuel st1
                              else None) = Some res ->
                exists st', within input st' /\ pos st <= pos st' /\ k st' = Some res).
      { intros Hm. apply IH1 in Hm; [|exact Hw].
        destruct Hm as [st1 [Hw1 [Hp1 Hm]]].
        destruct (pos st <? pos st1); [|discriminate].
        apply IHf in Hm; [|exact Hw1]. destruct Hm as [st2 [Hw2 [Hp2 Hm]]].
        exists st2. split; [exact Hw2|]. split; [lia|exact Hm]. }
      destruct greedy; unfold orElse in H.
      * match type of H with
        | match ?x with _ => _ end = _ => destruct x as [m|] eqn:E
        end.
        -- injection H as ->. now apply Hiter.
        -- exists st. auto.
      * destruct (k st) as [m|] eqn:E.
        -- injection H as ->. exists st. auto.
        -- now apply Hiter.
  - apply IH1 in H; [|exact Hw]. destruct H as [st1 [Hw1 [Hp1 H]]].
    eexists. split; [|split; [|exact H]]; [|cbn [pos]; exact Hp1].
    destruct Hw1 as [Ha Hb]. split; cbn [rest pos]; assumption.
  - destruct (xorb neg _); [|discriminate]. exists st. auto.
  - destruct (xorb neg _); [|discriminate]. exists st. auto.
  - destruct (at_bol fl0 input st); [|discriminate]. exists st. auto.
  - destruct (at_eol fl0 st); [|discriminate]. exists st. auto.
Qed.

Lemma search_within (r : regex) (l : list ascii) :
  forall (p : nat) (m : rmatch_result),
    l = skipn p input -> p <= List.length input ->
    search fl0 input r p l = Some m ->
    p <= index m /\ index m <= stop m /\ stop m <= List.length input.
Proof.
  induction l as [|a l IH]; intros p m Hl Hp H; cbn [search] in H.
  - destruct (rmatch fl0 input r {| pos := p; rest := []; caps := [] |}
                (fun st => Some st)) as [st|] eqn:E; [|discriminate].
    injection H as <-. cbn [index stop].
    apply rmatch_advances in E; [|split; [exact Hl|exact Hp]].
    destruct E as [st' [[_ Hw] [Hp' E]]]. injection E as ->. cbn [pos] in Hp'. lia.
  - destruct (rmatch fl0 input r {| pos := p; rest := a :: l; caps := [] |}
                (fun st => Some st)) as [st|] eqn:E.
    + injection H as <-. cbn [index stop].
      apply rmatch_advances in E; [|split; [exact Hl|exact Hp]].
      destruct E as [st' [[_ Hw] [Hp' E]]]. injection E as ->. cbn [pos] in Hp'. lia.
    + assert (Hw : within input (step {| pos := p; rest := a :: l; caps := [] |} l)).
      { apply within_step with a; [split; [exact Hl|exact Hp]|reflexivity]. }
      destruct Hw as [Hw1 Hw2]. cbn [step pos rest] in Hw1, Hw2.
      destruct (IH (S p) m Hw1 Hw2 H) as [H1 [H2 H3]]. lia.
Qed.

End MatcherProgress.

Lemma exec_from_within (p : Regex.pattern) (s : string) (lastIndex : nat)
  (m : Regex.rmatch_result) :
  Regex.exec_from p s lastIndex = Some m -> match_within s lastIndex m.
Proof.
  unfold Regex.exec_from. intros H.
  destruct (Nat.ltb_spec (List.length (Js.chars s)) lastIndex) as [Hlt|Hge];
    [discriminate|].
  apply search_within in H; [|reflexivity|exact Hge].
  unfold match_within. now rewrite <- chars_length.
Qed.

Lemma execLoop_sorted (fuel : nat) (p : Regex.pattern) (s : string) :
  forall lastIndex,
    Forall (match_within s lastIndex) (Regex.execLoop fuel p s lastIndex)
    /\ StronglySorted precedes (Regex.execLoop fuel p s lastIndex).
Proof.
  induction fuel as [|fuel IH]; intros lastIndex; cbn [Regex.execLoop].
  - split; constructor.
  - destruct (Regex.exec_from p s lastIndex) as [m|] eqn:E; [|split; constructor].
    apply exec_from_within in E. destruct (IH (Regex.stop m)) as [Hf Hs].
    destruct E as [E1 [E2 E3]]. split.
    + constructor; [repeat split; assumption|].
      eapply Forall_impl; [|exact Hf]. intros m' [H1 [H2 H3]].
      repeat split; try assumption. lia.
    + constructor; [exact Hs|].
      eapply Forall_impl; [|exact Hf]. intros m' [H1 _]. exact H1.
Qed.

Lemma StronglySorted_map_from (A B : Type) (R : A -> A -> Prop)
  (R' : B -> B -> Prop) (Q : A -> Prop) (g : A -> B) (l : list A) :
  StronglySorted R l -> Forall Q l ->
  (forall a b, Q a -> Q b -> R a b -> R' (g a) (g b)) ->
  StronglySorted R' (map g l).
Proof.
  intros Hs Hq HR. induction Hs as [|a l Hs IH Ha]; simpl; [constructor|].
  inversion Hq as [|? ? Hqa Hql]; subst.
  constructor; [now apply IH|].
  rewrite Forall_map. rewrite Forall_forall in *.
  intros b Hb. apply HR; auto.
Qed.

Lemma matchAllWithLineNumbers_sorted (content : string) (p : Regex.pattern) :
  Forall (fun lm =>
            match_within content 0 (lm_match lm)
            /\ lm_line lm = findLineNumber content (Regex.index (lm_match lm))
            /\ lm_snippet lm = getLineContent content (lm_line lm))
         (matchAllWithLineNumbers content p)
  /\ StronglySorted lm_precedes (matchAllWithLineNumbers content p).
Proof.
  unfold matchAllWithLineNumbers, Regex.execAll.
  destruct (execLoop_sorted (S (String.length content)) p content 0) as [Hf Hs].
  split.
  - rewrite Forall_map. eapply Forall_impl; [|exact Hf].
    intros m Hm. cbn [lm_match lm_line lm_snippet]. auto.
  - eapply StronglySorted_map_from; [exact Hs|exact Hf|].
    intros a b [_ [Ha _]] _ Hab. unfold lm_precedes, precedes in *.
    cbn [lm_match lm_line]. split; [exact Hab|].
    rewrite !findLineNumber_count. apply le_n_S.
    apply count_char_firstn_mono. lia.
Qed.

(** X15: [matchAllWithLineNumbers] returns the matches of a pattern in
    source order.  Every match lies within the content (0 <= index <= end
    <= length), each match starts at or after the end of the one before
    (no overlap), the line of a match is [findLineNumber] of its index and
    its snippet the trimmed content of that line, and the line numbers
    never decrease along the list. *)
Theorem X15_matches_in_source_order :
  forall (content : string) (p : Regex.pattern),
    Forall (fun lm =>
              match_within content 0 (lm_match lm)
              /\ lm_line lm = findLineNumber content (Regex.index (lm_match lm))
              /\ lm_snippet lm = getLineContent content (lm_line lm))
           (matchAllWithLineNumbers content p)
    /\ StronglySorted lm_precedes (matchAllWithLineNumbers content p).
Proof. exact matchAllWithLineNumbers_sorted. Qed.

Lemma StronglySorted_app (A : Type) (R : A -> A -> Prop) (l1 l2 : list A) :
  StronglySorted R l1 -> StronglySorted R l2 ->
  (forall x y, In x l1 -> In y l2 -> R x y) ->
  StronglySorted R (l1 ++ l2).
Proof.
  intros H1 H2 H. induction H1 as [|a l1 H1 IH Ha]; simpl; [exact H2|].
  constructor.
  - apply IH. intros x y Hx Hy. apply H; [now right|exact Hy].
  - apply Forall_app. split; [exact Ha|].
    rewrite Forall_forall. intros y Hy. apply H; [now left|exact Hy].
Qed.

Lemma same_line_sorted (n : nat) (vs : list RuleViolation) :
  Forall (fun v => line v = Some n) vs -> StronglySorted line_le vs.
Proof.
  induction 1 as [|v vs Hv Hvs IH]; constructor; [exact IH|].
  eapply Forall_impl; [|exact Hvs]. intros w Hw.
  exists n, n. auto.
Qed.

Lemma flat_map_lines_sorted (g : LineMatch -> list RuleViolation)
  (L : list LineMatch) :
  StronglySorted lm_precedes L ->
  (forall lm, Forall (fun v => line v = Some (lm_line lm)) (g lm)) ->
  StronglySorted line_le (flat_map g L).
Proof.
  intros Hs Hg. induction Hs as [|a L Hs IH Ha]; simpl; [constructor|].
  apply StronglySorted_app; [now apply same_line_sorted with (lm_line a)|exact IH|].
  intros x y Hx Hy. apply in_flat_map in Hy. destruct Hy as [b [Hb Hy]].
  pose proof (Hg a) as Hga. pose proof (Hg b) as Hgb.
  rewrite Forall_forall in Hga, Hgb, Ha.
  exists (lm_line a), (lm_line b).
  split; [now apply Hga|]. split; [now apply Hgb|].
  now destruct (Ha b Hb).
Qed.

Lemma map_as_flat_map (A B : Type) (g : A -> B) (l : list A) :
  map g l = flat_map (fun x => [g x]) l.
Proof. induction l as [|a l IH]; simpl; [reflexivity|now rewrite IH]. Qed.

Lemma map_lines_sorted (g : LineMatch -> RuleViolation) (L : list LineMatch) :
  StronglySorted lm_precedes L ->
  (forall lm, line (g lm) = Some (lm_line lm)) ->
  StronglySorted line_le (map g L).
Proof.
  intros Hs Hg. rewrite map_as_flat_map.
  apply flat_map_lines_sorted; [exact Hs|].
  intros lm. constructor; [apply Hg|constructor].
Qed.

Ltac same_line :=
  repeat first
    [ apply Forall_nil
    | apply Forall_cons; [reflexivity|]
    | apply Forall_app; split
    | progress cbv beta zeta
    | match goal with
      | |- Forall _ (if ?b then _ else _) => destruct b
      | |- Forall _ (match ?x with _ => _ end) => destruct x
      end ].

Ltac in_text_order :=
  cbv beta zeta;
  repeat match goal with
         | |- StronglySorted _ (if ?b then _ else _) => destruct b
         end;
  first
    [ apply SSorted_nil
    | apply map_lines_sorted;
        [apply matchAllWithLineNumbers_sorted|intros; reflexivity]
    | apply flat_map_lines_sorted;
        [apply matchAllWithLineNumbers_sorted|intros; same_line] ].

(** X16: the rules that report the matches of one pattern report them in
    text order: for [flaky/shared-state], [flaky/network-dependency],
    [theater/no-assertions], [theater/empty-test], [theater/console-only],
    [isolation/filesystem-side-effects], [maintain/poor-test-name],
    [maintain/magic-numbers], [structure/arrange-act-assert] and
    [structure/multiple-acts], every violation has a line number and the
    line numbers never decrease along the list of violations. *)
Theorem X16_single_pattern_rules_report_in_text_order :
  forall content filename : string,
    Forall (fun detect => StronglySorted line_le (detect content filename))
           singlePatternDetectors.
Proof.
  intros content filename. unfold singlePatternDetectors.
  repeat (apply Forall_cons;
          [cbv beta delta
             [detect_shared_state detect_network_dependency detect_no_assertions
              detect_empty_test detect_console_only detect_filesystem_side_effects
              detect_poor_test_name detect_magic_numbers detect_arrange_act_assert
              detect_multiple_acts];
           in_text_order|]).
  apply Forall_nil.
Qed.

(* ================================================================== *)
(** ** File-level rules *)
(* ================================================================== *)

Lemma NoDup_map_filter (A B : Type) (g : A -> B) (p : A -> bool) (l : list A) :
  NoDup (map g l) -> NoDup (map g (filter p l)).
Proof.
  induction l as [|x l IH]; intros H; simpl; [constructor|].
  simpl in H. apply NoDup_cons_iff in H. destruct H as [Hn Hd].
  destruct (p x); simpl; [|now apply IH].
  constructor; [|now apply IH].
  intros Hin. apply Hn. apply in_map_iff in Hin. destruct Hin as [y [E Hy]].
  apply filter_In in Hy. destruct Hy as [Hy _]. rewrite <- E. now apply in_map.
Qed.

Lemma filterRules_ids_distinct (inc exc : option (list RuleCategory))
  (sev : option Severity) (ign : option (list string)) :
  NoDup (map id (filterRules (selection inc exc sev ign))).
Proof.
  unfold filterRules, selection.
  cbn [ReviewOptions.rules ReviewOptions.includedCategories
       ReviewOptions.excludedCategories ReviewOptions.minSeverity].
  destruct inc as [[|c cs]|]; destruct exc as [[|c' cs']|]; destruct sev as [s|];
    repeat apply NoDup_map_filter; exact allRules_ids_distinct.
Qed.

Lemma firings_absent (content filename : string) (i : string)
  (rules : list QualityRule) :
  (forall x, In x rules ->
     Forall (fun v => ruleId v = id x) (contribution content filename x)) ->
  (forall x, In x rules -> id x <> i) ->
  firings i (collected content filename rules) = 0.
Proof.
  induction rules as [|x rules IH]; intros Hid Hne; [reflexivity|].
  unfold collected. cbn [flat_map]. rewrite firings_app.
  rewrite (@firings_other i (id x));
    [|apply Hid; now left|apply Hne; now left].
  apply IH; intros y Hy; [apply Hid|apply Hne]; now right.
Qed.

(** With distinct rule ids, the violations that carry a given id are those
    of the one rule with that id, so a bound on what that rule reports
    bounds them. *)
Lemma firings_le (content filename : string) (i : string) (n : nat)
  (rules : list QualityRule) :
  NoDup (map id rules) ->
  (forall x, In x rules ->
     Forall (fun v => ruleId v = id x) (contribution content filename x)) ->
  (forall x, In x rules -> id x = i ->
     List.length (contribution content filename x) <= n) ->
  firings i (collected content filename rules) <= n.
Proof.
  induction rules as [|x rules IH]; intros Hd Hid Hn; [apply Nat.le_0_l|].
  simpl in Hd. apply NoDup_cons_iff in Hd. destruct Hd as [Hx Hd].
  unfold collected. cbn [flat_map]. rewrite firings_app.
  fold (collected content filename rules).
  destruct (String.eqb_spec (id x) i) as [E|E].
  - rewrite <- E. rewrite firings_same by (apply Hid; now left).
    rewrite firings_absent; [rewrite Nat.add_0_r; apply Hn; [now left|exact E]| |].
    + intros y Hy. apply Hid. now right.
    + intros y Hy Ey. apply Hx. rewrite <- Ey. now apply in_map.
  - rewrite (@firings_other i (id x)); [|apply Hid; now left|exact E].
    apply IH; [exact Hd| |].
    + intros y Hy. apply Hid. now right.
    + intros y Hy. apply Hn. now right.
Qed.

Ltac at_most_one :=
  repeat first
    [ progress cbv beta zeta
    | match goal with
      | |- List.length (if ?b then _ else _) <= _ => destruct b
      end ];
  cbn [List.length]; auto with arith.

(** Each of the file-level rules reports at most one violation. *)
Lemma file_level_contribution (content filename : string) (r : QualityRule) :
  In r allRules -> In (id r) fileLevelRuleIds ->
  List.length (contribution content filename r) <= 1.
Proof.
  intros Hr Hid.
  unfold allRules, flakyTestRules, theaterRules, overMockingRules, assertionRules,
    isolationRules, maintainabilityRules, structureRules in Hr.
  cbn [app In] in Hr.
  unfold fileLevelRuleIds in Hid.
  repeat (destruct Hr as [<-|Hr];
          [cbn [id In] in Hid;
           first
             [ exfalso;
               repeat (destruct Hid as [Hid|Hid]; [discriminate Hid|]);
               exact Hid
             | clear Hid; unfold contribution; cbn [detect];
               cbv beta zeta delta
                 [detect_excessive_mocking detect_mock_return_ignores_input
                  detect_no_error_assertion detect_single_assertion_syndrome
                  detect_test_order_dependency detect_deeply_nested
                  detect_large_test_file detect_missing_describe];
               at_most_one ] |]).
  all: try contradiction.
Qed.

(** X17: eight rules of the catalog judge the file as a whole (excessive
    mocking, fixed mock returns, missing error assertions, too few
    assertions, test order dependency, deep nesting, file size, missing
    describe block): in a review against the built-in catalog each of them
    is reported at most once for a file, whatever the content and the
    selection. *)
Theorem X17_file_level_rules_fire_at_most_once :
  forall (content filename : string) (inc exc : option (list RuleCategory))
         (sev : option Severity) (ign : option (list string))
         (f : ReviewedFile.t) (i : string),
    reviewTestFile content filename (selection inc exc sev ign) = Ok f ->
    In i fileLevelRuleIds ->
    firings i (ReviewedFile.violations f) <= 1.
Proof.
  intros content filename inc exc sev ign f i Hf Hi.
  destruct (reviewTestFile_fields _ _ _ Hf) as [_ [H1 _]].
  rewrite H1. apply firings_le.
  - apply filterRules_ids_distinct.
  - intros x Hx. apply catalog_ruleIds. now apply filterRules_incl in Hx.
  - intros x Hx E. apply filterRules_incl in Hx.
    apply file_level_contribution; [exact Hx|now rewrite E].
Qed.

Lemma X17_witness :
  exists f : ReviewedFile.t,
    reviewTestFile scenarioA "a.test.ts" (selection None None None None) = Ok f
    /\ firings "structure/missing-describe" (ReviewedFile.violations f) <= 1.
Proof.
  eexists. split; [apply reviewTestFile_returns|].
  apply (@X17_file_level_rules_fire_at_most_once scenarioA "a.test.ts"
           None None None None _ "structure/missing-describe"%string).
  - apply reviewTestFile_returns.
  - unfold fileLevelRuleIds. cbn [In]. do 7 right. left. reflexivity.
Defined.

(* ================================================================== *)
(** ** Recommendations *)
(* ================================================================== *)

Lemma no_violations (files : list ReviewedFile.t) :
  Forall (fun f => ReviewedFile.violations f = []) files ->
  flat_map ReviewedFile.violations files = [].
Proof.
  induction 1 as [|f files Hf _ IH]; [reflexivity|].
  cbn [flat_map]. now rewrite Hf, IH.
Qed.

Lemma clean_summary (files : list ReviewedFile.t) :
  flat_map ReviewedFile.violations files = [] ->
  let s := generateSummary files in
  (forall c, ReviewSummary.violationsByCategory s c = 0)
  /\ ReviewSummary.totalViolations s = 0
  /\ filter (fun c => (0 <? CategoryScore.violations c)%nat)
            (ReviewSummary.scoreBreakdown s) = [].
Proof.
  intros H. cbv zeta. unfold generateSummary.
  cbn [ReviewSummary.violationsByCategory ReviewSummary.totalViolations
       ReviewSummary.scoreBreakdown].
  rewrite H. cbn [fold_left List.length emptyTally byCategory].
  split; [reflexivity|]. split; [reflexivity|].
  generalize CATEGORY_KEYS. intros l.
  induction l as [|c l IH]; [reflexivity|].
  cbn [map filter CategoryScore.violations Nat.ltb Nat.leb]. exact IH.
Qed.

Lemma clean_overallScore (files : list ReviewedFile.t) :
  Forall (fun f => ReviewedFile.score f = 100%Z) files ->
  ReviewSummary.overallScore (generateSummary files) = 100%Z.
Proof.
  intros H. destruct files as [|f files]; [reflexivity|].
  assert (G : (100 <= ReviewSummary.overallScore (generateSummary (f :: files)) <= 100)%Z).
  { apply overallScore_between; [discriminate|].
    eapply Forall_impl; [|exact H]. intros g Hg. cbv beta in Hg. rewrite Hg. lia. }
  lia.
Qed.

Lemma clean_recommendations (files : list ReviewedFile.t) :
  Forall (fun f => ReviewedFile.violations f = []) files ->
  Forall (fun f => ReviewedFile.score f = 100%Z) files ->
  generateRecommendations (generateSummary files) files
  = densityAdvice (generateSummary files) ++ positiveFeedback.
Proof.
  intros Hv Hs.
  destruct (clean_summary files (no_violations Hv)) as [Hc [Ht Hf]].
  cbv zeta in Hc, Ht, Hf.
  pose proof (clean_overallScore Hs) as Ho.
  unfold generateRecommendations, densityAdvice. cbv zeta.
  rewrite Hf, !Hc, Ht, Ho.
  cbn [Nat.ltb Nat.leb Nat.eqb Z.ltb Z.leb Z.compare Pos.compare Pos.compare_cont
       js_sort firstn flat_map].
  destruct ((0 <? ReviewSummary.totalTests (generateSummary files))%nat
            && (ReviewSummary.totalAssertions (generateSummary files)
                <? ReviewSummary.totalTests (generateSummary files))%nat);
    reflexivity.
Qed.

Lemma clean_files (env : Env) (rootDir : string) (options : ReviewOptions.t)
  (testFiles : list string) :
  Forall (fun f => ReviewedFile.violations f = [] -> ReviewedFile.score f = 100%Z)
         (flat_map (reviewedOf env rootDir options) testFiles).
Proof.
  eapply Forall_impl; [|apply reviewedOf_each].
  intros f [content [f0 [_ [Hf0 Hf]]]] Hv.
  destruct (reviewTestFile_fields _ _ _ Hf0) as [_ [H1 [H2 _]]].
  cbv zeta in H1, H2.
  rewrite Hf in Hv |- *. cbn [setRelativePath ReviewedFile.violations ReviewedFile.score] in *.
  rewrite H2, <- H1, Hv. apply clean_scores.
Qed.

(** X18: a run that discovers test files and finds no violation in the
    files it could review has [overallScore] 100 and exactly these
    recommendations: the advice on assertion density when there are tests
    and fewer assertions than tests, then the two messages of positive
    feedback.  It holds also when none of the discovered files could be
    read. *)
Theorem X18_recommendations_of_a_clean_run :
  forall (env : Env) (rootDir : string) (options : ReviewOptions.t),
    discovered env rootDir options <> [] ->
    let F := flat_map (reviewedOf env rootDir options)
                      (discovered env rootDir options) in
    Forall (fun f => ReviewedFile.violations f = []) F ->
    exists report : ReviewReport.t,
      reviewTestFiles env rootDir options = Ok report
      /\ ReviewReport.files report = F
      /\ ReviewSummary.overallScore (ReviewReport.summary report) = 100%Z
      /\ ReviewReport.recommendations report
         = densityAdvice (ReviewReport.summary report) ++ positiveFeedback.
Proof.
  intros env rootDir options Hd F Hv.
  rewrite (nonempty_run _ _ _ Hd). cbv zeta. fold F.
  eexists. split; [reflexivity|].
  cbn [ReviewReport.files ReviewReport.summary ReviewReport.recommendations].
  assert (Hs : Forall (fun f => ReviewedFile.score f = 100%Z) F).
  { pose proof (clean_files env rootDir options (discovered env rootDir options)) as G.
    fold F in G. rewrite Forall_forall in *. intros f Hf. apply G; auto. }
  split; [reflexivity|]. split.
  - now apply clean_overallScore.
  - now apply clean_recommendations.
Qed.

Lemma X18_witness :
  exists report : ReviewReport.t,
    reviewTestFiles cleanEnv "/repo" ReviewOptions.empty = Ok report
    /\ List.length (ReviewReport.files report) = 1
    /\ ReviewSummary.overallScore (ReviewReport.summary report) = 100%Z
    /\ ReviewReport.recommendations report = positiveFeedback.
Proof.
  assert (Hd : discovered cleanEnv "/repo" ReviewOptions.empty <> [])
    by discriminate.
  destruct (@X18_recommendations_of_a_clean_run cleanEnv "/repo"
              ReviewOptions.empty Hd) as [report [Hr [Hf [Ho Hrec]]]].
  - vm_compute. repeat constructor.
  - exists report. split; [exact Hr|]. split; [|split; [exact Ho|]].
    + rewrite Hf. vm_compute. reflexivity.
    + rewrite Hrec. 
      replace (densityAdvice (ReviewReport.summary report)) with (@nil string);
        [reflexivity|].
      apply (f_equal (fun r => match r with
                               | Ok x => densityAdvice (ReviewReport.summary x)
                               | Throw _ => []
                               end)) in Hr.
      cbv beta iota in Hr. rewrite <- Hr. vm_compute. reflexivity.
Defined.
